(** * Channel-group block (CG) of the MDF4 container: a shallow embedding

    The development follows [mdflib/src/cg4block.cpp].  Machine integers are
    integers of [Z] with their wrap-around written out, byte buffers are lists
    of integers in [0, 256), owning pointers ([std::unique_ptr]) are options and
    the channel hierarchy, which the C++ code owns through unique pointers, is
    a tree. *)

From Stdlib Require Import ZArith Lia.
From stdpp Require Import base numbers option list strings.

Local Open Scope Z_scope.

(** ** Machine integers *)

Definition u32 (x : Z) : Z := x mod 2 ^ 32.
Definition u64 (x : Z) : Z := x mod 2 ^ 64.

(** ** Channels *)

(** Modelled from the spec: the enumeration [ChannelType] is declared in the
    channel interface, which is not in this translation unit; the
    constructors are the channel kinds of the format. *)
Inductive ChannelType : Set :=
  | FixedLength
  | VariableLength
  | Master
  | VirtualMaster
  | Sync
  | MaxLength
  | VirtualData.

#[global] Instance ChannelType_eq_dec : EqDecision ChannelType.
Proof. solve_decision. Defined.

(** Modelled from the spec: the class [Cn4Block] is declared in the channel
    block, which is not in this translation unit.  These are the members
    the channel group reads or sets through the channel's interface. *)
Record CnFields : Type := mkCnFields {
  cn_Index : Z;                  (* Index(): the block's file position *)
  cn_Name : string;              (* Name() *)
  cn_Type : ChannelType;         (* Type() *)
  cn_Flags : Z;                  (* Flags() *)
  cn_DataBytes : Z;              (* DataBytes(): the reported width *)
  cn_byte_offset : Z;            (* set by PrepareForWriting(offset) *)
  cn_invalid_offset : Z;         (* set by SetInvalidOffset(bit) *)
  cn_XAxisLinkList : list Z;     (* XAxisLinkList() *)
  cn_data_link : Z               (* set by UpdateDataLink(file, position) *)
}.

(** A CN block owns its composition list [Cx4()]: each entry is a null
    pointer, a nested CN block, or a block that is not a [Cn4Block] (a CA
    block, ...), kept with its block type. *)
Inductive Cn4Block : Type :=
  | Cn4 (fields : CnFields) (cx_list : list CxBlock)
with CxBlock : Type :=
  | CxNull
  | CxCn (cn : Cn4Block)
  | CxOther (block_type : string).

Definition fields_of (c : Cn4Block) : CnFields :=
  match c with Cn4 f _ => f end.

Definition Index_cn (c : Cn4Block) : Z := cn_Index (fields_of c).
Definition Type_cn (c : Cn4Block) : ChannelType := cn_Type (fields_of c).
Definition Name_cn (c : Cn4Block) : string := cn_Name (fields_of c).
Definition XAxisLinkList (c : Cn4Block) : list Z := cn_XAxisLinkList (fields_of c).

(** [AddCxChannels]: the nested channels of [cn_block], depth first, in the
    order in which the C++ function pushes them on [channel_list].  A null
    entry is skipped, and so is an entry that is not a CN block: its
    [BlockType()] is not "CN", or the downcast to [Cn4Block] fails. *)
Fixpoint AddCxChannels (cn_block : Cn4Block) : list Cn4Block :=
  match cn_block with
  | Cn4 _ cx_list =>
      (fix each (l : list CxBlock) : list Cn4Block :=
         match l with
         | [] => []
         | cx :: rest =>
             match cx with
             | CxNull => each rest
             | CxOther _ => each rest
             | CxCn cn4_block =>
                 cn4_block :: AddCxChannels cn4_block ++ each rest
             end
         end) cx_list
  end.

(** Modelled from the spec: [IChannel] is the channel interface, declared
    outside this translation unit.  A reference is a CN block of this
    format, or a channel of another implementation, on which the downcast to
    [Cn4Block] fails. *)
Inductive IChannel : Type :=
  | IsCn4 (cn : Cn4Block)
  | NotCn4 (f : CnFields).

Definition dynamic_cast_Cn4Block (reference : IChannel) : option Cn4Block :=
  match reference with
  | IsCn4 cn => Some cn
  | NotCn4 _ => None
  end.

(** ** Blocks of the base class and blocks owned by the group *)

(** Modelled from the spec: the source-information, sample-reduction and
    comment blocks are declared outside this translation unit and are out
    of scope; only their identity is kept. *)

Record Si4Block : Type := mkSi4Block { si_Index : Z }.
Record Sr4Block : Type := mkSr4Block { sr_Index : Z }.
Record Md4Block : Type := mkMd4Block { md_Index : Z; md_text : string }.

(** Modelled from the spec: the block base class [MdfBlock] is declared
    outside this translation unit; these are the members the group uses. *)
Record MdfBlock : Type := mkMdfBlock {
  file_position_ : Z;
  block_type_ : string;
  block_length_ : Z;
  link_list_ : list Z
}.

(** ** The channel group *)

(** Modelled from the spec: the class declaration of [Cg4Block] is not in
    this translation unit.  The members are those [cg4block.cpp] uses, with
    the widths of the data model: 64-bit record id, sample count and replay
    cursor, 16-bit flags and path separator, 32-bit byte counts, 64-bit file
    positions. *)
Record Cg4Block : Type := mkCg4Block {
  base : MdfBlock;
  record_id_ : Z;
  nof_samples_ : Z;
  flags_ : Z;
  path_separator_ : Z;
  nof_data_bytes_ : Z;
  nof_invalid_bytes_ : Z;
  acquisition_name_ : string;
  cn_list_ : list (option Cn4Block);
  si_block_ : option Si4Block;
  sr_list_ : list (option Sr4Block);
  md_comment_ : option Md4Block;
  sample_ : Z;
  sample_buffer_ : list Z;
  nof_samples_position_ : Z;
  nof_data_position_ : Z;
  nof_invalid_position_ : Z
}.

Definition FilePosition (cg : Cg4Block) : Z := file_position_ (base cg).
Definition Index (cg : Cg4Block) : Z := FilePosition cg.
Definition NofSamples (cg : Cg4Block) : Z := nof_samples_ cg.
Definition RecordId (cg : Cg4Block) : Z := record_id_ cg.
Definition Flags (cg : Cg4Block) : Z := flags_ cg.
Definition Sample (cg : Cg4Block) : Z := sample_ cg.

(** [Channels()]: the group's channels with the composition channels
    flattened in, depth first. *)
Fixpoint flatten_cn_list (l : list (option Cn4Block)) : list Cn4Block :=
  match l with
  | [] => []
  | None :: rest => flatten_cn_list rest
  | Some cn_block :: rest =>
      cn_block :: AddCxChannels cn_block ++ flatten_cn_list rest
  end.

Definition Channels (cg : Cg4Block) : list Cn4Block :=
  flatten_cn_list (cn_list_ cg).

(** [std::find_if] over a vector of possibly null pointers. *)
Definition find_if {A : Type} (p : A -> bool) (l : list (option A)) : option A :=
  match List.find (fun x => match x with Some a => p a | None => false end) l with
  | Some (Some a) => Some a
  | _ => None
  end.

Definition is_master (c : Cn4Block) : bool :=
  bool_decide (Type_cn c = Master) || bool_decide (Type_cn c = VirtualMaster).

(** [Cg4Block::GetXChannel]. *)
Definition GetXChannel (cg : Cg4Block) (reference : IChannel) : option Cn4Block :=
  match dynamic_cast_Cn4Block reference with
  | None => None
  | Some cn4 =>
      let x_axis_list := XAxisLinkList cn4 in
      let dedicated :=
        if bool_decide (length x_axis_list = 3%nat)
           && (nth 1 x_axis_list 0 =? Index cg)
           && negb (nth 2 x_axis_list 0 =? 0)
        then
          let channel_index := nth 2 x_axis_list 0 in
          find_if (fun p => Index_cn p =? channel_index) (cn_list_ cg)
        else None in
      match dedicated with
      | Some p => Some p
      | None => find_if is_master (cn_list_ cg)
      end
  end.

(** ** Files *)

(** A file is its bytes and the position of the stream. *)
Record File : Type := mkFile {
  file_bytes : list Z;
  file_pos : Z
}.

(** The byte stored at position [p]; positions past the end read as 0,
    which is also what a hole left by a write past the end holds. *)
Definition byte_at (file : File) (p : Z) : Z :=
  if p <? 0 then 0 else default 0 (file_bytes file !! Z.to_nat p).

(** [std::fread(buffer, 1, n, file)]: the bytes obtained, at most [n]. *)
Definition fread (n : Z) (file : File) : list Z * File :=
  let got := take (Z.to_nat n) (drop (Z.to_nat (file_pos file)) (file_bytes file)) in
  (got, mkFile (file_bytes file) (file_pos file + Z.of_nat (length got))).

(** A vector of [n] zero bytes whose front was overwritten by a read. *)
Definition read_into (n : Z) (got : list Z) : list Z :=
  got ++ replicate (Z.to_nat n - length got) 0.

(** [std::fwrite] at the stream position: bytes are overwritten in place and
    the file grows when the write runs past its end. *)
Definition fwrite (bs : list Z) (file : File) : File :=
  let p := Z.to_nat (file_pos file) in
  mkFile (resize p 0 (file_bytes file) ++ bs ++ drop (p + length bs) (file_bytes file))
         (file_pos file + Z.of_nat (length bs)).

Fixpoint le_bytes (n : nat) (v : Z) : list Z :=
  match n with
  | O => []
  | S n' => v mod 256 :: le_bytes n' (v / 256)
  end.

Fixpoint le_value (bs : list Z) : Z :=
  match bs with
  | [] => 0
  | b :: rest => b + 256 * le_value rest
  end.

(** Modelled from the spec: the stream helpers of the block base class
    ([SetFilePosition], [GetFilePosition], [WriteNumber], [WriteBytes]) are
    not in this translation unit.  Fixed fields are written little endian
    in their declared width at the stream position; each write reports the
    number of bytes written. *)
Definition SetFilePosition (file : File) (position : Z) : File :=
  mkFile (file_bytes file) position.

Definition GetFilePosition (file : File) : Z := file_pos file.

Definition WriteNumber (width : nat) (file : File) (v : Z) : Z * File :=
  (Z.of_nat width, fwrite (le_bytes width v) file).

Definition WriteBytes (file : File) (n : nat) : Z * File :=
  (Z.of_nat n, fwrite (replicate n 0) file).

(** ** Collaborators that are not in this translation unit

    The block-level readers and writers of the base class and of the channel
    block are taken as parameters.  Their types say what each one may touch:
    the file, the link table, and the child blocks handed to it.  A reader
    that raises is [None]. *)
Class MdfBlockIo : Type := {
  (* ReadNumber(file, length) on a 32-bit destination: bytes read, value *)
  ReadNumber_u32 : File -> option (Z * Z * File);
  (* StepFilePosition(file, steps): bytes stepped *)
  StepFilePosition : File -> Z -> Z * File;
  (* WriteLink4List(file, cn_list_, kIndexCn, DoNotUpdateWrittenBlock) *)
  WriteLink4List_cn :
    File -> MdfBlock -> list (option Cn4Block) ->
    list Z * list (option Cn4Block) * File;
  (* WriteTx4(file, kIndexName, acquisition_name_) *)
  WriteTx4 : File -> MdfBlock -> string -> list Z * File;
  (* WriteBlock4(file, si_block_, kIndexSi) *)
  WriteBlock4_si :
    File -> MdfBlock -> option Si4Block -> list Z * option Si4Block * File;
  (* WriteLink4List(file, sr_list_, kIndexSr, DoNotUpdateWrittenBlock) *)
  WriteLink4List_sr :
    File -> MdfBlock -> list (option Sr4Block) ->
    list Z * list (option Sr4Block) * File;
  (* WriteMdComment(file, kIndexMd) *)
  WriteMdComment :
    File -> MdfBlock -> option Md4Block -> list Z * option Md4Block * File;
  (* MdfBlock::Update(file): bytes *)
  MdfBlock_Update : File -> MdfBlock -> Z * File;
  (* MdfBlock::Write(file): bytes, the position assigned to the block *)
  MdfBlock_Write : File -> MdfBlock -> Z * Z * File;
  (* UpdateBlockSize(file, bytes): the block length *)
  UpdateBlockSize : File -> MdfBlock -> Z -> Z * File;
  (* Cn4Block::UpdateDataLink(file, position): what it does to the file *)
  UpdateDataLink_file : File -> Cn4Block -> Z -> File
}.

(** ** Field updates *)

Definition set_base (b : MdfBlock) (cg : Cg4Block) : Cg4Block :=
  mkCg4Block b (record_id_ cg) (nof_samples_ cg) (flags_ cg) (path_separator_ cg)
    (nof_data_bytes_ cg) (nof_invalid_bytes_ cg) (acquisition_name_ cg)
    (cn_list_ cg) (si_block_ cg) (sr_list_ cg) (md_comment_ cg) (sample_ cg)
    (sample_buffer_ cg) (nof_samples_position_ cg) (nof_data_position_ cg)
    (nof_invalid_position_ cg).

Definition set_nof_samples (v : Z) (cg : Cg4Block) : Cg4Block :=
  mkCg4Block (base cg) (record_id_ cg) v (flags_ cg) (path_separator_ cg)
    (nof_data_bytes_ cg) (nof_invalid_bytes_ cg) (acquisition_name_ cg)
    (cn_list_ cg) (si_block_ cg) (sr_list_ cg) (md_comment_ cg) (sample_ cg)
    (sample_buffer_ cg) (nof_samples_position_ cg) (nof_data_position_ cg)
    (nof_invalid_position_ cg).

Definition set_nof_data_bytes (v : Z) (cg : Cg4Block) : Cg4Block :=
  mkCg4Block (base cg) (record_id_ cg) (nof_samples_ cg) (flags_ cg)
    (path_separator_ cg) v (nof_invalid_bytes_ cg) (acquisition_name_ cg)
    (cn_list_ cg) (si_block_ cg) (sr_list_ cg) (md_comment_ cg) (sample_ cg)
    (sample_buffer_ cg) (nof_samples_position_ cg) (nof_data_position_ cg)
    (nof_invalid_position_ cg).

Definition set_nof_invalid_bytes (v : Z) (cg : Cg4Block) : Cg4Block :=
  mkCg4Block (base cg) (record_id_ cg) (nof_samples_ cg) (flags_ cg)
    (path_separator_ cg) (nof_data_bytes_ cg) v (acquisition_name_ cg)
    (cn_list_ cg) (si_block_ cg) (sr_list_ cg) (md_comment_ cg) (sample_ cg)
    (sample_buffer_ cg) (nof_samples_position_ cg) (nof_data_position_ cg)
    (nof_invalid_position_ cg).

Definition set_cn_list (l : list (option Cn4Block)) (cg : Cg4Block) : Cg4Block :=
  mkCg4Block (base cg) (record_id_ cg) (nof_samples_ cg) (flags_ cg)
    (path_separator_ cg) (nof_data_bytes_ cg) (nof_invalid_bytes_ cg)
    (acquisition_name_ cg) l (si_block_ cg) (sr_list_ cg) (md_comment_ cg)
    (sample_ cg) (sample_buffer_ cg) (nof_samples_position_ cg)
    (nof_data_position_ cg) (nof_invalid_position_ cg).

Definition set_owned (si : option Si4Block) (sr : list (option Sr4Block))
    (md : option Md4Block) (cg : Cg4Block) : Cg4Block :=
  mkCg4Block (base cg) (record_id_ cg) (nof_samples_ cg) (flags_ cg)
    (path_separator_ cg) (nof_data_bytes_ cg) (nof_invalid_bytes_ cg)
    (acquisition_name_ cg) (cn_list_ cg) si sr md
    (sample_ cg) (sample_buffer_ cg) (nof_samples_position_ cg)
    (nof_data_position_ cg) (nof_invalid_position_ cg).

Definition set_sample (v : Z) (cg : Cg4Block) : Cg4Block :=
  mkCg4Block (base cg) (record_id_ cg) (nof_samples_ cg) (flags_ cg)
    (path_separator_ cg) (nof_data_bytes_ cg) (nof_invalid_bytes_ cg)
    (acquisition_name_ cg) (cn_list_ cg) (si_block_ cg) (sr_list_ cg)
    (md_comment_ cg) v (sample_buffer_ cg) (nof_samples_position_ cg)
    (nof_data_position_ cg) (nof_invalid_position_ cg).

Definition set_sample_buffer (v : list Z) (cg : Cg4Block) : Cg4Block :=
  mkCg4Block (base cg) (record_id_ cg) (nof_samples_ cg) (flags_ cg)
    (path_separator_ cg) (nof_data_bytes_ cg) (nof_invalid_bytes_ cg)
    (acquisition_name_ cg) (cn_list_ cg) (si_block_ cg) (sr_list_ cg)
    (md_comment_ cg) (sample_ cg) v (nof_samples_position_ cg)
    (nof_data_position_ cg) (nof_invalid_position_ cg).

Definition set_nof_samples_position (v : Z) (cg : Cg4Block) : Cg4Block :=
  mkCg4Block (base cg) (record_id_ cg) (nof_samples_ cg) (flags_ cg)
    (path_separator_ cg) (nof_data_bytes_ cg) (nof_invalid_bytes_ cg)
    (acquisition_name_ cg) (cn_list_ cg) (si_block_ cg) (sr_list_ cg)
    (md_comment_ cg) (sample_ cg) (sample_buffer_ cg) v
    (nof_data_position_ cg) (nof_invalid_position_ cg).

Definition set_nof_data_position (v : Z) (cg : Cg4Block) : Cg4Block :=
  mkCg4Block (base cg) (record_id_ cg) (nof_samples_ cg) (flags_ cg)
    (path_separator_ cg) (nof_data_bytes_ cg) (nof_invalid_bytes_ cg)
    (acquisition_name_ cg) (cn_list_ cg) (si_block_ cg) (sr_list_ cg)
    (md_comment_ cg) (sample_ cg) (sample_buffer_ cg)
    (nof_samples_position_ cg) v (nof_invalid_position_ cg).

Definition set_nof_invalid_position (v : Z) (cg : Cg4Block) : Cg4Block :=
  mkCg4Block (base cg) (record_id_ cg) (nof_samples_ cg) (flags_ cg)
    (path_separator_ cg) (nof_data_bytes_ cg) (nof_invalid_bytes_ cg)
    (acquisition_name_ cg) (cn_list_ cg) (si_block_ cg) (sr_list_ cg)
    (md_comment_ cg) (sample_ cg) (sample_buffer_ cg)
    (nof_samples_position_ cg) (nof_data_position_ cg) v.

Definition set_link_list (l : list Z) (b : MdfBlock) : MdfBlock :=
  mkMdfBlock (file_position_ b) (block_type_ b) (block_length_ b) l.

Definition set_byte_offset (v : Z) (f : CnFields) : CnFields :=
  mkCnFields (cn_Index f) (cn_Name f) (cn_Type f) (cn_Flags f) (cn_DataBytes f)
    v (cn_invalid_offset f) (cn_XAxisLinkList f) (cn_data_link f).

Definition set_invalid_offset (v : Z) (f : CnFields) : CnFields :=
  mkCnFields (cn_Index f) (cn_Name f) (cn_Type f) (cn_Flags f) (cn_DataBytes f)
    (cn_byte_offset f) v (cn_XAxisLinkList f) (cn_data_link f).

Definition set_data_link (v : Z) (f : CnFields) : CnFields :=
  mkCnFields (cn_Index f) (cn_Name f) (cn_Type f) (cn_Flags f) (cn_DataBytes f)
    (cn_byte_offset f) (cn_invalid_offset f) (cn_XAxisLinkList f) v.

(** ** Flags and link indexes *)

Definition kIndexNext : nat := 0.
Definition kIndexCn : nat := 1.
Definition kIndexName : nat := 2.
Definition kIndexSi : nat := 3.
Definition kIndexSr : nat := 4.
Definition kIndexMd : nat := 5.
Definition kIndexMaster : nat := 6.

(** [CgFlag::VlsdChannel] is the bit [MakeFlagString] prints as VLSD. *)
Definition CgFlag_VlsdChannel : Z := 0x0001.

(** Modelled from the spec: [CgFlag::RemoteMaster] and
    [CnFlag::InvalidValid] are declared in the interface headers, which are
    not in this translation unit; the values are those of the format. *)
Definition CgFlag_RemoteMaster : Z := 0x0008.
Definition CnFlag_InvalidValid : Z := 0x0002.

Definition has_flag (flags mask : Z) : bool := negb (Z.land flags mask =? 0).

Definition is_vlsd (cg : Cg4Block) : bool := has_flag (Flags cg) CgFlag_VlsdChannel.

(** ** Reading records *)

(** What the observer receives from [NotifySampleObservers]. *)
Record SampleRecord : Type := mkSampleRecord {
  note_sample : Z;
  note_record_id : Z;
  note_record : list Z
}.

(** Modelled from the spec: [IncrementSample] is defined in the class
    declaration, which is not in this translation unit; it advances the
    replay cursor by one. *)
Definition IncrementSample (cg : Cg4Block) : Cg4Block :=
  set_sample (u64 (sample_ cg + 1)) cg.

(** The tail shared by both branches of [ReadDataRecord]. *)
Definition notify_sample (cg : Cg4Block) (record : list Z)
    : Cg4Block * list SampleRecord :=
  let sample := Sample cg in
  if sample <? NofSamples cg
  then (IncrementSample cg, [mkSampleRecord sample (RecordId cg) record])
  else (cg, []).

(** [Cg4Block::ReadDataRecord]: the count returned, the group (only the
    replay cursor can change), the file, and what was sent to the observer. *)
Definition ReadDataRecord `{MdfBlockIo} (cg : Cg4Block) (file : File)
    : option (Z * Cg4Block * File * list SampleRecord) :=
  if has_flag (flags_ cg) CgFlag_VlsdChannel then
    match ReadNumber_u32 file with
    | None => None
    | Some (n, len, file1) =>
        let count := u64 (0 + n) in
        let '(got, file2) := if 0 <? len then fread len file1 else ([], file1) in
        let count := if 0 <? len then u64 (count + Z.of_nat (length got)) else count in
        let record := read_into len got in
        let '(cg', notes) := notify_sample cg record in
        Some (count, cg', file2, notes)
    end
  else
    let record_size := u32 (nof_data_bytes_ cg + nof_invalid_bytes_ cg) in
    let '(got, file1) := fread record_size file in
    let record := read_into record_size got in
    let count := Z.of_nat (length got) in
    let '(cg', notes) := notify_sample cg record in
    Some (count, cg', file1, notes).

(** [Cg4Block::UpdateCycleCounter]. *)
Definition UpdateCycleCounter `{MdfBlockIo} (cg : Cg4Block) (file : File)
    : option (Z * Cg4Block * File) :=
  if has_flag (Flags cg) CgFlag_VlsdChannel then
    match ReadNumber_u32 file with
    | None => None
    | Some (n, len, file1) =>
        let count := u64 (0 + n) in
        let '(count, file2) :=
          if 0 <? len
          then let '(m, f) := StepFilePosition file1 len in (u64 (count + m), f)
          else (count, file1) in
        Some (count, set_nof_samples (u64 (nof_samples_ cg + 1)) cg, file2)
    end
  else
    let record_size := u32 (nof_data_bytes_ cg + nof_invalid_bytes_ cg) in
    let '(m, file1) := StepFilePosition file record_size in
    Some (u64 (0 + m), set_nof_samples (u64 (nof_samples_ cg + 1)) cg, file1).

(** The 64-bit size a VLSD group keeps in its two 32-bit counters. *)
Definition vlsd_size_of (cg : Cg4Block) : Z :=
  u64 (u64 (Z.shiftl (u64 (nof_invalid_bytes_ cg)) 32) + nof_data_bytes_ cg).

(** [Cg4Block::UpdateVlsdSize]. *)
Definition UpdateVlsdSize `{MdfBlockIo} (cg : Cg4Block) (file : File)
    : option (Z * Cg4Block * File) :=
  if has_flag (Flags cg) CgFlag_VlsdChannel then
    let vlsd_size := vlsd_size_of cg in
    match ReadNumber_u32 file with
    | None => None
    | Some (n, len, file1) =>
        let count := u64 (0 + n) in
        let '(count, file2) :=
          if 0 <? len
          then let '(m, f) := StepFilePosition file1 len in (u64 (count + m), f)
          else (count, file1) in
        let vlsd_size := u64 (vlsd_size + count) in
        let cg := set_nof_data_bytes (u32 (Z.land vlsd_size 0xFFFFFFFF)) cg in
        let cg := set_nof_invalid_bytes (u32 (Z.shiftr vlsd_size 32)) cg in
        Some (count, set_nof_samples (u64 (nof_samples_ cg + 1)) cg, file2)
    end
  else
    let record_size := u32 (nof_data_bytes_ cg + nof_invalid_bytes_ cg) in
    let '(m, file1) := StepFilePosition file record_size in
    Some (u64 (0 + m), set_nof_samples (u64 (nof_samples_ cg + 1)) cg, file1).

(** [Cg4Block::StepRecord]. *)
Definition StepRecord `{MdfBlockIo} (cg : Cg4Block) (file : File) : Z * File :=
  let record_size := u32 (nof_data_bytes_ cg + nof_invalid_bytes_ cg) in
  StepFilePosition file record_size.

(** ** Record layout *)

Definition DataBytes_cn (c : Cn4Block) : Z := cn_DataBytes (fields_of c).
Definition Flags_cn (c : Cn4Block) : Z := cn_Flags (fields_of c).
Definition byte_offset_cn (c : Cn4Block) : Z := cn_byte_offset (fields_of c).
Definition invalid_offset_cn (c : Cn4Block) : Z := cn_invalid_offset (fields_of c).
Definition data_link_cn (c : Cn4Block) : Z := cn_data_link (fields_of c).

Definition on_fields (g : CnFields -> CnFields) (c : Cn4Block) : Cn4Block :=
  match c with Cn4 f cx => Cn4 (g f) cx end.

(** Modelled from the spec: the channel's own layout step
    [Cn4Block::PrepareForWriting(offset)] and [SetInvalidOffset(bit)] are not
    in this translation unit.  The layout step is handed the running byte
    offset, the width the channel reports is [DataBytes()], and an
    invalid-capable channel is handed its bit position. *)
Definition PrepareForWriting_cn (offset : Z) (c : Cn4Block) : Cn4Block :=
  on_fields (set_byte_offset offset) c.

Definition SetInvalidOffset (bit : Z) (c : Cn4Block) : Cn4Block :=
  on_fields (set_invalid_offset bit) c.

Definition invalid_capable (c : Cn4Block) : bool :=
  has_flag (Flags_cn c) CnFlag_InvalidValid.

(** The state of the loop of [PrepareForWriting]: the 32-bit member
    [nof_data_bytes_] and the two [size_t] locals. *)
Record LayoutState : Type := mkLayoutState {
  ls_nof_data_bytes : Z;
  ls_byte_offset : Z;
  ls_invalid_bit_offset : Z
}.

Definition layout_channel (channel : Cn4Block) (st : LayoutState)
    : Cn4Block * LayoutState :=
  let channel := PrepareForWriting_cn (ls_byte_offset st) channel in
  let nof_data_bytes := u32 (ls_nof_data_bytes st + DataBytes_cn channel) in
  let byte_offset := u64 (ls_byte_offset st + DataBytes_cn channel) in
  if invalid_capable channel
  then (SetInvalidOffset (ls_invalid_bit_offset st) channel,
        mkLayoutState nof_data_bytes byte_offset (u64 (ls_invalid_bit_offset st + 1)))
  else (channel, mkLayoutState nof_data_bytes byte_offset (ls_invalid_bit_offset st)).

Fixpoint layout_loop (l : list (option Cn4Block)) (st : LayoutState)
    : list (option Cn4Block) * LayoutState :=
  match l with
  | [] => ([], st)
  | None :: rest =>
      let '(rest', st') := layout_loop rest st in (None :: rest', st')
  | Some channel :: rest =>
      let '(channel', st1) := layout_channel channel st in
      let '(rest', st') := layout_loop rest st1 in
      (Some channel' :: rest', st')
  end.

(** [Cg4Block::PrepareForWriting]. *)
Definition PrepareForWriting (cg : Cg4Block) : Cg4Block :=
  if has_flag (Flags cg) CgFlag_VlsdChannel then
    set_sample_buffer [] (set_nof_invalid_bytes 0 (set_nof_data_bytes 0 cg))
  else
    let '(channels, st) := layout_loop (cn_list_ cg) (mkLayoutState 0 0 0) in
    let invalid_bit_offset := ls_invalid_bit_offset st in
    let nof_invalid_bytes :=
      if invalid_bit_offset =? 0 then 0
      else if 0 <? invalid_bit_offset mod 8 then u32 (invalid_bit_offset / 8 + 1)
      else u32 (invalid_bit_offset / 8) in
    let cg := set_cn_list channels cg in
    let cg := set_nof_data_bytes (ls_nof_data_bytes st) cg in
    let cg := set_nof_invalid_bytes nof_invalid_bytes cg in
    let total_size := u32 (nof_invalid_bytes_ cg + nof_data_bytes_ cg) in
    if 0 <? total_size
    then set_sample_buffer (resize (Z.to_nat total_size) 0 (sample_buffer_ cg)) cg
    else set_sample_buffer [] cg.

(** ** Writing the block *)

(** A field update applied to a channel and to every channel nested in its
    composition list: what a loop over the pointers of [Channels()] that
    updates each channel does to the tree the group owns. *)
Fixpoint map_cn (g : CnFields -> CnFields) (c : Cn4Block) : Cn4Block :=
  match c with
  | Cn4 f cx_list =>
      Cn4 (g f)
        ((fix each (l : list CxBlock) : list CxBlock :=
            match l with
            | [] => []
            | cx :: rest =>
                match cx with
                | CxCn cn => CxCn (map_cn g cn) :: each rest
                | CxNull => CxNull :: each rest
                | CxOther t => CxOther t :: each rest
                end
            end) cx_list)
  end.

Definition map_cn_list (g : CnFields -> CnFields) (l : list (option Cn4Block))
    : list (option Cn4Block) :=
  map (option_map (map_cn g)) l.

(** Modelled from the spec: [Cn4Block::UpdateDataLink(file, position)] is not
    in this translation unit; it patches the channel's payload link and
    touches no other member of the channel. *)
Definition patch_data_link (type : ChannelType) (position : Z) (f : CnFields)
    : CnFields :=
  if bool_decide (cn_Type f = type) then set_data_link position f else f.

(** Modelled from the spec: [IChannelGroup::GetChannel(name)] is not in this
    translation unit; it is the first channel of [Channels()] with exactly
    that name. *)
Definition GetChannel (cg : Cg4Block) (name : string) : option Cn4Block :=
  List.find (fun c => bool_decide (Name_cn c = name)) (Channels cg).

(** The loops over [Channels()] at the end of a first write: every channel
    of kind [type] gets [UpdateDataLink(file, position)]. *)
Definition update_data_links `{MdfBlockIo} (type : ChannelType) (position : Z)
    (cg : Cg4Block) (file : File) : Cg4Block * File :=
  let cn_list := Channels cg in
  let file' :=
    fold_left (fun f channel =>
                 if bool_decide (Type_cn channel = type)
                 then UpdateDataLink_file f channel position else f)
              cn_list file in
  (set_cn_list (map_cn_list (patch_data_link type position) (cn_list_ cg)) cg, file').

(** The calls that write the child blocks and their links, in both modes. *)
Definition write_children `{MdfBlockIo} (cg : Cg4Block) (file : File)
    : Cg4Block * File :=
  let '(links, cn_list, file) := WriteLink4List_cn file (base cg) (cn_list_ cg) in
  let cg := set_cn_list cn_list (set_base (set_link_list links (base cg)) cg) in
  let '(links, file) := WriteTx4 file (base cg) (acquisition_name_ cg) in
  let cg := set_base (set_link_list links (base cg)) cg in
  let '(links, si, file) := WriteBlock4_si file (base cg) (si_block_ cg) in
  let cg := set_owned si (sr_list_ cg) (md_comment_ cg)
              (set_base (set_link_list links (base cg)) cg) in
  let '(links, sr, file) := WriteLink4List_sr file (base cg) (sr_list_ cg) in
  let cg := set_owned (si_block_ cg) sr (md_comment_ cg)
              (set_base (set_link_list links (base cg)) cg) in
  let '(links, md, file) := WriteMdComment file (base cg) (md_comment_ cg) in
  let cg := set_owned (si_block_ cg) (sr_list_ cg) md
              (set_base (set_link_list links (base cg)) cg) in
  (cg, file).

(** The three field patches of the update mode. *)
Definition patch_field (width : nat) (position value : Z) (file : File) : File :=
  if 0 <? position
  then snd (WriteNumber width (SetFilePosition file position) value)
  else file.

Definition update_counters (cg : Cg4Block) (file : File) : File :=
  let file := patch_field 8 (nof_samples_position_ cg) (nof_samples_ cg) file in
  let file := patch_field 4 (nof_data_position_ cg) (nof_data_bytes_ cg) file in
  patch_field 4 (nof_invalid_position_ cg) (nof_invalid_bytes_ cg) file.

(** The block header members set up on a first write. *)
Definition init_block (cg : Cg4Block) : Cg4Block :=
  let master := has_flag (flags_ cg) CgFlag_RemoteMaster in
  let block_length := 24 + 6 * 8 + 8 + 8 + 2 + 2 + 4 + 4 + 4 in
  let block_length := if master then block_length + 8 else block_length in
  set_base (mkMdfBlock (file_position_ (base cg)) "##CG" block_length
              (resize (if master then 7%nat else 6%nat) 0 (link_list_ (base cg))))
           cg.

(** What the update mode does before it patches the counters: the calls on
    the child blocks and [MdfBlock::Update]. *)
Definition update_structure `{MdfBlockIo} (cg : Cg4Block) (file : File)
    : Cg4Block * File :=
  let '(cg, file) := write_children cg file in
  let '(_, file) := MdfBlock_Update file (base cg) in
  (cg, file).

(** The fixed fields behind the link table, written on a first write;
    the positions of the counters are recorded on the way. *)
Definition write_fixed_fields (vlsd : bool) (bytes : Z) (cg : Cg4Block) (file : File)
    : Z * Cg4Block * File :=
  let '(n, file) := WriteNumber 8 file (record_id_ cg) in
  let bytes := u64 (bytes + n) in
  let cg := set_nof_samples_position (GetFilePosition file) cg in
  let '(n, file) := WriteNumber 8 file (nof_samples_ cg) in
  let bytes := u64 (bytes + n) in
  let '(n, file) := WriteNumber 2 file (flags_ cg) in
  let bytes := u64 (bytes + n) in
  let '(n, file) := WriteNumber 2 file (path_separator_ cg) in
  let bytes := u64 (bytes + n) in
  let '(n, file) := WriteBytes file 4 in
  let bytes := u64 (bytes + n) in
  let cg := if vlsd then set_nof_data_position (GetFilePosition file) cg else cg in
  let '(n, file) := WriteNumber 4 file (nof_data_bytes_ cg) in
  let bytes := u64 (bytes + n) in
  let cg := if vlsd then set_nof_invalid_position (GetFilePosition file) cg else cg in
  let '(n, file) := WriteNumber 4 file (nof_invalid_bytes_ cg) in
  let bytes := u64 (bytes + n) in
  (bytes, cg, file).

(** The two loops that close a first write: the VLSD links, then the MLSD
    links. *)
Definition resolve_data_links `{MdfBlockIo} (vlsd : bool) (cg : Cg4Block) (file : File)
    : Cg4Block * File :=
  let '(cg, file) :=
    if vlsd
    then update_data_links VariableLength (FilePosition cg) cg file
    else (cg, file) in
  match GetChannel cg ".DataLength" with
  | Some data_length => update_data_links MaxLength (Index_cn data_length) cg file
  | None => (cg, file)
  end.

Definition set_file_position (position : Z) (cg : Cg4Block) : Cg4Block :=
  set_base (mkMdfBlock position (block_type_ (base cg)) (block_length_ (base cg))
              (link_list_ (base cg))) cg.

Definition set_block_length (block_length : Z) (cg : Cg4Block) : Cg4Block :=
  set_base (mkMdfBlock (file_position_ (base cg)) (block_type_ (base cg)) block_length
              (link_list_ (base cg))) cg.

(** [Cg4Block::Write]: the bytes reported, the group and the file. *)
Definition Write `{MdfBlockIo} (cg : Cg4Block) (file : File)
    : Z * Cg4Block * File :=
  let update := 0 <? FilePosition cg in
  let vlsd := has_flag (flags_ cg) CgFlag_VlsdChannel in
  if update then
    let '(cg, file) := update_structure cg file in
    let file := update_counters cg file in
    (block_length_ (base cg), cg, file)
  else
    let cg := init_block cg in
    let '(cg, file) := write_children cg file in
    let '(bytes, position, file) := MdfBlock_Write file (base cg) in
    let cg := set_file_position position cg in
    let '(bytes, cg, file) := write_fixed_fields vlsd bytes cg file in
    let '(block_length, file) := UpdateBlockSize file (base cg) bytes in
    let cg := set_block_length block_length cg in
    let '(cg, file) := resolve_data_links vlsd cg file in
    (bytes, cg, file).

(** ** The hierarchy around the group *)

(** Modelled from the spec: the block that enumerates the channel groups is
    not in this translation unit.  It owns the groups as an ordered
    sequence; a write session writes each group once, in order. *)
Definition Hierarchy : Type := list Cg4Block.

Definition hierarchy_channels (h : Hierarchy) : list Cn4Block :=
  concat (map Channels h).

Definition WriteGroup `{MdfBlockIo} (i : nat) (st : Hierarchy * File)
    : Hierarchy * File :=
  match st.1 !! i with
  | Some cg =>
      let '(_, cg', file') := Write cg st.2 in (<[i := cg']> st.1, file')
  | None => st
  end.

Definition write_session `{MdfBlockIo} (h : Hierarchy) (file : File)
    : Hierarchy * File :=
  fold_left (fun st i => WriteGroup i st) (seq 0 (length h)) (h, file).

(** Counters changed between two writes of a running acquisition, followed
    by a write. *)
Definition with_counters (c : Z * Z * Z) (cg : Cg4Block) : Cg4Block :=
  let '(samples, data_bytes, invalid_bytes) := c in
  set_nof_invalid_bytes invalid_bytes
    (set_nof_data_bytes data_bytes (set_nof_samples samples cg)).

Fixpoint write_updates `{MdfBlockIo} (counters : list (Z * Z * Z))
    (cg : Cg4Block) (file : File) : Cg4Block * File :=
  match counters with
  | [] => (cg, file)
  | c :: rest =>
      let '(_, cg', file') := Write (with_counters c cg) file in
      write_updates rest cg' file'
  end.


(** ** A reference instance of the collaborators

    Used to run the operations on concrete inputs: numbers are little endian,
    a short read of a number raises, a block header is appended at the end
    of the file, child blocks that are already on file are left alone. *)
Definition string_bytes (s : string) : list Z :=
  map (fun a => Z.of_N (Ascii.N_of_ascii a)) (String.list_ascii_of_string s).

Definition first_channel_index (l : list (option Cn4Block)) : Z :=
  match find_if (fun _ => true) l with
  | Some c => Index_cn c
  | None => 0
  end.

Definition reference_ReadNumber_u32 (file : File) : option (Z * Z * File) :=
  let '(got, file') := fread 4 file in
  if bool_decide (length got = 4%nat) then Some (4, le_value got, file') else None.

Definition reference_MdfBlock_Write (file : File) (b : MdfBlock) : Z * Z * File :=
  let position := Z.of_nat (length (file_bytes file)) in
  let file := SetFilePosition file position in
  let file := fwrite (string_bytes (block_type_ b) ++ [0; 0; 0; 0]) file in
  let file := snd (WriteNumber 8 file (block_length_ b)) in
  let file := snd (WriteNumber 8 file (Z.of_nat (length (link_list_ b)))) in
  let file := fold_left (fun f link => snd (WriteNumber 8 f link)) (link_list_ b) file in
  (24 + 8 * Z.of_nat (length (link_list_ b)), position, file).

Definition reference_UpdateBlockSize (file : File) (b : MdfBlock) (bytes : Z)
    : Z * File :=
  let last := GetFilePosition file in
  let file := snd (WriteNumber 8 (SetFilePosition file (file_position_ b + 8)) bytes) in
  (bytes, SetFilePosition file last).

#[global] Instance reference_io : MdfBlockIo := {|
  ReadNumber_u32 := reference_ReadNumber_u32;
  StepFilePosition := fun file steps =>
    (steps, SetFilePosition file (file_pos file + steps));
  WriteLink4List_cn := fun file b l =>
    (<[kIndexCn := first_channel_index l]> (link_list_ b), l, file);
  WriteTx4 := fun file b _ => (link_list_ b, file);
  WriteBlock4_si := fun file b si => (link_list_ b, si, file);
  WriteLink4List_sr := fun file b sr => (link_list_ b, sr, file);
  WriteMdComment := fun file b md => (link_list_ b, md, file);
  MdfBlock_Update := fun file b => (block_length_ b, file);
  MdfBlock_Write := reference_MdfBlock_Write;
  UpdateBlockSize := reference_UpdateBlockSize;
  UpdateDataLink_file := fun file _ _ => file
|}.



(** ** Properties stated over the model *)

(** The group's own channel list without its null entries. *)
Definition own_channels (cg : Cg4Block) : list Cn4Block := omap id (cn_list_ cg).

(** [o] is the first element of [l] that satisfies [P], or nothing when no
    element does. *)
Definition first_where {A : Type} (P : A -> Prop) (l : list A) (o : option A) : Prop :=
  match o with
  | Some x =>
      exists i : nat, l !! i = Some x /\ P x /\
        forall (j : nat) (y : A), (j < i)%nat -> l !! j = Some y -> ~ P y
  | None => forall y : A, y ∈ l -> ~ P y
  end.

Definition is_master_prop (c : Cn4Block) : Prop :=
  Type_cn c = Master \/ Type_cn c = VirtualMaster.

(** The reference carries a usable dedicated axis link into this group. *)
Definition dedicated_axis (cg : Cg4Block) (reference : Cn4Block) : Prop :=
  length (XAxisLinkList reference) = 3%nat /\
  nth 1 (XAxisLinkList reference) 0 = Index cg /\
  nth 2 (XAxisLinkList reference) 0 <> 0.

(** The axis lookup as the specification words it: both searches run over
    the flattened channel list. *)
Definition find_axis_channel_spec (cg : Cg4Block) (reference : Cn4Block)
    : option Cn4Block :=
  let x := XAxisLinkList reference in
  let dedicated :=
    if bool_decide (length x = 3%nat) && (nth 1 x 0 =? Index cg) && negb (nth 2 x 0 =? 0)
    then List.find (fun p => Index_cn p =? nth 2 x 0) (Channels cg)
    else None in
  match dedicated with
  | Some p => Some p
  | None => List.find is_master (Channels cg)
  end.

(** Byte segments: offset and width. *)
Definition segment_of (c : Cn4Block) : Z * Z := (byte_offset_cn c, DataBytes_cn c).

Definition in_segment (b : Z) (s : Z * Z) : Prop := s.1 <= b < s.1 + s.2.

(** Every segment lies in [0, total) and every byte of [0, total) lies in
    exactly one segment. *)
Definition partitions (segs : list (Z * Z)) (total : Z) : Prop :=
  (forall (i : nat) (s : Z * Z), segs !! i = Some s -> 0 <= s.1 /\ s.1 + s.2 <= total) /\
  (forall b : Z, 0 <= b < total ->
     exists (i : nat) (s : Z * Z), segs !! i = Some s /\ in_segment b s /\
       forall (j : nat) (t : Z * Z), segs !! j = Some t -> in_segment b t -> j = i).

(** Each segment starts where the one before it ends. *)
Fixpoint running_from (start : Z) (segs : list (Z * Z)) : Prop :=
  match segs with
  | [] => True
  | s :: rest => s.1 = start /\ running_from (start + s.2) rest
  end.

Definition sum_widths (l : list Cn4Block) : Z :=
  foldr (fun c acc => DataBytes_cn c + acc) 0 l.

Definition u32_range (x : Z) : Prop := 0 <= x < 2 ^ 32.
Definition u64_range (x : Z) : Prop := 0 <= x < 2 ^ 64.


(** Back-patching as the specification words it, over the whole
    hierarchy. *)
Definition vlsd_links_patched_everywhere (h : Hierarchy) (identity : Z) : Prop :=
  Forall (fun c => Type_cn c = VariableLength -> data_link_cn c = identity)
         (hierarchy_channels h).

Definition mlsd_links_patched_everywhere (h : Hierarchy) : Prop :=
  forall d : Cn4Block,
    List.find (fun c => bool_decide (Name_cn c = ".DataLength")) (hierarchy_channels h)
      = Some d ->
    Forall (fun c => Type_cn c = MaxLength -> data_link_cn c = Index_cn d)
           (hierarchy_channels h).

(** A replay session: [n] calls of [ReadDataRecord] in a row, stopping when
    a read raises; the records delivered are collected in order. *)
Fixpoint replay `{MdfBlockIo} (n : nat) (cg : Cg4Block) (file : File)
    : Cg4Block * File * list SampleRecord :=
  match n with
  | O => (cg, file, [])
  | S n' =>
      match ReadDataRecord cg file with
      | None => (cg, file, [])
      | Some (_, cg', file', notes) =>
          let '(cg'', file'', rest) := replay n' cg' file' in
          (cg'', file'', notes ++ rest)
      end
  end.

(** The cumulative size as the specification reconstructs it from the two
    counters of a VLSD group. *)
Definition reconstruct_vlsd_size (data_bytes invalid_bytes : Z) : Z :=
  Z.lor (Z.shiftl invalid_bytes 32) data_bytes.

(** The little-endian value held by the [width] bytes at [position]. *)
Definition read_field (file : File) (position : Z) (width : nat) : Z :=
  le_value (map (fun i => byte_at file (position + Z.of_nat i)) (seq 0 width)).

(** ** Concrete groups and files used below *)

Definition channel (index : Z) (name : string) (type : ChannelType) (flags : Z)
    (width : Z) (x_axis : list Z) (cx : list CxBlock) : Cn4Block :=
  Cn4 (mkCnFields index name type flags width 0 0 x_axis 0) cx.

(** A group as it is created: no identity, no patch position recorded. *)
Definition new_group (flags : Z) (cn_list : list (option Cn4Block)) : Cg4Block :=
  mkCg4Block (mkMdfBlock 0 "##CG" 0 []) 1 0 flags 46 0 0 "" cn_list None [] None
    0 [] 0 0 0.

(** A group that is on file at [position]. *)
Definition group_at (position : Z) (flags : Z) (cn_list : list (option Cn4Block))
    : Cg4Block :=
  set_base (mkMdfBlock position "##CG" 104 [0; 0; 0; 0; 0; 0]) (new_group flags cn_list).

(** A time master, a signal with a dedicated axis link to [speed_axis], and
    the axis channel itself, in the group at position 1000. *)
Definition time_master : Cn4Block := channel 2000 "time" Master 0 8 [] [].
Definition speed_axis : Cn4Block := channel 3000 "rpm" FixedLength 0 4 [] [].
Definition speed_map : Cn4Block :=
  channel 4000 "map" FixedLength 0 4 [0; 1000; 3000] [].
Definition plain_signal : Cn4Block := channel 5000 "plain" FixedLength 0 2 [] [].

Definition axis_group : Cg4Block :=
  group_at 1000 0 [Some time_master; None; Some speed_map; Some speed_axis;
                   Some plain_signal].

(** A structure channel whose only master-typed channel is a member of its
    composition. *)
Definition nested_master : Cn4Block := channel 7000 "t" Master 0 8 [] [].
Definition outer_structure : Cn4Block :=
  channel 6000 "frame" FixedLength 0 4 [] [CxOther "CA"; CxCn nested_master].
Definition nested_master_group : Cg4Block :=
  group_at 1000 0 [Some outer_structure].

(** Groups in the middle of a replay. *)
Definition replay_group (flags data_bytes invalid_bytes samples cursor : Z)
    : Cg4Block :=
  set_sample cursor
    (set_nof_samples samples
       (set_nof_invalid_bytes invalid_bytes
          (set_nof_data_bytes data_bytes (group_at 1000 flags [])))).

Definition exhausted_group : Cg4Block := replay_group 0 2 1 3 3.
Definition stream_file : File := mkFile [1; 2; 3; 4; 5; 6; 7] 0.

Definition last_sample_group : Cg4Block := replay_group 0 7 1 3 2.
Definition short_file : File := mkFile [10; 20; 30] 0.

(** Three VLSD frames with length prefixes 5, 0 and 12. *)
Definition vlsd_replay_group : Cg4Block := replay_group 1 0 0 3 0.
Definition vlsd_frames : File :=
  mkFile ([5; 0; 0; 0; 1; 2; 3; 4; 5] ++ [0; 0; 0; 0]
          ++ [12; 0; 0; 0; 1; 2; 3; 4; 5; 6; 7; 8; 9; 10; 11; 12]
          ++ [2; 0; 0; 0; 9; 9]) 0.

(** A VLSD group whose counters hold the size 2^32 - 2. *)
Definition vlsd_counter_group : Cg4Block := replay_group 1 (2 ^ 32 - 2) 0 7 0.

(** One frame of three payload bytes behind its length prefix. *)
Definition one_frame : File := mkFile [3; 0; 0; 0; 7; 8; 9] 0.

(** Scenario A of the specification: three fixed channels of widths 4, 2
    and 1, the first two invalid-capable, around a null entry. *)
Definition scenario_A : Cg4Block :=
  new_group 0 [Some (channel 0 "a" FixedLength 2 4 [] []); None;
               Some (channel 0 "b" FixedLength 2 2 [] []);
               Some (channel 0 "c" FixedLength 0 1 [] [])].

(** Eight invalid-capable channels, the first of them a structure with an
    invalid-capable member in its composition: nine invalid-capable
    channels in the flattened list. *)
Definition invalid_member : Cn4Block := channel 0 "member" FixedLength 2 1 [] [].
Definition nested_invalid_group : Cg4Block :=
  new_group 0
    (Some (channel 0 "s0" FixedLength 2 2 [] [CxCn invalid_member])
     :: map (fun _ : nat => Some (channel 0 "s" FixedLength 2 1 [] [])) (seq 0 7)).

(** A structure of width 4 with a member of width 2 in its composition. *)
Definition member_channel : Cn4Block := channel 0 "member" FixedLength 0 2 [] [].
Definition structure_channel : Cn4Block :=
  channel 0 "structure" FixedLength 0 4 [] [CxCn member_channel].
Definition structure_group : Cg4Block := new_group 0 [Some structure_channel].

(** A file that holds the 64-byte identification block, and a VLSD group
    that is created and then written to it. *)
Definition id_block_file : File := mkFile (replicate 64 0) 64.
Definition fresh_vlsd_group : Cg4Block := new_group 1 [].

(** A VLSD group whose own channel list holds variable-length channels,
    one of them nested in a composition. *)
Definition payload_channel : Cn4Block := channel 0 "payload" VariableLength 0 8 [] [].
Definition own_vlsd_group : Cg4Block :=
  new_group 1 [Some (channel 0 "frame" FixedLength 0 4 [] [CxCn payload_channel]);
               Some (channel 0 "text" VariableLength 0 8 [] [])].

(** Two groups of one hierarchy: an empty VLSD group, and a group whose
    channel is variable-length and takes its payload from the first. *)
Definition vlsd_hierarchy : Hierarchy :=
  [new_group 1 []; new_group 0 [Some payload_channel]].

(** Scenario C of the specification: a channel named ".DataLength" at
    position 5000 and a max-length channel with no link, in one group, and
    the same two channels in two groups. *)
Definition data_length_channel : Cn4Block :=
  channel 5000 ".DataLength" FixedLength 0 4 [] [].
Definition bytes_channel : Cn4Block := channel 0 "bytes" MaxLength 0 8 [] [].
Definition mlsd_group : Cg4Block :=
  new_group 0 [Some data_length_channel; Some bytes_channel].
Definition mlsd_hierarchy : Hierarchy :=
  [new_group 0 [Some data_length_channel]; new_group 0 [Some bytes_channel]].


(** ** The rest of the channel group *)

(** [MakeFlagString]: the text shown for the flags of a group. *)
Definition MakeFlagString (flag : Z) : string :=
  let s := "" in
  let s := if has_flag flag 0x0001 then s +:+ "VLSD" else s in
  let s :=
    if has_flag flag 0x0002
    then s +:+ (if bool_decide (s = "") then "Bus Event" else ",Bus Event")
    else s in
  let s :=
    if has_flag flag 0x0004
    then s +:+ (if bool_decide (s = "") then "Plain" else ",Plain")
    else s in
  s.

(** [Cg4Block::AddCn4]: the owning pointer, null or not, is moved to the end
    of the channel list. *)
Definition AddCn4 (cn4 : option Cn4Block) (cg : Cg4Block) : Cg4Block :=
  set_cn_list (cn_list_ cg ++ [cn4]) cg.

(** [Cg4Block::CreateChannel]: [fresh] is the channel block as its
    constructor and [Init] leave it (both are outside this translation
    unit); the result is the group and the pointer returned. *)
Definition CreateChannel (fresh : Cn4Block) (cg : Cg4Block)
    : Cg4Block * option Cn4Block :=
  let cg := AddCn4 (Some fresh) cg in
  (cg, match last (cn_list_ cg) with
       | Some back => back
       | None => None
       end).

(** ** Looking a block up by its position *)

(** The searches of the child blocks and of the base class are outside this
    translation unit; [B] is what a search returns a pointer to. *)
Class BlockFind (B : Type) : Type := {
  Find_si : Si4Block -> Z -> option B;      (* si_block_->Find(index) *)
  Find_cn : Cn4Block -> Z -> option B;      (* cn->Find(index) *)
  Find_sr : Sr4Block -> Z -> option B;      (* sr->Find(index) *)
  Find_base : Cg4Block -> Z -> option B     (* MdfBlock::Find(index) *)
}.

(** A loop over a vector of possibly null pointers that returns the
    first search result that is not null. *)
Fixpoint first_found {A B : Type} (search : A -> option B) (l : list (option A))
    : option B :=
  match l with
  | [] => None
  | None :: rest => first_found search rest
  | Some a :: rest =>
      match search a with
      | Some p => Some p
      | None => first_found search rest
      end
  end.

(** [Cg4Block::Find]. *)
Definition Find {B : Type} `{BlockFind B} (cg : Cg4Block) (index : Z) : option B :=
  let in_si :=
    match si_block_ cg with
    | Some si => Find_si si index
    | None => None
    end in
  match in_si with
  | Some p => Some p
  | None =>
      match first_found (fun cn => Find_cn cn index) (cn_list_ cg) with
      | Some p => Some p
      | None =>
          match first_found (fun sr => Find_sr sr index) (sr_list_ cg) with
          | Some p => Some p
          | None => Find_base cg index
          end
      end
  end.

(** ** Reading the block *)

Definition set_record_id (v : Z) (cg : Cg4Block) : Cg4Block :=
  mkCg4Block (base cg) v (nof_samples_ cg) (flags_ cg) (path_separator_ cg)
    (nof_data_bytes_ cg) (nof_invalid_bytes_ cg) (acquisition_name_ cg)
    (cn_list_ cg) (si_block_ cg) (sr_list_ cg) (md_comment_ cg) (sample_ cg)
    (sample_buffer_ cg) (nof_samples_position_ cg) (nof_data_position_ cg)
    (nof_invalid_position_ cg).

Definition set_flags (v : Z) (cg : Cg4Block) : Cg4Block :=
  mkCg4Block (base cg) (record_id_ cg) (nof_samples_ cg) v (path_separator_ cg)
    (nof_data_bytes_ cg) (nof_invalid_bytes_ cg) (acquisition_name_ cg)
    (cn_list_ cg) (si_block_ cg) (sr_list_ cg) (md_comment_ cg) (sample_ cg)
    (sample_buffer_ cg) (nof_samples_position_ cg) (nof_data_position_ cg)
    (nof_invalid_position_ cg).

Definition set_path_separator (v : Z) (cg : Cg4Block) : Cg4Block :=
  mkCg4Block (base cg) (record_id_ cg) (nof_samples_ cg) (flags_ cg) v
    (nof_data_bytes_ cg) (nof_invalid_bytes_ cg) (acquisition_name_ cg)
    (cn_list_ cg) (si_block_ cg) (sr_list_ cg) (md_comment_ cg) (sample_ cg)
    (sample_buffer_ cg) (nof_samples_position_ cg) (nof_data_position_ cg)
    (nof_invalid_position_ cg).

Definition set_acquisition_name (v : string) (cg : Cg4Block) : Cg4Block :=
  mkCg4Block (base cg) (record_id_ cg) (nof_samples_ cg) (flags_ cg)
    (path_separator_ cg) (nof_data_bytes_ cg) (nof_invalid_bytes_ cg) v
    (cn_list_ cg) (si_block_ cg) (sr_list_ cg) (md_comment_ cg) (sample_ cg)
    (sample_buffer_ cg) (nof_samples_position_ cg) (nof_data_position_ cg)
    (nof_invalid_position_ cg).

(** Modelled from the spec: [MdfBlock::Link(index)] is not in this
    translation unit; it is the entry of the link table, 0 when the table
    has no such entry. *)
Definition Link (b : MdfBlock) (index : nat) : Z := nth index (link_list_ b) 0.

(** The readers of the base class and of the child blocks are taken as
    parameters, as the writers are; a reader that raises is [None]. *)
Class MdfBlockReader : Type := {
  (* ReadHeader4(file): bytes, the base members it fills *)
  ReadHeader4 : File -> MdfBlock -> option (Z * MdfBlock * File);
  (* ReadNumber(file, dest) on a destination of [width] bytes: bytes, dest *)
  ReadNumber : nat -> File -> option (Z * Z * File);
  (* ReadByte(file, dest, size): bytes, dest *)
  ReadByte : File -> nat -> option (Z * list Z * File);
  (* ReadTx4(file, kIndexName) *)
  ReadTx4 : File -> MdfBlock -> option (string * File);
  (* the new Si4Block after its Init and Read(file) *)
  Read_si : File -> option (Si4Block * File);
  (* ReadMdComment(file, kIndexMd): what it leaves in md_comment_ *)
  ReadMdComment :
    File -> MdfBlock -> option Md4Block -> option (option Md4Block * File)
}.

(** The fixed fields behind the link table, as [Read] takes them in. *)
Definition read_fixed_fields `{MdfBlockReader} (bytes : Z) (cg : Cg4Block) (file : File)
    : option (Z * Cg4Block * File) :=
  '(n, record_id, file) ← ReadNumber 8 file;
  let cg := set_record_id record_id cg in
  let bytes := u64 (bytes + n) in
  '(n, nof_samples, file) ← ReadNumber 8 file;
  let cg := set_nof_samples nof_samples cg in
  let bytes := u64 (bytes + n) in
  '(n, flags, file) ← ReadNumber 2 file;
  let cg := set_flags flags cg in
  let bytes := u64 (bytes + n) in
  '(n, path_separator, file) ← ReadNumber 2 file;
  let cg := set_path_separator path_separator cg in
  let bytes := u64 (bytes + n) in
  '(n, _, file) ← ReadByte file 4;
  let bytes := u64 (bytes + n) in
  '(n, nof_data_bytes, file) ← ReadNumber 4 file;
  let cg := set_nof_data_bytes nof_data_bytes cg in
  let bytes := u64 (bytes + n) in
  '(n, nof_invalid_bytes, file) ← ReadNumber 4 file;
  let cg := set_nof_invalid_bytes nof_invalid_bytes cg in
  let bytes := u64 (bytes + n) in
  Some (bytes, cg, file).

(** [Cg4Block::Read]: the bytes reported, the group and the file. *)
Definition Read `{MdfBlockReader} (cg : Cg4Block) (file : File)
    : option (Z * Cg4Block * File) :=
  '(bytes, b, file) ← ReadHeader4 file (base cg);
  let cg := set_base b cg in
  '(bytes, cg, file) ← read_fixed_fields bytes cg file;
  '(name, file) ← ReadTx4 file (base cg);
  let cg := set_acquisition_name name cg in
  '(cg, file) ←
    (if 0 <? Link (base cg) kIndexSi
     then '(si, file) ← Read_si (SetFilePosition file (Link (base cg) kIndexSi));
          Some (set_owned (Some si) (sr_list_ cg) (md_comment_ cg) cg, file)
     else Some (cg, file));
  '(md, file) ← ReadMdComment file (base cg) (md_comment_ cg);
  Some (bytes, set_owned (si_block_ cg) (sr_list_ cg) md cg, file).

(** ** Counting records by replay *)

(** At most [n] calls of [UpdateCycleCounter] in a row, stopping at the
    first call that raises: the number of calls that returned, the group
    and the file. *)
Fixpoint count_records `{MdfBlockIo} (n : nat) (cg : Cg4Block) (file : File)
    : nat * Cg4Block * File :=
  match n with
  | O => (O, cg, file)
  | S n' =>
      match UpdateCycleCounter cg file with
      | Some (_, cg', file') =>
          let '(k, cg'', file'') := count_records n' cg' file' in
          (S k, cg'', file'')
      | None => (O, cg, file)
      end
  end.

(** ** A reference instance of the readers

    Used to run [Read] on concrete inputs: numbers are little endian, a
    short read of a number raises, the header is the 24 bytes in front of
    the link table and the table itself, and the group has neither a name
    nor a comment on file. *)
Definition reference_ReadNumber (width : nat) (file : File) : option (Z * Z * File) :=
  let '(got, file') := fread (Z.of_nat width) file in
  if bool_decide (length got = width)
  then Some (Z.of_nat width, le_value got, file')
  else None.

Definition reference_ReadByte (file : File) (size : nat)
    : option (Z * list Z * File) :=
  let '(got, file') := fread (Z.of_nat size) file in
  Some (Z.of_nat (length got), read_into (Z.of_nat size) got, file').

Definition reference_ReadHeader4 (file : File) (b : MdfBlock)
    : option (Z * MdfBlock * File) :=
  let bytes := 24 + 8 * Z.of_nat (length (link_list_ b)) in
  Some (bytes, b, SetFilePosition file (file_pos file + bytes)).

#[global] Instance reference_reader : MdfBlockReader := {|
  ReadHeader4 := reference_ReadHeader4;
  ReadNumber := reference_ReadNumber;
  ReadByte := reference_ReadByte;
  ReadTx4 := fun file _ => Some ("", file);
  Read_si := fun file => Some (mkSi4Block (file_pos file), file);
  ReadMdComment := fun file _ md => Some (md, file)
|}.

(** ** Members a write has no business with *)

(** The members of [cg'] that hold the group's data, its replay cursor and
    its sample buffer are those of [cg]. *)
Definition same_members (cg cg' : Cg4Block) : Prop :=
  record_id_ cg' = record_id_ cg /\
  nof_samples_ cg' = nof_samples_ cg /\
  flags_ cg' = flags_ cg /\
  path_separator_ cg' = path_separator_ cg /\
  nof_data_bytes_ cg' = nof_data_bytes_ cg /\
  nof_invalid_bytes_ cg' = nof_invalid_bytes_ cg /\
  acquisition_name_ cg' = acquisition_name_ cg /\
  sample_ cg' = sample_ cg /\
  sample_buffer_ cg' = sample_buffer_ cg.

(** ** More concrete groups and files *)

(** A group on file at position 64 with a source link, and the file that
    holds its header, its six links and its fixed fields: record id 7,
    three samples, no flags, separator 46, two data bytes and one invalid
    byte. *)
Definition linked_group : Cg4Block :=
  set_base (mkMdfBlock 64 "##CG" 104 [0; 0; 0; 200; 0; 0])
           (new_group 0 [Some (channel 300 "rpm" FixedLength 0 2 [] [])]).

Definition linked_file : File :=
  mkFile (replicate 64 0 ++ replicate 72 0
          ++ le_bytes 8 7 ++ le_bytes 8 3 ++ le_bytes 2 0 ++ le_bytes 2 46
          ++ [0; 0; 0; 0] ++ le_bytes 4 2 ++ le_bytes 4 1) 64.
(** * Properties *)

(** The step shared by the inductions over a composition list: induction
    on the list of nested hypotheses, then one case per kind of entry. *)
Ltac nested_cx IH :=
  let x := fresh "x" in
  let Hx := fresh "Hx" in
  let IHcx := fresh "IHcx" in
  induction IH as [|x ? Hx _ IHcx]; [reflexivity|];
  destruct x; simpl; rewrite ?map_app, ?Hx, ?IHcx; reflexivity.

(** ** Axis lookup *)

Lemma find_if_first_where {A : Type} (p : A -> bool) (l : list (option A)) :
  first_where (fun c => p c = true) (omap id l) (find_if p l).
Proof.
  unfold find_if.
  induction l as [|[a|] l IH]; simpl.
  - intros y Hy. inversion Hy.
  - destruct (p a) eqn:Hp.
    + exists 0%nat. repeat split; auto. intros j y Hj. lia.
    + destruct (List.find _ l) as [[b|]|] eqn:Hf; simpl in *.
      * destruct IH as (i & Hi & Hb & Hmin).
        exists (S i). repeat split; auto.
        intros [|j] y Hj Hy; simpl in Hy.
        -- inversion Hy; subst. intros Hq. congruence.
        -- apply (Hmin j y); [lia | exact Hy].
      * intros y Hy. apply elem_of_cons in Hy as [->|Hy]; [intros Hq; congruence | auto].
      * intros y Hy. apply elem_of_cons in Hy as [->|Hy]; [intros Hq; congruence | auto].
  - exact IH.
Qed.

Lemma first_where_iff {A : Type} (P Q : A -> Prop) (l : list A) (o : option A) :
  (forall x, P x <-> Q x) -> first_where P l o -> first_where Q l o.
Proof.
  intros HPQ. destruct o as [x|]; simpl.
  - intros (i & Hi & Hx & Hmin). exists i. repeat split; auto.
    + by apply HPQ.
    + intros j y Hj Hy HQ. apply (Hmin j y Hj Hy). by apply HPQ.
  - intros H y Hy HQ. apply (H y Hy). by apply HPQ.
Qed.

Lemma is_master_true (c : Cn4Block) : is_master c = true <-> is_master_prop c.
Proof.
  unfold is_master, is_master_prop.
  rewrite orb_true_iff, !bool_decide_eq_true. tauto.
Qed.

Lemma dedicated_axis_test (cg : Cg4Block) (r : Cn4Block) :
  bool_decide (length (XAxisLinkList r) = 3%nat)
    && (nth 1 (XAxisLinkList r) 0 =? Index cg)
    && negb (nth 2 (XAxisLinkList r) 0 =? 0) = true
  <-> dedicated_axis cg r.
Proof.
  unfold dedicated_axis.
  rewrite !andb_true_iff, bool_decide_eq_true, negb_true_iff, Z.eqb_eq, Z.eqb_neq.
  tauto.
Qed.

(** C10: a reference that is not a CN block of this format (the downcast
    fails) has no axis channel, whatever masters the group holds. *)
Theorem GetXChannel_not_cn4 (cg : Cg4Block) (f : CnFields) :
  GetXChannel cg (NotCn4 f) = None.
Proof. reflexivity. Qed.

(** C1 (as amended): for a reference that is a CN block, when it carries a
    3-entry axis-link record whose middle entry is the group's identity and
    whose third entry is non-zero and is the identity of a channel of the
    group's own channel list, the result is the first such channel, whatever
    masters the group holds; otherwise the result is the first channel of
    kind Master or VirtualMaster of the group's own channel list (nested
    composition channels are not searched), and none when there is none. *)
Theorem GetXChannel_own_list (cg : Cg4Block) (r : Cn4Block) :
  let target := nth 2 (XAxisLinkList r) 0 in
  let resolves :=
    dedicated_axis cg r /\ exists c, c ∈ own_channels cg /\ Index_cn c = target in
  (resolves ->
     is_Some (GetXChannel cg (IsCn4 r)) /\
     first_where (fun c => Index_cn c = target) (own_channels cg)
                 (GetXChannel cg (IsCn4 r))) /\
  (~ resolves ->
     first_where is_master_prop (own_channels cg) (GetXChannel cg (IsCn4 r))).
Proof.
  intros target resolves. unfold GetXChannel. simpl.
  pose proof (find_if_first_where (fun p => Index_cn p =? target) (cn_list_ cg)) as Hded.
  pose proof (find_if_first_where is_master (cn_list_ cg)) as Hmas.
  apply (first_where_iff _ (fun c => Index_cn c = target)) in Hded;
    [|intros x; apply Z.eqb_eq].
  apply (first_where_iff _ is_master_prop) in Hmas; [|apply is_master_true].
  fold (own_channels cg) in Hded, Hmas. fold target.
  destruct (bool_decide _ && _ && _) eqn:Htest.
  - apply dedicated_axis_test in Htest.
    destruct (find_if (fun p => Index_cn p =? target) (cn_list_ cg)) as [p|] eqn:Hfind.
    + split; [intros _; split; [eauto | exact Hded] |].
      intros Hno. exfalso. apply Hno. split; [exact Htest|].
      destruct Hded as (i & Hi & Hp & _). exists p. split; [|exact Hp].
      apply list_elem_of_lookup. eauto.
    + split.
      * intros [_ (c & Hc & Hidx)]. exfalso. exact (Hded c Hc Hidx).
      * intros _. exact Hmas.
  - split.
    + intros [Hd _]. apply dedicated_axis_test in Hd.
      unfold target in Htest. rewrite Hd in Htest. discriminate.
    + intros _. exact Hmas.
Qed.

Lemma GetXChannel_own_list_witness :
  is_Some (GetXChannel axis_group (IsCn4 speed_map)) /\
  first_where is_master_prop (own_channels axis_group)
    (GetXChannel axis_group (IsCn4 plain_signal)).
Proof.
  split.
  - destruct (GetXChannel_own_list axis_group speed_map) as [Hded _].
    apply Hded. split.
    + repeat split; vm_compute; congruence.
    + exists speed_axis. split; [|reflexivity].
      apply list_elem_of_In. vm_compute. tauto.
  - destruct (GetXChannel_own_list axis_group plain_signal) as [_ Hmas].
    apply Hmas. intros [(Hlen & _) _]. vm_compute in Hlen. discriminate.
Defined.

Lemma find_if_own {A : Type} (p : A -> bool) (l : list (option A)) :
  find_if p l = List.find p (omap id l).
Proof.
  unfold find_if. induction l as [|[a|] l IH]; simpl; [reflexivity | | exact IH].
  destruct (p a); [reflexivity | exact IH].
Qed.

Lemma flatten_no_composition (l : list (option Cn4Block)) :
  Forall (fun c => AddCxChannels c = []) (omap id l) ->
  flatten_cn_list l = omap id l.
Proof.
  induction l as [|[c|] l IH]; cbn [omap list_omap id flatten_cn_list]; simpl;
    intros Hall; [reflexivity | | exact (IH Hall)].
  apply Forall_cons in Hall as [-> Hall]. simpl. f_equal. exact (IH Hall).
Qed.

(** On a group none of whose channels has a composition, the lookup is the
    one the specification words over the flattened channel list. *)
Lemma GetXChannel_refines_spec (cg : Cg4Block) (r : Cn4Block) :
  Forall (fun c => AddCxChannels c = []) (own_channels cg) ->
  GetXChannel cg (IsCn4 r) = find_axis_channel_spec cg r.
Proof.
  intros Hflat. unfold GetXChannel, find_axis_channel_spec, Channels. simpl.
  rewrite (flatten_no_composition _ Hflat), !find_if_own. reflexivity.
Qed.

Example GetXChannel_differs_from_spec :
  find_axis_channel_spec nested_master_group outer_structure = Some nested_master /\
  GetXChannel nested_master_group (IsCn4 outer_structure) = None.
Proof. split; reflexivity. Qed.

(** C1, counterexample: the only master of the group is nested in a
    composition; the reference has no axis link, the flattened channel list
    holds a Master, and the lookup still returns nothing. *)
Lemma GetXChannel_flattened_counterexample :
  ~ (~ dedicated_axis nested_master_group outer_structure ->
     first_where is_master_prop (Channels nested_master_group)
       (GetXChannel nested_master_group (IsCn4 outer_structure))).
Proof.
  intros H.
  assert (Hno : ~ dedicated_axis nested_master_group outer_structure).
  { intros (Hlen & _). vm_compute in Hlen. discriminate. }
  specialize (H Hno).
  change (GetXChannel nested_master_group (IsCn4 outer_structure)) with (@None Cn4Block) in H.
  apply (H nested_master).
  - vm_compute. apply list_elem_of_In. right. left. reflexivity.
  - left. reflexivity.
Qed.

(** ** Replaying records *)

Section Replay.
Context `{io : MdfBlockIo}.

Lemma fread_length (n : Z) (file : File) :
  (length (fread n file).1 <= Z.to_nat n)%nat.
Proof. unfold fread. simpl. rewrite length_take. lia. Qed.

Lemma read_into_length (n : Z) (got : list Z) :
  (length got <= Z.to_nat n)%nat -> length (read_into n got) = Z.to_nat n.
Proof. intros Hle. unfold read_into. rewrite length_app, length_replicate. lia. Qed.

Lemma is_vlsd_flags (cg : Cg4Block) :
  has_flag (flags_ cg) CgFlag_VlsdChannel = is_vlsd cg.
Proof. reflexivity. Qed.

Lemma notify_sample_exhausted (cg : Cg4Block) (record : list Z) :
  notify_sample (set_sample (NofSamples cg) cg) record
  = (set_sample (NofSamples cg) cg, []).
Proof.
  unfold notify_sample, Sample, NofSamples. simpl.
  by rewrite Z.ltb_irrefl.
Qed.

Lemma notify_sample_bound (cg cg' : Cg4Block) (record : list Z)
    (notes : list SampleRecord) :
  notify_sample cg record = (cg', notes) ->
  (notes <> [] -> Sample cg < NofSamples cg) /\
  (NofSamples cg <= Sample cg -> notes = [] /\ cg' = cg) /\
  NofSamples cg' = NofSamples cg /\
  (0 <= Sample cg <= NofSamples cg -> NofSamples cg < 2 ^ 64 ->
   0 <= Sample cg' <= NofSamples cg').
Proof.
  unfold notify_sample.
  destruct (Sample cg <? NofSamples cg) eqn:Hlt; intros [= <- <-].
  - apply Z.ltb_lt in Hlt.
    split; [intros _; exact Hlt|]. split; [lia|]. split; [reflexivity|].
    intros Hle Hmax. unfold IncrementSample, Sample, NofSamples, u64 in *. simpl.
    rewrite Z.mod_small; lia.
  - apply Z.ltb_ge in Hlt.
    split; [congruence|]. split; [done|]. split; [reflexivity|]. lia.
Qed.

(** Whatever a call returns comes out of [notify_sample] on the group it
    was given. *)
Lemma ReadDataRecord_notify (cg cg' : Cg4Block) (file file' : File) (count : Z)
    (notes : list SampleRecord) :
  ReadDataRecord cg file = Some (count, cg', file', notes) ->
  exists record : list Z, notify_sample cg record = (cg', notes).
Proof.
  unfold ReadDataRecord.
  destruct (has_flag (flags_ cg) CgFlag_VlsdChannel).
  - destruct (ReadNumber_u32 file) as [[[n len] file1]|]; [|discriminate].
    destruct (if 0 <? len then fread len file1 else ([], file1)) as [got file2].
    destruct (notify_sample cg (read_into len got)) as [c ns] eqn:Hn.
    intros [= _ <- _ <-]. eauto.
  - set (size := u32 (nof_data_bytes_ cg + nof_invalid_bytes_ cg)).
    destruct (fread size file) as [got file1].
    destruct (notify_sample cg (read_into size got)) as [c ns] eqn:Hn.
    intros [= _ <- _ <-]. eauto.
Qed.

Lemma notify_sample_counts (cg cg' : Cg4Block) (record : list Z)
    (notes : list SampleRecord) :
  0 <= Sample cg <= NofSamples cg -> NofSamples cg < 2 ^ 64 ->
  notify_sample cg record = (cg', notes) ->
  Sample cg' = Sample cg + Z.of_nat (length notes).
Proof.
  intros Hle Hmax. unfold notify_sample.
  destruct (Sample cg <? NofSamples cg) eqn:Hlt; intros [= <- <-]; simpl; [|lia].
  apply Z.ltb_lt in Hlt. unfold IncrementSample, Sample, NofSamples, u64 in *.
  simpl. rewrite Z.mod_small; lia.
Qed.

(** C2: in every state of the group a record goes to the observer only
    while the cursor is below the sample count, so a cursor that has not
    passed the count never does; once the cursor has reached the count the
    same bytes are still consumed from the stream, nothing is delivered and
    the group is left as it was. *)
Theorem ReadDataRecord_cursor_bound (cg : Cg4Block) (file : File) :
  match ReadDataRecord cg file with
  | None => is_vlsd cg = true /\ ReadNumber_u32 file = None
  | Some (count, cg', file', notes) =>
      (notes <> [] -> Sample cg < NofSamples cg) /\
      (NofSamples cg <= Sample cg -> notes = [] /\ cg' = cg) /\
      NofSamples cg' = NofSamples cg /\
      (0 <= Sample cg <= NofSamples cg -> NofSamples cg < 2 ^ 64 ->
       0 <= Sample cg' <= NofSamples cg') /\
      ReadDataRecord (set_sample (NofSamples cg) cg) file
      = Some (count, set_sample (NofSamples cg) cg, file', [])
  end.
Proof.
  unfold ReadDataRecord.
  cbn [set_sample flags_ nof_data_bytes_ nof_invalid_bytes_].
  rewrite is_vlsd_flags.
  destruct (is_vlsd cg) eqn:Hv.
  - destruct (ReadNumber_u32 file) as [[[n len] file1]|]; [|by split].
    destruct (if 0 <? len then fread len file1 else ([], file1)) as [got file2].
    rewrite notify_sample_exhausted.
    destruct (notify_sample cg (read_into len got)) as [cg' notes] eqn:Hn.
    pose proof (notify_sample_bound _ _ _ _ Hn) as (H1 & H2 & H3 & H4).
    repeat split; try tauto; try apply H2; try apply H4; auto.
  - set (size := u32 (nof_data_bytes_ cg + nof_invalid_bytes_ cg)).
    destruct (fread size file) as [got file1].
    rewrite notify_sample_exhausted.
    destruct (notify_sample cg (read_into size got)) as [cg' notes] eqn:Hn.
    pose proof (notify_sample_bound _ _ _ _ Hn) as (H1 & H2 & H3 & H4).
    repeat split; try tauto; try apply H2; try apply H4; auto.
Qed.

(** C9: with the cursor below the sample count the cursor advances by one
    and one record is delivered, whatever the number of bytes the read
    obtained: the record has the full size of the request, its front holds
    the bytes obtained and the rest is zero. *)
Theorem ReadDataRecord_counts_partial (cg : Cg4Block) (file : File) :
  0 <= Sample cg < NofSamples cg -> NofSamples cg < 2 ^ 64 ->
  match ReadDataRecord cg file with
  | None => is_vlsd cg = true /\ ReadNumber_u32 file = None
  | Some (count, cg', file', notes) =>
      Sample cg' = Sample cg + 1 /\
      exists (size : Z) (got : list Z),
        notes = [mkSampleRecord (Sample cg) (RecordId cg) (read_into size got)] /\
        (length got <= Z.to_nat size)%nat /\
        length (read_into size got) = Z.to_nat size /\
        (is_vlsd cg = false ->
           size = u32 (nof_data_bytes_ cg + nof_invalid_bytes_ cg) /\
           got = (fread size file).1 /\ count = Z.of_nat (length got)) /\
        (is_vlsd cg = true ->
           exists (n : Z) (file1 : File),
             ReadNumber_u32 file = Some (n, size, file1) /\
             got = (if 0 <? size then (fread size file1).1 else []))
  end.
Proof.
  intros Hlt Hmax. unfold ReadDataRecord. rewrite is_vlsd_flags.
  assert (Hnote : forall record,
    notify_sample cg record
    = (IncrementSample cg, [mkSampleRecord (Sample cg) (RecordId cg) record])).
  { intros record. unfold notify_sample.
    destruct (Z.ltb_spec (Sample cg) (NofSamples cg)); [done | lia]. }
  assert (Hinc : Sample (IncrementSample cg) = Sample cg + 1).
  { unfold IncrementSample, Sample, NofSamples, u64 in *. simpl.
    rewrite Z.mod_small; lia. }
  destruct (is_vlsd cg) eqn:Hv.
  - destruct (ReadNumber_u32 file) as [[[n len] file1]|] eqn:Hread; [|by split].
    destruct (if 0 <? len then fread len file1 else ([], file1)) as [got file2] eqn:Hgot.
    rewrite Hnote. split; [exact Hinc|].
    assert (Hlen : (length got <= Z.to_nat len)%nat).
    { destruct (0 <? len).
      - pose proof (fread_length len file1) as Hf. rewrite Hgot in Hf. exact Hf.
      - injection Hgot as <- <-. simpl. lia. }
    exists len, got.
    split; [reflexivity|]. split; [exact Hlen|].
    split; [by apply read_into_length|]. split; [discriminate|].
    intros _. exists n, file1. split; [reflexivity|].
    destruct (0 <? len); [by rewrite Hgot | by injection Hgot as <- <-].
  - destruct (fread (u32 (nof_data_bytes_ cg + nof_invalid_bytes_ cg)) file)
      as [got file1] eqn:Hgot.
    rewrite Hnote. split; [exact Hinc|].
    assert (Hlen : (length got
                    <= Z.to_nat (u32 (nof_data_bytes_ cg + nof_invalid_bytes_ cg)))%nat).
    { pose proof (fread_length (u32 (nof_data_bytes_ cg + nof_invalid_bytes_ cg)) file) as Hf.
      rewrite Hgot in Hf. exact Hf. }
    exists (u32 (nof_data_bytes_ cg + nof_invalid_bytes_ cg)), got.
    split; [reflexivity|]. split; [exact Hlen|].
    split; [by apply read_into_length|]. split; [|discriminate].
    intros _. by rewrite Hgot.
Qed.

End Replay.

Lemma ReadDataRecord_cursor_bound_witness :
  ReadDataRecord exhausted_group stream_file
  = Some (3, exhausted_group, mkFile [1; 2; 3; 4; 5; 6; 7] 3, []).
Proof.
  pose proof (ReadDataRecord_cursor_bound exhausted_group stream_file) as Hstep.
  destruct (ReadDataRecord exhausted_group stream_file)
    as [[[[count cg'] file'] notes]|] eqn:Hrun.
  - destruct Hstep as (_ & Hstop & _).
    destruct Hstop as [-> ->]; [vm_compute; discriminate|].
    vm_compute in Hrun. injection Hrun as <- <-. reflexivity.
  - destruct Hstep as [Hv _]. vm_compute in Hv. discriminate.
Defined.

Lemma ReadDataRecord_counts_partial_witness :
  0 <= Sample last_sample_group < NofSamples last_sample_group /\
  NofSamples last_sample_group < 2 ^ 64 /\
  ReadDataRecord last_sample_group short_file
  = Some (3, set_sample 3 last_sample_group, mkFile [10; 20; 30] 3,
          [mkSampleRecord 2 1 [10; 20; 30; 0; 0; 0; 0; 0]]).
Proof.
  assert (H1 : 0 <= Sample last_sample_group < NofSamples last_sample_group)
    by (vm_compute; split; [discriminate | reflexivity]).
  assert (H2 : NofSamples last_sample_group < 2 ^ 64) by reflexivity.
  pose proof (ReadDataRecord_counts_partial last_sample_group short_file H1 H2) as Hstep.
  split; [exact H1|]. split; [exact H2|].
  destruct (ReadDataRecord last_sample_group short_file)
    as [[[[count cg'] file'] notes]|] eqn:Hrun.
  - destruct Hstep as (Hcursor & size & got & Hnotes & _).
    vm_compute in Hrun. injection Hrun as <- <- <- <-. reflexivity.
  - destruct Hstep as [Hv _]. vm_compute in Hv. discriminate.
Defined.

(** Scenario B of the specification: frames of 5, 0 and 12 bytes with a
    sample count of 3 give three deliveries; a fourth call delivers
    nothing although a frame is left in the stream. *)
Example replay_vlsd_frames :
  let '(cg', file', notes) := replay 4 vlsd_replay_group vlsd_frames in
  Sample cg' = 3 /\
  file_pos file' = 35 /\
  notes = [mkSampleRecord 0 1 [1; 2; 3; 4; 5];
           mkSampleRecord 1 1 [];
           mkSampleRecord 2 1 [1; 2; 3; 4; 5; 6; 7; 8; 9; 10; 11; 12]].
Proof. vm_compute. repeat split. Qed.

Section ReplayInvariant.
Context `{io : MdfBlockIo}.

(** The cursor bound is an invariant of a whole replay session, and the
    cursor counts exactly the records delivered. *)
Lemma replay_cursor_bound (n : nat) (cg : Cg4Block) (file : File) :
  0 <= Sample cg <= NofSamples cg -> NofSamples cg < 2 ^ 64 ->
  let '(cg', _, notes) := replay n cg file in
  0 <= Sample cg' <= NofSamples cg' /\
  NofSamples cg' = NofSamples cg /\
  Sample cg' = Sample cg + Z.of_nat (length notes).
Proof.
  revert cg file. induction n as [|n IH]; intros cg file Hle Hmax; simpl.
  - repeat split; simpl; lia.
  - destruct (ReadDataRecord cg file) as [[[[count cg1] file1] notes1]|] eqn:Hrun.
    + destruct (ReadDataRecord_notify _ _ _ _ _ _ Hrun) as [record Hn].
      destruct (notify_sample_bound _ _ _ _ Hn) as (_ & _ & Hsame & Hkeep).
      pose proof (Hkeep Hle Hmax) as Hle1.
      pose proof (notify_sample_counts _ _ _ _ Hle Hmax Hn) as Hdelivered.
      assert (Hmax1 : NofSamples cg1 < 2 ^ 64) by lia.
      specialize (IH cg1 file1 Hle1 Hmax1).
      destruct (replay n cg1 file1) as [[cg2 file2] rest].
      destruct IH as (Hle2 & Hsame2 & Hcount).
      rewrite length_app, Nat2Z.inj_add. repeat split; lia.
    + repeat split; simpl; lia.
Qed.

End ReplayInvariant.

(** ** The 64-bit size of a VLSD group *)

Lemma lor_shiftl_32 (hi lo : Z) :
  0 <= lo < 2 ^ 32 -> Z.lor (Z.shiftl hi 32) lo = hi * 2 ^ 32 + lo.
Proof.
  intros Hlo. rewrite Z.shiftl_mul_pow2 by lia.
  pose proof (Z.add_lor_land (hi * 2 ^ 32) lo) as Hadd.
  assert (Hland : Z.land (hi * 2 ^ 32) lo = 0).
  { apply Z.bits_inj'. intros n Hn. rewrite Z.land_spec, Z.bits_0.
    destruct (Z.lt_ge_cases n 32).
    - rewrite Z.mul_pow2_bits_low by lia. reflexivity.
    - rewrite (Z.bits_above_log2 lo n); [apply andb_false_r|lia|].
      destruct (Z.eq_dec lo 0) as [->|]; [simpl; lia|].
      apply Z.log2_lt_pow2; [lia|].
      apply Z.lt_le_trans with (2 ^ 32); [lia|]. apply Z.pow_le_mono_r; lia. }
  lia.
Qed.

Lemma low32_high32 (X : Z) :
  0 <= X < 2 ^ 64 ->
  u32 (Z.land X 0xFFFFFFFF) = X mod 2 ^ 32 /\
  u32 (Z.shiftr X 32) = X / 2 ^ 32 /\
  0 <= X mod 2 ^ 32 < 2 ^ 32 /\ 0 <= X / 2 ^ 32 < 2 ^ 32.
Proof.
  intros HX. unfold u32.
  change 0xFFFFFFFF with (Z.ones 32). rewrite Z.land_ones by lia.
  rewrite Z.shiftr_div_pow2 by lia.
  assert (0 <= X mod 2 ^ 32 < 2 ^ 32) by (apply Z.mod_pos_bound; lia).
  assert (0 <= X / 2 ^ 32 < 2 ^ 32).
  { split; [apply Z.div_pos; lia|]. apply Z.div_lt_upper_bound; lia. }
  rewrite (Z.mod_small (X mod 2 ^ 32)) by lia.
  rewrite (Z.mod_small (X / 2 ^ 32)) by lia.
  repeat split; lia.
Qed.

Lemma vlsd_size_of_value (cg : Cg4Block) :
  u32_range (nof_data_bytes_ cg) -> u32_range (nof_invalid_bytes_ cg) ->
  vlsd_size_of cg = nof_invalid_bytes_ cg * 2 ^ 32 + nof_data_bytes_ cg.
Proof.
  unfold u32_range, vlsd_size_of, u64. intros Hd Hi.
  rewrite (Z.mod_small (nof_invalid_bytes_ cg)) by lia.
  rewrite Z.shiftl_mul_pow2 by lia.
  rewrite (Z.mod_small (nof_invalid_bytes_ cg * 2 ^ 32)) by lia.
  rewrite Z.mod_small; lia.
Qed.

Section VlsdSize.
Context `{io : MdfBlockIo}.

Lemma reconstruct_split (X : Z) :
  u64_range X ->
  reconstruct_vlsd_size (u32 (Z.land X 0xFFFFFFFF)) (u32 (Z.shiftr X 32)) = X.
Proof.
  intros HX. destruct (low32_high32 X HX) as (-> & -> & Hlo & Hhi).
  unfold reconstruct_vlsd_size. rewrite lor_shiftl_32 by exact Hlo.
  pose proof (Z.div_mod X (2 ^ 32)). lia.
Qed.

(** C7: the size rebuilt as [(invalid_bytes << 32) | data_bytes] from the
    low and high halves of any [X] below 2^64 is [X]; on a VLSD group the
    call adds the bytes it consumed (what reading the length prefix
    reported plus what stepping over the payload reported, 4 + length
    when both are complete) to that size in 64-bit arithmetic, stores the
    low half in [nof_data_bytes_] and the high half in
    [nof_invalid_bytes_], and adds one to the sample count. *)
Theorem UpdateVlsdSize_accumulates (cg : Cg4Block) (file file1 : File) (n len : Z) :
  is_vlsd cg = true ->
  u32_range (nof_data_bytes_ cg) -> u32_range (nof_invalid_bytes_ cg) ->
  ReadNumber_u32 file = Some (n, len, file1) ->
  (forall X, u64_range X ->
     reconstruct_vlsd_size (u32 (Z.land X 0xFFFFFFFF)) (u32 (Z.shiftr X 32)) = X) /\
  exists (count : Z) (cg' : Cg4Block) (file2 : File),
    UpdateVlsdSize cg file = Some (count, cg', file2) /\
    count = (if 0 <? len then u64 (u64 n + (StepFilePosition file1 len).1) else u64 n) /\
    (n = 4 -> 0 <= len < 2 ^ 32 ->
     (0 < len -> (StepFilePosition file1 len).1 = len) -> count = 4 + len) /\
    let X := reconstruct_vlsd_size (nof_data_bytes_ cg) (nof_invalid_bytes_ cg) in
    let X' := reconstruct_vlsd_size (nof_data_bytes_ cg') (nof_invalid_bytes_ cg') in
    X' = u64 (X + count) /\
    nof_data_bytes_ cg' = X' mod 2 ^ 32 /\
    nof_invalid_bytes_ cg' = X' / 2 ^ 32 /\
    nof_samples_ cg' = u64 (nof_samples_ cg + 1).
Proof.
  intros Hv Hd Hi Hread. split; [exact reconstruct_split|].
  unfold UpdateVlsdSize. fold (is_vlsd cg). rewrite Hv, Hread.
  set (count := if 0 <? len then u64 (u64 n + (StepFilePosition file1 len).1) else u64 n).
  set (file2 := if 0 <? len then (StepFilePosition file1 len).2 else file1).
  assert (Hpair :
    (if 0 <? len
     then let '(m, f) := StepFilePosition file1 len in (u64 (u64 (0 + n) + m), f)
     else (u64 (0 + n), file1)) = (count, file2)).
  { unfold count, file2. rewrite Z.add_0_l.
    destruct (0 <? len); [|reflexivity].
    destruct (StepFilePosition file1 len) as [m f]. reflexivity. }
  rewrite Hpair.
  set (v := u64 (vlsd_size_of cg + count)).
  assert (Hvr : u64_range v) by (apply Z.mod_pos_bound; lia).
  destruct (low32_high32 v Hvr) as (Hlo & Hhi & Hlor & Hhir).
  eexists count, _, file2. split; [reflexivity|].
  split; [reflexivity|].
  cbn [nof_data_bytes_ nof_invalid_bytes_ nof_samples_ set_nof_samples
       set_nof_data_bytes set_nof_invalid_bytes].
  fold v. rewrite reconstruct_split by exact Hvr.
  assert (HX : reconstruct_vlsd_size (nof_data_bytes_ cg) (nof_invalid_bytes_ cg)
               = vlsd_size_of cg).
  { unfold reconstruct_vlsd_size. rewrite lor_shiftl_32 by exact Hd.
    by rewrite vlsd_size_of_value. }
  rewrite HX. repeat split; auto.
  intros -> Hlen Hstep. unfold count, u64.
  destruct (Z.ltb_spec 0 len) as [Hpos|Hzero].
  - rewrite Hstep by exact Hpos. rewrite (Z.mod_small 4) by lia.
    rewrite Z.mod_small; lia.
  - rewrite Z.mod_small; lia.
Qed.

End VlsdSize.

Lemma UpdateVlsdSize_accumulates_witness :
  exists cg' : Cg4Block,
    UpdateVlsdSize vlsd_counter_group one_frame = Some (7, cg', mkFile [3; 0; 0; 0; 7; 8; 9] 7) /\
    nof_data_bytes_ cg' = 5 /\ nof_invalid_bytes_ cg' = 1 /\ nof_samples_ cg' = 8.
Proof.
  destruct (UpdateVlsdSize_accumulates vlsd_counter_group one_frame
              (mkFile [3; 0; 0; 0; 7; 8; 9] 4) 4 3)
    as (_ & count & cg' & file2 & Hrun & _ & _ & _ & Hdata & Hinv & Hsamples).
  - reflexivity.
  - vm_compute. split; [discriminate | reflexivity].
  - vm_compute. split; [discriminate | reflexivity].
  - reflexivity.
  - exists cg'. vm_compute in Hrun. injection Hrun as <- <- <-.
    repeat split.
Defined.

(** ** Record layout *)

Lemma layout_channel_fields (channel channel' : Cn4Block) (st st' : LayoutState) :
  layout_channel channel st = (channel', st') ->
  DataBytes_cn channel' = DataBytes_cn channel /\
  invalid_capable channel' = invalid_capable channel /\
  byte_offset_cn channel' = ls_byte_offset st /\
  invalid_offset_cn channel' =
    (if invalid_capable channel then ls_invalid_bit_offset st
     else invalid_offset_cn channel) /\
  ls_nof_data_bytes st' = u32 (ls_nof_data_bytes st + DataBytes_cn channel) /\
  ls_byte_offset st' = u64 (ls_byte_offset st + DataBytes_cn channel) /\
  ls_invalid_bit_offset st' =
    (if invalid_capable channel then u64 (ls_invalid_bit_offset st + 1)
     else ls_invalid_bit_offset st).
Proof.
  unfold layout_channel. destruct channel as [f cx].
  change (invalid_capable (PrepareForWriting_cn (ls_byte_offset st) (Cn4 f cx)))
    with (invalid_capable (Cn4 f cx)).
  destruct (invalid_capable (Cn4 f cx)) eqn:Hcap; intros [= <- <-];
    repeat split; try reflexivity; exact Hcap.
Qed.

Lemma layout_loop_invalid_bits (l : list (option Cn4Block)) :
  forall (st : LayoutState) (l' : list (option Cn4Block)) (st' : LayoutState),
    layout_loop l st = (l', st') ->
    0 <= ls_invalid_bit_offset st ->
    ls_invalid_bit_offset st + Z.of_nat (length l) < 2 ^ 64 ->
    let k := Z.of_nat (length (List.filter invalid_capable (omap id l))) in
    Forall2 (fun c c' =>
               invalid_capable c' = invalid_capable c /\
               (invalid_capable c = false -> invalid_offset_cn c' = invalid_offset_cn c))
            (omap id l) (omap id l') /\
    map invalid_offset_cn (List.filter invalid_capable (omap id l'))
      = seqZ (ls_invalid_bit_offset st) k /\
    ls_invalid_bit_offset st' = ls_invalid_bit_offset st + k /\
    k <= Z.of_nat (length l).
Proof.
  induction l as [|[channel|] l IH]; intros st l' st' Hrun Hpos Hmax; simpl in Hrun.
  - injection Hrun as <- <-. simpl. repeat split; try lia. constructor.
  - destruct (layout_channel channel st) as [channel' st1] eqn:Hone.
    destruct (layout_loop l st1) as [rest' st2] eqn:Hrest.
    injection Hrun as <- <-.
    destruct (layout_channel_fields _ _ _ _ Hone)
      as (_ & Hcap & _ & Hbit & _ & _ & Hnext).
    simpl in Hmax.
    assert (Hstep : ls_invalid_bit_offset st1
                    = if invalid_capable channel then ls_invalid_bit_offset st + 1
                      else ls_invalid_bit_offset st).
    { rewrite Hnext. destruct (invalid_capable channel); [|reflexivity].
      unfold u64. rewrite Z.mod_small; lia. }
    destruct (IH st1 rest' st2 Hrest) as (Hrel & Hbits & Hlast & Hk).
    { rewrite Hstep. destruct (invalid_capable channel); lia. }
    { rewrite Hstep. destruct (invalid_capable channel); lia. }
    cbn [omap list_omap id]. simpl.
    rewrite Hcap. destruct (invalid_capable channel) eqn:Hc; simpl.
    + repeat split.
      * constructor; [split; [congruence | intros Hf; congruence] | exact Hrel].
      * rewrite Hbits, Hbit, Hstep.
        rewrite (seqZ_cons (ls_invalid_bit_offset st)) by lia.
        do 2 f_equal; lia.
      * rewrite Hlast, Hstep. lia.
      * lia.
    + repeat split.
      * constructor; [split; [congruence | intros _; exact Hbit] | exact Hrel].
      * rewrite Hbits, Hstep. reflexivity.
      * rewrite Hlast, Hstep. reflexivity.
      * lia.
  - destruct (layout_loop l st) as [rest' st2] eqn:Hrest.
    injection Hrun as <- <-. simpl in Hmax.
    destruct (IH st rest' st2 Hrest) as (Hrel & Hbits & Hlast & Hk); try lia.
    cbn [omap list_omap id]. simpl. repeat split; auto. lia.
Qed.

Lemma PrepareForWriting_layout (cg : Cg4Block) :
  is_vlsd cg = false ->
  let r := layout_loop (cn_list_ cg) (mkLayoutState 0 0 0) in
  let bits := ls_invalid_bit_offset r.2 in
  cn_list_ (PrepareForWriting cg) = r.1 /\
  nof_data_bytes_ (PrepareForWriting cg) = ls_nof_data_bytes r.2 /\
  nof_invalid_bytes_ (PrepareForWriting cg) =
    (if bits =? 0 then 0
     else if 0 <? bits mod 8 then u32 (bits / 8 + 1) else u32 (bits / 8)).
Proof.
  intros Hv. unfold PrepareForWriting. fold (is_vlsd cg). rewrite Hv.
  destruct (layout_loop (cn_list_ cg) (mkLayoutState 0 0 0)) as [channels st].
  cbn [fst snd nof_invalid_bytes_ nof_data_bytes_ set_nof_invalid_bytes
       set_nof_data_bytes set_cn_list].
  match goal with |- context [if ?b then set_sample_buffer _ _ else _] =>
    destruct b end; repeat split.
Qed.

(** C5 (as amended): on a group that is not VLSD, with [k] the number of
    invalid-capable channels among the channels of the group's own channel
    list (null entries skipped, channels nested in compositions not
    visited; fewer than 2^32 entries), the invalid-bit positions handed out
    to those channels are 0, 1, ..., k-1 in declaration order, a channel
    that is not invalid-capable keeps the position it had, and the number
    of invalid bytes is k/8 rounded up, 0 when k = 0. *)
Theorem PrepareForWriting_invalid_bits (cg : Cg4Block) :
  is_vlsd cg = false ->
  Z.of_nat (length (cn_list_ cg)) < 2 ^ 32 ->
  let cg' := PrepareForWriting cg in
  let k := Z.of_nat (length (List.filter invalid_capable (own_channels cg))) in
  map invalid_offset_cn (List.filter invalid_capable (own_channels cg')) = seqZ 0 k /\
  Forall2 (fun c c' =>
             invalid_capable c' = invalid_capable c /\
             (invalid_capable c = false -> invalid_offset_cn c' = invalid_offset_cn c))
          (own_channels cg) (own_channels cg') /\
  nof_invalid_bytes_ cg' = (k + 7) / 8 /\
  8 * (nof_invalid_bytes_ cg' - 1) < k <= 8 * nof_invalid_bytes_ cg' /\
  (k = 0 -> nof_invalid_bytes_ cg' = 0).
Proof.
  intros Hv Hlen cg' k.
  destruct (PrepareForWriting_layout cg Hv) as (Hlist & _ & Hinv).
  destruct (layout_loop (cn_list_ cg) (mkLayoutState 0 0 0)) as [channels st] eqn:Hrun.
  destruct (layout_loop_invalid_bits _ _ _ _ Hrun) as (Hrel & Hbits & Hlast & Hk);
    cbn [ls_invalid_bit_offset]; try lia.
  cbn [fst snd ls_invalid_bit_offset] in *.
  fold (own_channels cg) in Hrel, Hbits, Hlast, Hk. fold k in Hbits, Hlast, Hk.
  rewrite Z.add_0_l in Hlast.
  assert (Hown : own_channels (PrepareForWriting cg) = omap id channels)
    by (unfold own_channels; by rewrite Hlist).
  unfold cg'. rewrite Hown.
  assert (Hbytes : nof_invalid_bytes_ (PrepareForWriting cg) = (k + 7) / 8).
  { rewrite Hinv, Hlast. unfold u32.
    assert (0 <= k) by lia.
    destruct (Z.eqb_spec k 0) as [->|Hne]; [reflexivity|].
    destruct (Z.ltb_spec 0 (k mod 8)).
    - rewrite Z.mod_small; [|split; [|]]; Z.div_mod_to_equations; lia.
    - rewrite Z.mod_small; [|split; [|]]; Z.div_mod_to_equations; lia. }
  split; [exact Hbits|]. split; [exact Hrel|]. split; [exact Hbytes|].
  rewrite Hbytes. split; [|intros ->; reflexivity].
  Z.div_mod_to_equations. lia.
Qed.

Lemma PrepareForWriting_invalid_bits_witness :
  map invalid_offset_cn
      (List.filter invalid_capable (own_channels (PrepareForWriting scenario_A)))
    = [0; 1] /\
  nof_invalid_bytes_ (PrepareForWriting scenario_A) = 1.
Proof.
  destruct (PrepareForWriting_invalid_bits scenario_A) as (Hbits & _ & Hbytes & _).
  - reflexivity.
  - reflexivity.
  - split; [exact Hbits | exact Hbytes].
Defined.

(** C5, counterexample: eight invalid-capable channels, the first a
    structure with an invalid-capable member.  The flattened list holds
    nine invalid-capable channels, but the member is not visited: it keeps
    the position 0 it had, which its structure is given as well, the
    positions over the flattened list are not 0, ..., 8, and the number of
    invalid bytes is 1, not 9/8 rounded up. *)
Lemma PrepareForWriting_invalid_bits_counterexample :
  let cg' := PrepareForWriting nested_invalid_group in
  let k := Z.of_nat (length (List.filter invalid_capable (Channels nested_invalid_group))) in
  is_vlsd nested_invalid_group = false /\
  k = 9 /\
  map invalid_offset_cn (List.filter invalid_capable (Channels cg'))
    = [0; 0; 1; 2; 3; 4; 5; 6; 7] /\
  map invalid_offset_cn (List.filter invalid_capable (Channels cg')) <> seqZ 0 k /\
  nof_invalid_bytes_ cg' = 1 /\
  nof_invalid_bytes_ cg' <> (k + 7) / 8.
Proof.
  cbv zeta. repeat split; try reflexivity; vm_compute; discriminate.
Qed.

Lemma layout_loop_offsets (l : list (option Cn4Block)) :
  forall (st : LayoutState) (l' : list (option Cn4Block)) (st' : LayoutState),
    layout_loop l st = (l', st') ->
    0 <= ls_byte_offset st ->
    u32_range (ls_nof_data_bytes st) ->
    Forall (fun c => 0 <= DataBytes_cn c) (omap id l) ->
    ls_byte_offset st + sum_widths (omap id l) < 2 ^ 64 ->
    Forall2 (fun c c' => DataBytes_cn c' = DataBytes_cn c) (omap id l) (omap id l') /\
    running_from (ls_byte_offset st) (map segment_of (omap id l')) /\
    ls_byte_offset st' = ls_byte_offset st + sum_widths (omap id l) /\
    ls_nof_data_bytes st' = u32 (ls_nof_data_bytes st + sum_widths (omap id l)).
Proof.
  induction l as [|[channel|] l IH]; intros st l' st' Hrun Hpos Hnd Hwidths Hmax;
    simpl in Hrun.
  - injection Hrun as <- <-. simpl. repeat split; [constructor | lia |].
    unfold u32, u32_range in *. rewrite Z.add_0_r, Z.mod_small; lia.
  - destruct (layout_channel channel st) as [channel' st1] eqn:Hone.
    destruct (layout_loop l st1) as [rest' st2] eqn:Hrest.
    injection Hrun as <- <-.
    destruct (layout_channel_fields _ _ _ _ Hone)
      as (Hwidth & _ & Hoff & _ & Hnd1 & Hoff1 & _).
    cbn [omap list_omap id] in *. simpl in Hwidths, Hmax.
    apply Forall_cons in Hwidths as [Hw Hwidths].
    assert (Hsum : 0 <= sum_widths (omap id l)).
    { clear -Hwidths. induction Hwidths; simpl; lia. }
    assert (Hnext : ls_byte_offset st1 = ls_byte_offset st + DataBytes_cn channel).
    { rewrite Hoff1. unfold u64. rewrite Z.mod_small; lia. }
    destruct (IH st1 rest' st2 Hrest) as (Hrel & Hrunning & Hlast & Hdata);
      try (rewrite Hnext; lia); try exact Hwidths.
    { rewrite Hnd1. apply Z.mod_pos_bound. lia. }
    simpl. repeat split.
    + constructor; [exact Hwidth | exact Hrel].
    + exact Hoff.
    + change (segment_of channel').2 with (DataBytes_cn channel').
      rewrite Hwidth, <- Hnext. exact Hrunning.
    + rewrite Hlast, Hnext. lia.
    + rewrite Hdata, Hnd1. unfold u32. rewrite Zplus_mod_idemp_l. f_equal. lia.
  - destruct (layout_loop l st) as [rest' st2] eqn:Hrest.
    injection Hrun as <- <-. cbn [omap list_omap id] in *.
    exact (IH st rest' st2 Hrest Hpos Hnd Hwidths Hmax).
Qed.

Lemma sum_widths_nonneg (l : list Cn4Block) :
  Forall (fun c => 0 <= DataBytes_cn c) l -> 0 <= sum_widths l.
Proof. induction 1; simpl; lia. Qed.

Lemma sum_widths_Forall2 (l l' : list Cn4Block) :
  Forall2 (fun c c' => DataBytes_cn c' = DataBytes_cn c) l l' ->
  sum_widths l' = sum_widths l /\
  (Forall (fun c => 0 <= DataBytes_cn c) l -> Forall (fun c => 0 <= DataBytes_cn c) l').
Proof.
  induction 1 as [|c c' l l' Hw _ [IHs IHf]]; simpl.
  - split; [reflexivity | intros _; constructor].
  - split; [lia|]. intros Hall. apply Forall_cons in Hall as [Hc Hall].
    constructor; [lia | auto].
Qed.

(** Segments that run on from one another, with widths that are not
    negative, cover their range once. *)
Lemma running_from_covers (l : list Cn4Block) :
  forall start : Z,
    Forall (fun c => 0 <= DataBytes_cn c) l ->
    running_from start (map segment_of l) ->
    (forall (i : nat) (s : Z * Z), map segment_of l !! i = Some s ->
       start <= s.1 /\ s.1 + s.2 <= start + sum_widths l) /\
    (forall b : Z, start <= b < start + sum_widths l ->
       exists (i : nat) (s : Z * Z), map segment_of l !! i = Some s /\ in_segment b s /\
         forall (j : nat) (t : Z * Z),
           map segment_of l !! j = Some t -> in_segment b t -> j = i).
Proof.
  induction l as [|c l IH]; intros start Hall Hrun.
  - split; [intros i s Hi; inversion Hi | simpl; intros b Hb; lia].
  - apply Forall_cons in Hall as [Hc Hall].
    destruct Hrun as [Hstart Hrun]. simpl in Hstart, Hrun.
    pose proof (sum_widths_nonneg l Hall) as Hsum.
    destruct (IH _ Hall Hrun) as [Hin Hcover].
    split.
    + intros [|i] s Hi; simpl in Hi.
      * injection Hi as <-. simpl. lia.
      * destruct (Hin i s Hi). simpl. lia.
    + intros b Hb. simpl in Hb.
      destruct (Z_lt_ge_dec b (start + DataBytes_cn c)) as [Hfirst|Hlater].
      * exists 0%nat, (segment_of c). split; [reflexivity|].
        split; [unfold in_segment; simpl; lia|].
        intros [|j] t Hj Ht; [reflexivity|]. simpl in Hj.
        destruct (Hin j t Hj). unfold in_segment in Ht. lia.
      * destruct (Hcover b) as (i & s & Hi & Hbs & Huniq); [lia|].
        exists (S i), s. split; [exact Hi|]. split; [exact Hbs|].
        intros [|j] t Hj Ht; simpl in Hj.
        -- injection Hj as <-. unfold in_segment in Ht. simpl in Ht. lia.
        -- f_equal. exact (Huniq j t Hj Ht).
Qed.

(** C6 (as amended): on a group that is not VLSD the channels of the
    group's own channel list (null entries skipped, nested composition
    channels not visited) are laid out in declaration order: each receives
    the running byte offset, the offset and [nof_data_bytes_] advance by its
    width, and, the widths summing to less than 2^32, the segments
    partition [0, nof_data_bytes_). *)
Theorem PrepareForWriting_offsets (cg : Cg4Block) :
  is_vlsd cg = false ->
  Forall (fun c => 0 <= DataBytes_cn c) (own_channels cg) ->
  sum_widths (own_channels cg) < 2 ^ 32 ->
  let cg' := PrepareForWriting cg in
  Forall2 (fun c c' => DataBytes_cn c' = DataBytes_cn c)
          (own_channels cg) (own_channels cg') /\
  running_from 0 (map segment_of (own_channels cg')) /\
  nof_data_bytes_ cg' = sum_widths (own_channels cg') /\
  partitions (map segment_of (own_channels cg')) (nof_data_bytes_ cg').
Proof.
  intros Hv Hwidths Hsum cg'.
  destruct (PrepareForWriting_layout cg Hv) as (Hlist & Hdata & _).
  destruct (layout_loop (cn_list_ cg) (mkLayoutState 0 0 0)) as [channels st] eqn:Hrun.
  pose proof (sum_widths_nonneg _ Hwidths) as Hnonneg.
  destruct (layout_loop_offsets _ _ _ _ Hrun) as (Hrel & Hrunning & _ & Hnd);
    cbn [ls_byte_offset ls_nof_data_bytes]; try (unfold u32_range; lia);
    try exact Hwidths.
  { fold (own_channels cg). lia. }
  cbn [fst snd ls_byte_offset ls_nof_data_bytes] in *.
  fold (own_channels cg) in Hrel, Hnd.
  assert (Hown : own_channels (PrepareForWriting cg) = omap id channels)
    by (unfold own_channels; by rewrite Hlist).
  unfold cg'. rewrite Hown, Hdata, Hnd.
  destruct (sum_widths_Forall2 _ _ Hrel) as [Hsame Hkeep].
  rewrite Z.add_0_l. unfold u32. rewrite Z.mod_small by lia. rewrite Hsame.
  split; [exact Hrel|]. split; [exact Hrunning|]. split; [reflexivity|].
  destruct (running_from_covers _ 0 (Hkeep Hwidths) Hrunning) as [Hin Hcover].
  rewrite Hsame, Z.add_0_l in Hin, Hcover.
  split; [exact Hin | exact Hcover].
Qed.

Lemma PrepareForWriting_offsets_witness :
  map segment_of (own_channels (PrepareForWriting scenario_A)) = [(0, 4); (4, 2); (6, 1)] /\
  nof_data_bytes_ (PrepareForWriting scenario_A) = 7 /\
  partitions (map segment_of (own_channels (PrepareForWriting scenario_A)))
             (nof_data_bytes_ (PrepareForWriting scenario_A)).
Proof.
  destruct (PrepareForWriting_offsets scenario_A) as (_ & _ & _ & Hpart).
  - reflexivity.
  - repeat constructor; vm_compute; discriminate.
  - reflexivity.
  - split; [reflexivity|]. split; [reflexivity | exact Hpart].
Defined.

(** C6, counterexample: a structure of width 4 with a member of width 2.
    The flattened list holds both channels, but only the structure is laid
    out: [nof_data_bytes_] is 4, not 6, and byte 0 lies in two segments of
    the flattened list. *)
Lemma PrepareForWriting_flattened_counterexample :
  nof_data_bytes_ (PrepareForWriting structure_group)
    <> sum_widths (Channels (PrepareForWriting structure_group)) /\
  ~ partitions (map segment_of (Channels (PrepareForWriting structure_group)))
               (nof_data_bytes_ (PrepareForWriting structure_group)).
Proof.
  split; [vm_compute; discriminate|].
  intros [_ Hcover].
  destruct (Hcover 0) as (i & s & _ & _ & Huniq); [vm_compute; split; congruence|].
  assert (H0 : 0%nat = i).
  { apply (Huniq 0%nat (0, 4)); [reflexivity | vm_compute; split; congruence]. }
  assert (H1 : 1%nat = i).
  { apply (Huniq 1%nat (0, 2)); [reflexivity | vm_compute; split; congruence]. }
  congruence.
Qed.

(** ** Back-patching on a first write *)

(** Induction on a channel and the channels nested in its composition. *)
Lemma Cn4Block_nested_ind (P : Cn4Block -> Prop) :
  (forall (f : CnFields) (cx : list CxBlock),
     Forall (fun x => match x with CxCn c => P c | _ => True end) cx ->
     P (Cn4 f cx)) ->
  forall c : Cn4Block, P c.
Proof.
  intros Hstep. fix IH 1. intros [f cx]. apply Hstep.
  induction cx as [|x cx IHcx]; constructor; [|exact IHcx].
  destruct x as [|c|t]; [exact I | apply IH | exact I].
Qed.

Lemma fields_of_map_cn (g : CnFields -> CnFields) (c : Cn4Block) :
  fields_of (map_cn g c) = g (fields_of c).
Proof. destruct c; reflexivity. Qed.

Lemma AddCxChannels_map_cn (g : CnFields -> CnFields) (c : Cn4Block) :
  AddCxChannels (map_cn g c) = map (map_cn g) (AddCxChannels c).
Proof.
  induction c as [f cx IH] using Cn4Block_nested_ind. simpl. nested_cx IH.
Qed.

Lemma flatten_map_cn_list (g : CnFields -> CnFields) (l : list (option Cn4Block)) :
  flatten_cn_list (map_cn_list g l) = map (map_cn g) (flatten_cn_list l).
Proof.
  induction l as [|[c|] l IH]; simpl; [reflexivity | | exact IH].
  rewrite map_app, AddCxChannels_map_cn, IH. reflexivity.
Qed.

Lemma map_cn_compose (g h : CnFields -> CnFields) (c : Cn4Block) :
  map_cn g (map_cn h c) = map_cn (fun f => g (h f)) c.
Proof.
  induction c as [f cx IH] using Cn4Block_nested_ind. simpl. f_equal. nested_cx IH.
Qed.

Lemma patch_data_link_type (type : ChannelType) (position : Z) (f : CnFields) :
  cn_Type (patch_data_link type position f) = cn_Type f /\
  cn_Name (patch_data_link type position f) = cn_Name f /\
  cn_Index (patch_data_link type position f) = cn_Index f /\
  cn_data_link (patch_data_link type position f)
    = (if bool_decide (cn_Type f = type) then position else cn_data_link f).
Proof. unfold patch_data_link. destruct (bool_decide _); repeat split. Qed.

Lemma find_map_invariant {A : Type} (p : A -> bool) (h : A -> A) (l : list A) :
  (forall x, p (h x) = p x) ->
  List.find p (map h l) = option_map h (List.find p l).
Proof.
  intros Hp. induction l as [|x l IH]; [reflexivity|]. simpl.
  rewrite Hp. destruct (p x); [reflexivity | exact IH].
Qed.

Lemma map_cn_id (c : Cn4Block) : map_cn (fun f => f) c = c.
Proof.
  induction c as [f cx IH] using Cn4Block_nested_ind. simpl. f_equal. nested_cx IH.
Qed.

(** The fixed fields of a first write and the positions recorded on the
    way. *)
Lemma le_bytes_length (n : nat) (v : Z) : length (le_bytes n v) = n.
Proof. revert v. induction n as [|n IH]; intros v; simpl; [reflexivity | by rewrite IH]. Qed.

Lemma WriteNumber_pos (width : nat) (file file' : File) (v n : Z) :
  WriteNumber width file v = (n, file') ->
  n = Z.of_nat width /\ file_pos file' = file_pos file + Z.of_nat width.
Proof.
  unfold WriteNumber. intros [= <- <-]. split; [reflexivity|].
  unfold fwrite. cbn [file_pos]. by rewrite le_bytes_length.
Qed.

Lemma WriteBytes_pos (count : nat) (file file' : File) (n : Z) :
  WriteBytes file count = (n, file') ->
  n = Z.of_nat count /\ file_pos file' = file_pos file + Z.of_nat count.
Proof.
  unfold WriteBytes. intros [= <- <-]. split; [reflexivity|].
  unfold fwrite. cbn [file_pos]. by rewrite length_replicate.
Qed.

Lemma write_fixed_fields_spec (vlsd : bool) (bytes : Z) (cg : Cg4Block) (file : File) :
  let r := write_fixed_fields vlsd bytes cg file in
  let cg' := r.1.2 in
  base cg' = base cg /\ cn_list_ cg' = cn_list_ cg /\ flags_ cg' = flags_ cg /\
  nof_samples_ cg' = nof_samples_ cg /\
  nof_data_bytes_ cg' = nof_data_bytes_ cg /\
  nof_invalid_bytes_ cg' = nof_invalid_bytes_ cg /\
  nof_samples_position_ cg' = file_pos file + 8 /\
  nof_data_position_ cg' =
    (if vlsd then file_pos file + 24 else nof_data_position_ cg) /\
  nof_invalid_position_ cg' =
    (if vlsd then file_pos file + 28 else nof_invalid_position_ cg).
Proof.
  unfold write_fixed_fields.
  destruct (WriteNumber 8 file _) as [n1 f1] eqn:E1.
  apply WriteNumber_pos in E1 as [_ P1].
  destruct (WriteNumber 8 f1 _) as [n2 f2] eqn:E2.
  apply WriteNumber_pos in E2 as [_ P2].
  destruct (WriteNumber 2 f2 _) as [n3 f3] eqn:E3.
  apply WriteNumber_pos in E3 as [_ P3].
  destruct (WriteNumber 2 f3 _) as [n4 f4] eqn:E4.
  apply WriteNumber_pos in E4 as [_ P4].
  destruct (WriteBytes f4 4) as [n5 f5] eqn:E5.
  apply WriteBytes_pos in E5 as [_ P5].
  destruct (WriteNumber 4 f5 _) as [n6 f6] eqn:E6.
  apply WriteNumber_pos in E6 as [_ P6].
  destruct (WriteNumber 4 f6 _) as [n7 f7] eqn:E7.
  unfold GetFilePosition.
  destruct vlsd; cbn; repeat split; lia.
Qed.

Section FirstWrite.
Context `{io : MdfBlockIo}.

Lemma update_data_links_channels (type : ChannelType) (position : Z)
    (cg : Cg4Block) (file : File) :
  Channels (update_data_links type position cg file).1
  = map (map_cn (patch_data_link type position)) (Channels cg).
Proof. unfold update_data_links, Channels. simpl. apply flatten_map_cn_list. Qed.

Lemma update_data_links_frame (type : ChannelType) (position : Z)
    (cg : Cg4Block) (file : File) :
  let cg' := (update_data_links type position cg file).1 in
  base cg' = base cg /\
  nof_samples_position_ cg' = nof_samples_position_ cg /\
  nof_data_position_ cg' = nof_data_position_ cg /\
  nof_invalid_position_ cg' = nof_invalid_position_ cg.
Proof. repeat split. Qed.

(** The channels after the two closing loops. *)
Lemma resolve_data_links_channels (vlsd : bool) (cg : Cg4Block) (file : File) :
  let cg' := (resolve_data_links vlsd cg file).1 in
  Channels cg' =
    map (map_cn (fun f =>
           let f1 := if vlsd
                     then patch_data_link VariableLength (FilePosition cg) f
                     else f in
           match GetChannel cg ".DataLength" with
           | Some d => patch_data_link MaxLength (Index_cn d) f1
           | None => f1
           end))
        (Channels cg) /\
  base cg' = base cg /\
  nof_samples_position_ cg' = nof_samples_position_ cg /\
  nof_data_position_ cg' = nof_data_position_ cg /\
  nof_invalid_position_ cg' = nof_invalid_position_ cg.
Proof.
  unfold resolve_data_links.
  set (gV := fun f : CnFields =>
               if vlsd then patch_data_link VariableLength (FilePosition cg) f else f).
  set (st := if vlsd then update_data_links VariableLength (FilePosition cg) cg file
             else (cg, file)).
  assert (HV : Channels st.1 = map (map_cn gV) (Channels cg) /\ base st.1 = base cg /\
               nof_samples_position_ st.1 = nof_samples_position_ cg /\
               nof_data_position_ st.1 = nof_data_position_ cg /\
               nof_invalid_position_ st.1 = nof_invalid_position_ cg).
  { unfold st, gV. destruct vlsd.
    - rewrite update_data_links_channels. repeat split.
    - simpl. repeat split. rewrite <- (map_id (Channels cg)) at 1.
      apply map_ext. intros c. symmetry. apply map_cn_id. }
  destruct st as [cgV fileV]. simpl in HV.
  destruct HV as (Hch & Hbase & Hp1 & Hp2 & Hp3).
  assert (Hfind : GetChannel cgV ".DataLength"
                  = option_map (map_cn gV) (GetChannel cg ".DataLength")).
  { unfold GetChannel. rewrite Hch. apply find_map_invariant.
    intros c. unfold Name_cn. rewrite fields_of_map_cn. unfold gV.
    destruct vlsd; [|reflexivity].
    by destruct (patch_data_link_type VariableLength (FilePosition cg) (fields_of c))
      as (_ & -> & _). }
  rewrite Hfind.
  destruct (GetChannel cg ".DataLength") as [d|]; cbn [option_map].
  - rewrite update_data_links_channels, Hch, map_map.
    split; [|by rewrite <- Hbase, <- Hp1, <- Hp2, <- Hp3].
    apply map_ext. intros c. rewrite map_cn_compose.
    replace (Index_cn (map_cn gV d)) with (Index_cn d); [reflexivity|].
    unfold Index_cn. rewrite fields_of_map_cn. unfold gV.
    destruct vlsd; [|reflexivity].
    by destruct (patch_data_link_type VariableLength (FilePosition cg) (fields_of d))
      as (_ & _ & -> & _).
  - split; [exact Hch | by rewrite <- Hbase, <- Hp1, <- Hp2, <- Hp3].
Qed.

Lemma write_children_frame (cg : Cg4Block) (file : File) :
  let cg' := (write_children cg file).1 in
  file_position_ (base cg') = file_position_ (base cg) /\
  block_length_ (base cg') = block_length_ (base cg) /\
  flags_ cg' = flags_ cg /\
  nof_samples_ cg' = nof_samples_ cg /\
  nof_data_bytes_ cg' = nof_data_bytes_ cg /\
  nof_invalid_bytes_ cg' = nof_invalid_bytes_ cg /\
  nof_samples_position_ cg' = nof_samples_position_ cg /\
  nof_data_position_ cg' = nof_data_position_ cg /\
  nof_invalid_position_ cg' = nof_invalid_position_ cg.
Proof.
  unfold write_children.
  destruct (WriteLink4List_cn _ _ _) as [[links1 cn1] file1]. cbn.
  destruct (WriteTx4 _ _ _) as [links2 file2]. cbn.
  destruct (WriteBlock4_si _ _ _) as [[links3 si3] file3]. cbn.
  destruct (WriteLink4List_sr _ _ _) as [[links4 sr4] file4]. cbn.
  destruct (WriteMdComment _ _ _) as [[links5 md5] file5]. cbn.
  repeat split.
Qed.

(** What a first write leaves in the group, in terms of the group as the
    child-block writers left it and of the position [MdfBlock::Write]
    assigned. *)
Lemma Write_first (cg : Cg4Block) (file : File) :
  (0 <? FilePosition cg) = false ->
  let children := write_children (init_block cg) file in
  let header := MdfBlock_Write children.2 (base children.1) in
  let cg' := (Write cg file).1.2 in
  FilePosition cg' = header.1.2 /\
  Channels cg' =
    map (map_cn (fun f =>
           let f1 := if is_vlsd cg
                     then patch_data_link VariableLength header.1.2 f
                     else f in
           match GetChannel children.1 ".DataLength" with
           | Some d => patch_data_link MaxLength (Index_cn d) f1
           | None => f1
           end))
        (Channels children.1) /\
  nof_samples_position_ cg' = file_pos header.2 + 8 /\
  nof_data_position_ cg' =
    (if is_vlsd cg then file_pos header.2 + 24 else nof_data_position_ cg) /\
  nof_invalid_position_ cg' =
    (if is_vlsd cg then file_pos header.2 + 28 else nof_invalid_position_ cg).
Proof.
  intros Hfirst. unfold Write. rewrite Hfirst.
  pose proof (write_children_frame (init_block cg) file) as Hframe.
  destruct (write_children (init_block cg) file) as [cg1 file1].
  cbn [fst snd] in *.
  destruct Hframe as (_ & _ & _ & _ & _ & _ & _ & Hdp & Hip).
  change (nof_data_position_ (init_block cg)) with (nof_data_position_ cg) in Hdp.
  change (nof_invalid_position_ (init_block cg)) with (nof_invalid_position_ cg) in Hip.
  destruct (MdfBlock_Write file1 (base cg1)) as [[bytes position] file2].
  cbn [fst snd].
  change (has_flag (flags_ cg) CgFlag_VlsdChannel) with (is_vlsd cg).
  pose proof (write_fixed_fields_spec (is_vlsd cg) bytes
                (set_file_position position cg1) file2) as Hfields.
  destruct (write_fixed_fields (is_vlsd cg) bytes (set_file_position position cg1) file2)
    as [[bytes' cg2] file3].
  cbn [fst snd] in Hfields.
  destruct Hfields as (Hbase & Hcn & _ & _ & _ & _ & Hsp2 & Hdp2 & Hip2).
  destruct (UpdateBlockSize file3 (base cg2) bytes') as [block_length file4].
  pose proof (resolve_data_links_channels (is_vlsd cg)
                (set_block_length block_length cg2) file4) as Hlinks.
  destruct (resolve_data_links (is_vlsd cg) (set_block_length block_length cg2) file4)
    as [cg3 file5].
  cbn [fst snd] in *.
  destruct Hlinks as (Hch & Hbase3 & Hsp3 & Hdp3 & Hip3).
  assert (Hpos : FilePosition (set_block_length block_length cg2) = position).
  { unfold FilePosition. cbn. by rewrite Hbase. }
  assert (Hchannels : Channels (set_block_length block_length cg2) = Channels cg1).
  { unfold Channels. cbn. by rewrite Hcn. }
  assert (Hget : GetChannel (set_block_length block_length cg2) ".DataLength"
                 = GetChannel cg1 ".DataLength").
  { unfold GetChannel. by rewrite Hchannels. }
  rewrite Hpos, Hchannels, Hget in Hch.
  split; [unfold FilePosition; rewrite Hbase3; exact Hpos|].
  split; [exact Hch|].
  rewrite Hsp3, Hdp3, Hip3. cbn.
  rewrite Hsp2, Hdp2, Hip2. cbn. rewrite Hdp, Hip. repeat split.
Qed.

(** C3 (as amended): on the first write of a group whose VariableLength
    flag is set, every channel of this group's flattened channel list
    (the channels of the group and the channels nested in their
    compositions) whose kind is VariableLength has its payload link set to
    the identity the group has just received; the channels keep their
    kind, name and identity, and a channel of any kind other than
    VariableLength and MaxLength keeps the link it had. *)
Theorem Write_patches_vlsd_links (cg : Cg4Block) (file : File) :
  FilePosition cg <= 0 ->
  is_vlsd cg = true ->
  let cg1 := (write_children (init_block cg) file).1 in
  let cg' := (Write cg file).1.2 in
  Forall (fun c => Type_cn c = VariableLength -> data_link_cn c = FilePosition cg')
         (Channels cg') /\
  Forall2 (fun c c' =>
             Type_cn c' = Type_cn c /\ Name_cn c' = Name_cn c /\
             Index_cn c' = Index_cn c /\
             (Type_cn c <> VariableLength -> Type_cn c <> MaxLength ->
              data_link_cn c' = data_link_cn c))
          (Channels cg1) (Channels cg').
Proof.
  intros Hfirst Hv cg1 cg'.
  assert (Hnew : (0 <? FilePosition cg) = false) by (apply Z.ltb_ge; lia).
  destruct (Write_first cg file Hnew) as (Hpos & Hch & _).
  cbv zeta in Hpos, Hch. rewrite <- Hpos in Hch. clear Hpos.
  fold cg' in Hch. fold cg1 in Hch. rewrite Hv in Hch.
  rewrite Hch. clear Hch.
  set (position := FilePosition cg').
  split.
  - apply Forall_fmap, Forall_forall. intros c _. simpl.
    unfold Type_cn, data_link_cn. rewrite fields_of_map_cn.
    destruct (patch_data_link_type VariableLength position (fields_of c))
      as (Ht & _ & _ & Hl).
    destruct (GetChannel cg1 ".DataLength") as [d|].
    + destruct (patch_data_link_type MaxLength (Index_cn d)
                  (patch_data_link VariableLength position (fields_of c)))
        as (Ht2 & _ & _ & Hl2).
      rewrite Ht2, Hl2, Ht, Hl. intros Hty. rewrite Hty.
      rewrite bool_decide_eq_false_2 by discriminate.
      by rewrite bool_decide_eq_true_2.
    + rewrite Ht, Hl. intros Hty. by rewrite bool_decide_eq_true_2.
  - apply Forall2_fmap_r, Forall_Forall2_diag, Forall_forall. intros c _. simpl.
    unfold Type_cn, Name_cn, Index_cn, data_link_cn. rewrite fields_of_map_cn.
    destruct (patch_data_link_type VariableLength position (fields_of c))
      as (Ht & Hn & Hi & Hl).
    destruct (GetChannel cg1 ".DataLength") as [d|].
    + destruct (patch_data_link_type MaxLength (Index_cn d)
                  (patch_data_link VariableLength position (fields_of c)))
        as (Ht2 & Hn2 & Hi2 & Hl2).
      unfold Index_cn in *.
      rewrite Ht2, Hn2, Hi2, Hl2, Ht, Hn, Hi, Hl. repeat split.
      intros Hnv Hnm. by rewrite !bool_decide_eq_false_2.
    + rewrite Ht, Hn, Hi, Hl. repeat split.
      intros Hnv _. by rewrite bool_decide_eq_false_2.
Qed.

(** C8 (as amended): on every first write of a group, with or without
    the VariableLength flag, when the group's flattened channel list
    holds a channel named ".DataLength" (the first one counts), every
    channel of that list whose kind is MaxLength has its link set to that
    channel's identity; when it holds none, the MaxLength channels keep
    the link they had. *)
Theorem Write_patches_max_length_links (cg : Cg4Block) (file : File) :
  FilePosition cg <= 0 ->
  let cg1 := (write_children (init_block cg) file).1 in
  let cg' := (Write cg file).1.2 in
  (forall d, GetChannel cg1 ".DataLength" = Some d ->
     Forall (fun c => Type_cn c = MaxLength -> data_link_cn c = Index_cn d)
            (Channels cg')) /\
  (GetChannel cg1 ".DataLength" = None ->
     Forall2 (fun c c' => Type_cn c = MaxLength -> data_link_cn c' = data_link_cn c)
             (Channels cg1) (Channels cg')).
Proof.
  intros Hfirst cg1 cg'.
  assert (Hnew : (0 <? FilePosition cg) = false) by (apply Z.ltb_ge; lia).
  destruct (Write_first cg file Hnew) as (Hpos & Hch & _).
  fold cg' in Hpos, Hch. fold cg1 in Hch.
  rewrite Hch. clear Hch.
  set (position := (MdfBlock_Write _ _).1.2).
  split.
  - intros d Hd. rewrite Hd.
    apply Forall_fmap, Forall_forall. intros c _. simpl.
    unfold Type_cn, data_link_cn. rewrite fields_of_map_cn.
    set (f1 := if is_vlsd cg then _ else _).
    destruct (patch_data_link_type MaxLength (Index_cn d) f1) as (Ht & _ & _ & Hl).
    rewrite Ht, Hl. intros Hty. by rewrite bool_decide_eq_true_2.
  - intros Hnone. rewrite Hnone.
    apply Forall2_fmap_r, Forall_Forall2_diag, Forall_forall. intros c _. simpl.
    unfold Type_cn, data_link_cn. rewrite fields_of_map_cn.
    destruct (is_vlsd cg); [|reflexivity].
    destruct (patch_data_link_type VariableLength position (fields_of c))
      as (_ & _ & _ & Hl).
    rewrite Hl. intros Hty. rewrite Hty.
    by rewrite bool_decide_eq_false_2.
Qed.

End FirstWrite.

(** ** Updating the counters in place *)

Lemma le_value_le_bytes (n : nat) (v : Z) :
  le_value (le_bytes n v) = v mod 256 ^ Z.of_nat n.
Proof.
  revert v. induction n as [|n IH]; intros v.
  - simpl. by rewrite Z.mod_1_r.
  - cbn [le_bytes le_value]. rewrite IH, Nat2Z.inj_succ, Z.pow_succ_r by lia.
    rewrite Z.rem_mul_r by lia. reflexivity.
Qed.

Lemma byte_at_fwrite_outside (bs : list Z) (file : File) (p : Z) :
  0 <= file_pos file ->
  ~ (file_pos file <= p < file_pos file + Z.of_nat (length bs)) ->
  byte_at (fwrite bs file) p = byte_at file p.
Proof.
  intros Hpos Hout. unfold byte_at, fwrite. cbn [file_bytes].
  destruct (Z.ltb_spec p 0) as [|Hp]; [reflexivity|].
  set (l := file_bytes file). set (P := Z.to_nat (file_pos file)).
  set (i := Z.to_nat p).
  destruct (decide (i < P)%nat) as [Hlt|Hge].
  - rewrite lookup_app_l by (rewrite length_resize; lia).
    destruct (decide (i < length l)%nat) as [Hin|Hpast].
    + by rewrite lookup_resize.
    + rewrite lookup_resize_new by lia.
      by rewrite (lookup_ge_None_2 l i) by lia.
  - assert (P + length bs <= i)%nat by lia.
    rewrite lookup_app_r by (rewrite length_resize; lia).
    rewrite length_resize.
    rewrite lookup_app_r by lia.
    rewrite lookup_drop. f_equal. f_equal. lia.
Qed.

Lemma byte_at_fwrite_inside (bs : list Z) (file : File) (i : nat) :
  0 <= file_pos file ->
  (i < length bs)%nat ->
  byte_at (fwrite bs file) (file_pos file + Z.of_nat i) = default 0 (bs !! i).
Proof.
  intros Hpos Hi. unfold byte_at, fwrite. cbn [file_bytes].
  destruct (Z.ltb_spec (file_pos file + Z.of_nat i) 0) as [|Hp]; [lia|].
  rewrite lookup_app_r by (rewrite length_resize; lia).
  rewrite length_resize, lookup_app_l by lia.
  do 2 f_equal. lia.
Qed.



Lemma read_field_outside (file file' : File) (position : Z) (width : nat) :
  (forall p, position <= p < position + Z.of_nat width -> byte_at file' p = byte_at file p) ->
  read_field file' position width = read_field file position width.
Proof.
  intros Hsame. unfold read_field. f_equal.
  apply map_ext_in. intros i Hi. apply in_seq in Hi. apply Hsame. lia.
Qed.



Section Update.
Context `{io : MdfBlockIo}.

Lemma update_structure_frame (cg : Cg4Block) (file : File) :
  let cg' := (update_structure cg file).1 in
  file_position_ (base cg') = file_position_ (base cg) /\
  flags_ cg' = flags_ cg /\
  nof_samples_ cg' = nof_samples_ cg /\
  nof_data_bytes_ cg' = nof_data_bytes_ cg /\
  nof_invalid_bytes_ cg' = nof_invalid_bytes_ cg /\
  nof_samples_position_ cg' = nof_samples_position_ cg /\
  nof_data_position_ cg' = nof_data_position_ cg /\
  nof_invalid_position_ cg' = nof_invalid_position_ cg.
Proof.
  unfold update_structure.
  pose proof (write_children_frame cg file) as Hframe.
  destruct (write_children cg file) as [cg1 file1].
  destruct (MdfBlock_Update file1 (base cg1)) as [bytes file2].
  cbn [fst snd] in *. tauto.
Qed.

(** The update mode: the structure calls, then the three patches. *)
Lemma Write_update (cg : Cg4Block) (file : File) :
  0 < FilePosition cg ->
  let st := update_structure cg file in
  Write cg file = (block_length_ (base st.1), st.1, update_counters st.1 st.2).
Proof.
  intros Hupdate. unfold Write.
  destruct (Z.ltb_spec 0 (FilePosition cg)) as [_|]; [|lia].
  by destruct (update_structure cg file) as [cg1 file1].
Qed.




End Update.

Section UpdateFrame.
Context `{io : MdfBlockIo}.


End UpdateFrame.


Example Write_update_values :
  let cg1 := (Write fresh_vlsd_group id_block_file).1.2 in
  let file1 := (Write fresh_vlsd_group id_block_file).2 in
  let last := write_updates [(5, 40, 0); (9, 2, 1)] cg1 file1 in
  FilePosition cg1 = 64 /\
  (nof_samples_position_ cg1, nof_data_position_ cg1, nof_invalid_position_ cg1)
    = (144, 160, 164) /\
  read_field file1 144 8 = 0 /\
  read_field last.2 144 8 = 9 /\
  read_field last.2 160 4 = 2 /\
  read_field last.2 164 4 = 1 /\
  take 144 (file_bytes last.2) = take 144 (file_bytes file1).
Proof. vm_compute. repeat split. Qed.

(** ** Back-patching: concrete runs *)

Lemma Write_patches_vlsd_links_witness :
  FilePosition own_vlsd_group <= 0 /\
  is_vlsd own_vlsd_group = true /\
  Forall (fun c => Type_cn c = VariableLength ->
                   data_link_cn c = FilePosition (Write own_vlsd_group id_block_file).1.2)
         (Channels (Write own_vlsd_group id_block_file).1.2).
Proof.
  assert (H1 : FilePosition own_vlsd_group <= 0) by (vm_compute; discriminate).
  assert (H2 : is_vlsd own_vlsd_group = true) by reflexivity.
  split; [exact H1|]. split; [exact H2|].
  exact (proj1 (Write_patches_vlsd_links own_vlsd_group id_block_file H1 H2)).
Defined.

Example Write_own_vlsd_links :
  FilePosition (Write own_vlsd_group id_block_file).1.2 = 64 /\
  map data_link_cn (Channels (Write own_vlsd_group id_block_file).1.2) = [0; 64; 64].
Proof. vm_compute. split; reflexivity. Qed.

(** C3, counterexample: the whole session is written; the VLSD group has
    received its identity, 64, and the variable-length channel of the other
    group still has no payload link. *)
Lemma Write_vlsd_hierarchy_counterexample :
  let h' := (write_session vlsd_hierarchy id_block_file).1 in
  (FilePosition <$> h' !! 0%nat) = Some 64 /\
  (is_vlsd <$> h' !! 0%nat) = Some true /\
  ~ vlsd_links_patched_everywhere h' 64.
Proof.
  split; [reflexivity|]. split; [reflexivity|].
  intros Hall.
  apply (Forall_lookup_1 _ _ 0%nat payload_channel) in Hall; [|reflexivity].
  specialize (Hall eq_refl). vm_compute in Hall. discriminate.
Qed.

Lemma Write_patches_max_length_links_witness :
  FilePosition mlsd_group <= 0 /\
  GetChannel (write_children (init_block mlsd_group) id_block_file).1 ".DataLength"
    = Some data_length_channel /\
  Forall (fun c => Type_cn c = MaxLength -> data_link_cn c = 5000)
         (Channels (Write mlsd_group id_block_file).1.2).
Proof.
  assert (H1 : FilePosition mlsd_group <= 0) by (vm_compute; discriminate).
  split; [exact H1|]. split; [reflexivity|].
  exact (proj1 (Write_patches_max_length_links mlsd_group id_block_file H1)
               data_length_channel eq_refl).
Defined.

(** Scenario C of the specification, inside one group. *)
Example Write_data_length_link :
  map (fun c => (Name_cn c, data_link_cn c))
      (Channels (Write mlsd_group id_block_file).1.2)
  = [(".DataLength", 0); ("bytes", 5000)].
Proof. vm_compute. reflexivity. Qed.

(** C8, counterexample: the channel named ".DataLength" is in one group
    and the max-length channel in another; after the whole session the
    max-length channel still has no link. *)
Lemma Write_mlsd_hierarchy_counterexample :
  ~ mlsd_links_patched_everywhere (write_session mlsd_hierarchy id_block_file).1.
Proof.
  intros Hall.
  specialize (Hall data_length_channel eq_refl).
  apply (Forall_lookup_1 _ _ 1%nat bytes_channel) in Hall; [|reflexivity].
  specialize (Hall eq_refl). vm_compute in Hall. discriminate.
Qed.

(** * Further properties of the channel group *)

(** ** The flag text *)

Lemma land_7_split (flag : Z) :
  Z.land flag 7 = 0 <->
  Z.land flag 1 = 0 /\ Z.land flag 2 = 0 /\ Z.land flag 4 = 0.
Proof.
  change 7 with (Z.lor 1 (Z.lor 2 4)).
  rewrite !Z.land_lor_distr_r, !Z.lor_eq_0_iff. tauto.
Qed.

(** X1: the flag text is the names of the set bits among VLSD (0x0001),
    Bus Event (0x0002) and Plain (0x0004), in that order, joined by commas;
    it is empty exactly when none of the three low bits is set, whatever the
    other bits are. *)
Theorem MakeFlagString_names (flag : Z) :
  MakeFlagString flag =
    String.concat ","
      ((if has_flag flag 0x0001 then ["VLSD"] else []) ++
       (if has_flag flag 0x0002 then ["Bus Event"] else []) ++
       (if has_flag flag 0x0004 then ["Plain"] else [])) /\
  (MakeFlagString flag = "" <-> Z.land flag 7 = 0).
Proof.
  unfold MakeFlagString. rewrite land_7_split. unfold has_flag.
  destruct (Z.eqb_spec (Z.land flag 1) 0) as [H1|H1];
    destruct (Z.eqb_spec (Z.land flag 2) 0) as [H2|H2];
    destruct (Z.eqb_spec (Z.land flag 4) 0) as [H4|H4];
    (split; [reflexivity|]); cbn; split; try tauto; try discriminate.
Qed.

(** ** The channel list *)

Lemma flatten_cn_list_app (l1 l2 : list (option Cn4Block)) :
  flatten_cn_list (l1 ++ l2) = flatten_cn_list l1 ++ flatten_cn_list l2.
Proof.
  induction l1 as [|[c|] l1 IH]; simpl; [reflexivity | | exact IH].
  by rewrite IH, app_assoc.
Qed.

(** X2: a new channel is never a null pointer: [CreateChannel] returns the
    channel it has just appended, the channels the group had stay where
    they were, and the flattened list grows at its end by the new channel
    followed by the channels nested in it. *)
Theorem CreateChannel_appends (fresh : Cn4Block) (cg : Cg4Block) :
  let r := CreateChannel fresh cg in
  r.2 = Some fresh /\
  cn_list_ r.1 = cn_list_ cg ++ [Some fresh] /\
  own_channels r.1 = own_channels cg ++ [fresh] /\
  Channels r.1 = Channels cg ++ fresh :: AddCxChannels fresh.
Proof.
  unfold CreateChannel, AddCn4, own_channels, Channels. cbn.
  rewrite last_snoc, omap_app, flatten_cn_list_app. cbn.
  by rewrite app_nil_r.
Qed.

(** X3: adding a null pointer changes the channel list but none of the
    views of it: the flattened list, the group's own channels and the axis
    lookup are as before. *)
Theorem AddCn4_null (cg : Cg4Block) (reference : IChannel) :
  cn_list_ (AddCn4 None cg) = cn_list_ cg ++ [None] /\
  Channels (AddCn4 None cg) = Channels cg /\
  own_channels (AddCn4 None cg) = own_channels cg /\
  GetXChannel (AddCn4 None cg) reference = GetXChannel cg reference.
Proof.
  unfold AddCn4, own_channels, Channels. cbn.
  rewrite omap_app, flatten_cn_list_app. cbn. rewrite !app_nil_r.
  repeat split.
  destruct reference as [cn4|f]; [|reflexivity].
  unfold GetXChannel. cbn.
  rewrite !find_if_own, omap_app. cbn. by rewrite app_nil_r.
Qed.

(** X4: the flattened list keeps the group's own channels in their order
    (they are a sublist of it), and a channel is in the flattened list
    exactly when it is one of the group's own channels or is nested in
    one. *)
Theorem Channels_own_sublist (cg : Cg4Block) :
  own_channels cg `sublist_of` Channels cg /\
  forall c : Cn4Block,
    c ∈ Channels cg <->
    exists t : Cn4Block, t ∈ own_channels cg /\ (c = t \/ c ∈ AddCxChannels t).
Proof.
  unfold own_channels, Channels.
  induction (cn_list_ cg) as [|[t|] l [IHs IHm]]; cbn.
  - split; [constructor|]. intros c. split.
    + intros Hc. inversion Hc.
    + intros (t & Ht & _). inversion Ht.
  - split.
    + apply sublist_skip. by apply sublist_inserts_l.
    + intros c. rewrite elem_of_cons, elem_of_app, IHm. split.
      * intros [->|[Hn|(u & Hu & Hc)]].
        -- exists t. split; [left|left]; reflexivity.
        -- exists t. split; [left | right]; done.
        -- exists u. split; [by right | exact Hc].
      * intros (u & Hu & Hc). apply elem_of_cons in Hu as [->|Hu].
        -- destruct Hc as [->|Hc]; [by left | right; by left].
        -- right. right. exists u. done.
  - split; [exact IHs | exact IHm].
Qed.

(** ** Laying out again *)

(** X5: after [PrepareForWriting] the sample buffer has exactly the size of
    one record, [nof_data_bytes_ + nof_invalid_bytes_] (the size
    [ReadDataRecord] and [StepRecord] use), and keeps what it held in front;
    on a VLSD group both counts are 0, the buffer is empty and the channels
    are left as they were. *)
Theorem PrepareForWriting_buffer (cg : Cg4Block) :
  let cg' := PrepareForWriting cg in
  let total := u32 (nof_data_bytes_ cg' + nof_invalid_bytes_ cg') in
  sample_buffer_ cg' = resize (Z.to_nat total) 0 (sample_buffer_ cg) /\
  Z.of_nat (length (sample_buffer_ cg')) = total /\
  flags_ cg' = flags_ cg /\
  (is_vlsd cg = true ->
   nof_data_bytes_ cg' = 0 /\ nof_invalid_bytes_ cg' = 0 /\
   sample_buffer_ cg' = [] /\ cn_list_ cg' = cn_list_ cg).
Proof.
  unfold PrepareForWriting. fold (is_vlsd cg).
  destruct (is_vlsd cg) eqn:Hv.
  - cbn [nof_invalid_bytes_ nof_data_bytes_ set_nof_invalid_bytes flags_ cn_list_
         set_nof_data_bytes set_sample_buffer sample_buffer_].
    change (u32 (0 + 0)) with 0. repeat split. by destruct (sample_buffer_ cg).
  - destruct (layout_loop (cn_list_ cg) (mkLayoutState 0 0 0)) as [channels st].
    cbn [fst snd nof_invalid_bytes_ nof_data_bytes_ set_nof_invalid_bytes
         set_nof_data_bytes set_cn_list].
    set (inv := if ls_invalid_bit_offset st =? 0 then 0 else _).
    set (total := u32 (inv + ls_nof_data_bytes st)).
    assert (Hrange : 0 <= total) by (apply Z.mod_pos_bound; lia).
    destruct (Z.ltb_spec 0 total) as [Hpos|Hzero]; cbn;
      rewrite (Z.add_comm (ls_nof_data_bytes st) inv); fold total.
    + rewrite length_resize. repeat split; try lia; try discriminate.
    + replace total with 0 by lia.
      repeat split; try discriminate. by destruct (sample_buffer_ cg).
Qed.

Lemma layout_channel_again (channel channel' : Cn4Block) (st st' : LayoutState) :
  layout_channel channel st = (channel', st') ->
  layout_channel channel' st = (channel', st').
Proof.
  unfold layout_channel. destruct channel as [f cx].
  change (invalid_capable (PrepareForWriting_cn (ls_byte_offset st) (Cn4 f cx)))
    with (invalid_capable (Cn4 f cx)).
  destruct (invalid_capable (Cn4 f cx)) eqn:Hcap; intros [= <- <-].
  - change (invalid_capable (PrepareForWriting_cn _ _)) with (invalid_capable (Cn4 f cx)).
    rewrite Hcap. destruct f. reflexivity.
  - change (invalid_capable (PrepareForWriting_cn _ _)) with (invalid_capable (Cn4 f cx)).
    rewrite Hcap. destruct f. reflexivity.
Qed.

Lemma layout_loop_again (l : list (option Cn4Block)) :
  forall (st : LayoutState) (l' : list (option Cn4Block)) (st' : LayoutState),
    layout_loop l st = (l', st') -> layout_loop l' st = (l', st').
Proof.
  induction l as [|[channel|] l IH]; intros st l' st' Hrun; simpl in Hrun.
  - by injection Hrun as <- <-.
  - destruct (layout_channel channel st) as [channel' st1] eqn:Hone.
    destruct (layout_loop l st1) as [rest' st2] eqn:Hrest.
    injection Hrun as <- <-. simpl.
    by rewrite (layout_channel_again _ _ _ _ Hone), (IH _ _ _ Hrest).
  - destruct (layout_loop l st) as [rest' st2] eqn:Hrest.
    injection Hrun as <- <-. simpl. by rewrite (IH _ _ _ Hrest).
Qed.

Lemma PrepareForWriting_vlsd (cg : Cg4Block) :
  is_vlsd cg = true ->
  PrepareForWriting cg
  = set_sample_buffer [] (set_nof_invalid_bytes 0 (set_nof_data_bytes 0 cg)).
Proof. intros Hv. unfold PrepareForWriting. fold (is_vlsd cg). by rewrite Hv. Qed.

Lemma PrepareForWriting_fixed (cg : Cg4Block) (channels : list (option Cn4Block))
    (st : LayoutState) :
  is_vlsd cg = false ->
  layout_loop (cn_list_ cg) (mkLayoutState 0 0 0) = (channels, st) ->
  let bits := ls_invalid_bit_offset st in
  let inv := if bits =? 0 then 0
             else if 0 <? bits mod 8 then u32 (bits / 8 + 1) else u32 (bits / 8) in
  let laid := set_nof_invalid_bytes inv
                (set_nof_data_bytes (ls_nof_data_bytes st) (set_cn_list channels cg)) in
  let total := u32 (inv + ls_nof_data_bytes st) in
  PrepareForWriting cg
  = if 0 <? total
    then set_sample_buffer (resize (Z.to_nat total) 0 (sample_buffer_ cg)) laid
    else set_sample_buffer [] laid.
Proof.
  intros Hv Hrun. unfold PrepareForWriting. fold (is_vlsd cg).
  rewrite Hv, Hrun. reflexivity.
Qed.

(** X6: laying a group out a second time changes nothing: the offsets, the
    invalid-bit positions, the two byte counts and the sample buffer are
    those of the first run. *)
Theorem PrepareForWriting_idempotent (cg : Cg4Block) :
  PrepareForWriting (PrepareForWriting cg) = PrepareForWriting cg.
Proof.
  destruct (is_vlsd cg) eqn:Hv.
  - rewrite (PrepareForWriting_vlsd cg Hv).
    rewrite PrepareForWriting_vlsd by exact Hv. by destruct cg.
  - destruct (layout_loop (cn_list_ cg) (mkLayoutState 0 0 0)) as [channels st] eqn:Hrun.
    pose proof (layout_loop_again _ _ _ _ Hrun) as Hagain.
    rewrite (PrepareForWriting_fixed cg channels st Hv Hrun). cbv zeta.
    set (inv := if ls_invalid_bit_offset st =? 0 then 0 else _).
    set (total := u32 (inv + ls_nof_data_bytes st)).
    destruct (0 <? total) eqn:Hpos.
    + rewrite (PrepareForWriting_fixed _ channels st); [| exact Hv | exact Hagain].
      cbv zeta. fold inv. fold total. rewrite Hpos. destruct cg. cbn.
      by rewrite resize_idemp.
    + rewrite (PrepareForWriting_fixed _ channels st); [| exact Hv | exact Hagain].
      cbv zeta. fold inv. fold total. rewrite Hpos. by destruct cg.
Qed.

Lemma layout_loop_app (l1 l2 : list (option Cn4Block)) :
  forall st : LayoutState,
    layout_loop (l1 ++ l2) st
    = let '(l1', st1) := layout_loop l1 st in
      let '(l2', st2) := layout_loop l2 st1 in
      (l1' ++ l2', st2).
Proof.
  induction l1 as [|[c|] l1 IH]; intros st; simpl.
  - by destruct (layout_loop l2 st).
  - destruct (layout_channel c st) as [c' st1]. rewrite IH.
    destruct (layout_loop l1 st1) as [l1' st2].
    by destruct (layout_loop l2 st2).
  - rewrite IH. destruct (layout_loop l1 st) as [l1' st1].
    by destruct (layout_loop l2 st1).
Qed.

(** X7: a channel added at the end does not move the others.  On a group
    that is not VLSD (widths summing to less than 2^32, fewer than 2^32
    channels), laying out after [AddCn4] gives every earlier entry the
    offset and the invalid-bit position it had without the new channel; the
    new channel starts at the old [nof_data_bytes_], takes the next free
    invalid bit when it is invalid-capable, and [nof_data_bytes_] grows by
    its width. *)
Theorem PrepareForWriting_after_AddCn4 (c : Cn4Block) (cg : Cg4Block) :
  is_vlsd cg = false ->
  Forall (fun x => 0 <= DataBytes_cn x) (own_channels cg) ->
  sum_widths (own_channels cg) < 2 ^ 32 ->
  Z.of_nat (length (cn_list_ cg)) < 2 ^ 32 ->
  let old := PrepareForWriting cg in
  let new := PrepareForWriting (AddCn4 (Some c) cg) in
  let k := Z.of_nat (length (List.filter invalid_capable (own_channels cg))) in
  exists c' : Cn4Block,
    cn_list_ new = cn_list_ old ++ [Some c'] /\
    byte_offset_cn c' = nof_data_bytes_ old /\
    DataBytes_cn c' = DataBytes_cn c /\
    invalid_offset_cn c' = (if invalid_capable c then k else invalid_offset_cn c) /\
    nof_data_bytes_ new = u32 (nof_data_bytes_ old + DataBytes_cn c).
Proof.
  intros Hv Hwidths Hsum Hlen old new k.
  assert (Hv' : is_vlsd (AddCn4 (Some c) cg) = false) by exact Hv.
  destruct (PrepareForWriting_layout cg Hv) as (Hlist & Hdata & _).
  destruct (PrepareForWriting_layout _ Hv') as (Hlist' & Hdata' & _).
  change (cn_list_ (AddCn4 (Some c) cg)) with (cn_list_ cg ++ [Some c]) in Hlist', Hdata'.
  rewrite layout_loop_app in Hlist', Hdata'.
  destruct (layout_loop (cn_list_ cg) (mkLayoutState 0 0 0)) as [channels st] eqn:Hrun.
  pose proof (sum_widths_nonneg _ Hwidths) as Hnonneg.
  destruct (layout_loop_offsets _ _ _ _ Hrun) as (_ & _ & Hoff & Hnd);
    cbn [ls_byte_offset ls_nof_data_bytes]; try (unfold u32_range; lia);
    try exact Hwidths.
  { fold (own_channels cg). lia. }
  destruct (layout_loop_invalid_bits _ _ _ _ Hrun) as (_ & _ & Hbits & _);
    cbn [ls_invalid_bit_offset]; try lia.
  cbn [ls_byte_offset ls_nof_data_bytes ls_invalid_bit_offset] in Hoff, Hnd, Hbits.
  fold (own_channels cg) in Hoff, Hnd, Hbits. fold k in Hbits.
  rewrite Z.add_0_l in Hoff, Hnd, Hbits.
  simpl in Hlist', Hdata'.
  destruct (layout_channel c st) as [c' st1] eqn:Hone.
  cbn [fst snd] in *.
  destruct (layout_channel_fields _ _ _ _ Hone)
    as (Hw & _ & Hbo & Hio & Hnd1 & _).
  exists c'. unfold new, old. rewrite Hlist', Hlist, Hdata', Hdata, Hnd1.
  repeat split; try done.
  - rewrite Hbo, Hoff, Hnd. unfold u32. rewrite Z.mod_small; lia.
  - by rewrite Hio, Hbits.
Qed.

Lemma PrepareForWriting_after_AddCn4_witness :
  exists c' : Cn4Block,
    cn_list_ (PrepareForWriting (AddCn4 (Some member_channel) scenario_A))
      = cn_list_ (PrepareForWriting scenario_A) ++ [Some c'] /\
    byte_offset_cn c' = 7.
Proof.
  destruct (PrepareForWriting_after_AddCn4 member_channel scenario_A)
    as (c' & Hlist & Hoff & _).
  - reflexivity.
  - repeat constructor; vm_compute; discriminate.
  - reflexivity.
  - reflexivity.
  - exists c'. split; [exact Hlist | exact Hoff].
Defined.

(** ** Counting records *)

Section Counting.
Context `{io : MdfBlockIo}.

(** X8: [UpdateVlsdSize] and [UpdateCycleCounter] step over a record in the
    same way: they raise together (only on a VLSD group whose length prefix
    cannot be read), return the same count, leave the file in the same state
    and add one to the sample count.  On a group that is not VLSD the two
    give the same group; on a VLSD group they differ in the two byte counts
    only, which [UpdateCycleCounter] leaves untouched. *)
Theorem UpdateVlsdSize_steps_like_UpdateCycleCounter (cg : Cg4Block) (file : File) :
  match UpdateCycleCounter cg file, UpdateVlsdSize cg file with
  | Some (count1, cg1, file1), Some (count2, cg2, file2) =>
      count1 = count2 /\ file1 = file2 /\
      cg1 = set_nof_samples (u64 (nof_samples_ cg + 1)) cg /\
      cg2 = set_nof_invalid_bytes (nof_invalid_bytes_ cg2)
              (set_nof_data_bytes (nof_data_bytes_ cg2) cg1) /\
      (is_vlsd cg = false -> cg2 = cg1)
  | None, None => is_vlsd cg = true /\ ReadNumber_u32 file = None
  | _, _ => False
  end.
Proof.
  unfold UpdateCycleCounter, UpdateVlsdSize. fold (is_vlsd cg).
  destruct (is_vlsd cg) eqn:Hv.
  - destruct (ReadNumber_u32 file) as [[[n len] file1]|]; [|by split].
    destruct (if 0 <? len
              then let '(m, f) := StepFilePosition file1 len in (u64 (u64 (0 + n) + m), f)
              else (u64 (0 + n), file1)) as [count file2].
    repeat split; try (intros; discriminate); by destruct cg.
  - destruct (StepFilePosition file _) as [m file1].
    repeat split; by destruct cg.
Qed.

Lemma UpdateCycleCounter_group (cg cg' : Cg4Block) (file file' : File) (count : Z) :
  UpdateCycleCounter cg file = Some (count, cg', file') ->
  cg' = set_nof_samples (u64 (nof_samples_ cg + 1)) cg.
Proof.
  unfold UpdateCycleCounter.
  destruct (has_flag (Flags cg) CgFlag_VlsdChannel).
  - destruct (ReadNumber_u32 file) as [[[n len] file1]|]; [|discriminate].
    destruct (if 0 <? len then _ else _) as [c f]. by intros [= _ <- _].
  - destruct (StepFilePosition file _) as [m file1]. by intros [= _ <- _].
Qed.

Lemma UpdateCycleCounter_fixed_total (cg : Cg4Block) (file : File) :
  is_vlsd cg = false -> is_Some (UpdateCycleCounter cg file).
Proof.
  intros Hv. unfold UpdateCycleCounter. fold (is_vlsd cg). rewrite Hv.
  destruct (StepFilePosition file _) as [m file1]. eauto.
Qed.

Lemma UpdateCycleCounter_raises (cg : Cg4Block) (file : File) :
  UpdateCycleCounter cg file = None ->
  is_vlsd cg = true /\ ReadNumber_u32 file = None.
Proof.
  unfold UpdateCycleCounter. fold (is_vlsd cg).
  destruct (is_vlsd cg).
  - destruct (ReadNumber_u32 file) as [[[n len] file1]|]; [|done].
    by destruct (if 0 <? len then _ else _) as [c f].
  - by destruct (StepFilePosition file _) as [m file1].
Qed.

(** X9: counting by replay.  Calls of [UpdateCycleCounter] in a row, at
    most [n] and stopping at the first that raises, change nothing in the
    group but the sample count, which grows by exactly the number of calls
    that returned, one for each record stepped over (in 64-bit
    arithmetic).  On a group that is not VLSD all [n] calls return; the
    run stops early only on a VLSD group, in front of a length prefix that
    cannot be read. *)
Theorem count_records_counts (n : nat) (cg : Cg4Block) (file : File) :
  u64_range (nof_samples_ cg) ->
  let r := count_records n cg file in
  let k := r.1.1 in
  r.1.2 = set_nof_samples (u64 (nof_samples_ cg + Z.of_nat k)) cg /\
  (k <= n)%nat /\
  (is_vlsd cg = false -> k = n) /\
  ((k < n)%nat -> is_vlsd cg = true /\ ReadNumber_u32 r.2 = None).
Proof.
  revert cg file. induction n as [|n IH]; intros cg file Hrange.
  - cbn. split; [|split; [lia|split; [done|lia]]].
    unfold u64, u64_range in *. rewrite Z.add_0_r, Z.mod_small by lia.
    by destruct cg.
  - cbn [count_records].
    destruct (UpdateCycleCounter cg file) as [[[count cg1] file1]|] eqn:Hstep.
    + pose proof (UpdateCycleCounter_group _ _ _ _ _ Hstep) as ->.
      destruct (IH (set_nof_samples (u64 (nof_samples_ cg + 1)) cg) file1)
        as (Hrun & Hk & Hall & Hstop).
      { apply Z.mod_pos_bound. lia. }
      destruct (count_records n (set_nof_samples (u64 (nof_samples_ cg + 1)) cg) file1)
        as [[k cg2] file2].
      cbn [fst snd] in *.
      split; [|split; [lia|split]].
      * rewrite Hrun. cbn [nof_samples_ set_nof_samples]. unfold u64.
        rewrite Zplus_mod_idemp_l.
        replace (nof_samples_ cg + 1 + Z.of_nat k)
          with (nof_samples_ cg + Z.of_nat (S k)) by lia.
        by destruct cg.
      * intros Hv. f_equal. by apply Hall.
      * intros Hlt. apply Hstop. lia.
    + cbn [fst snd]. split; [|split; [lia|split]].
      * unfold u64, u64_range in *. cbn. rewrite Z.add_0_r, Z.mod_small by lia.
        by destruct cg.
      * intros Hv. destruct (UpdateCycleCounter_fixed_total cg file Hv) as [r Hr].
        congruence.
      * intros _. by apply UpdateCycleCounter_raises.
Qed.

End Counting.

Lemma count_records_counts_witness :
  count_records 6 vlsd_replay_group vlsd_frames
  = (4%nat, set_nof_samples 7 vlsd_replay_group, mkFile (file_bytes vlsd_frames) 35) /\
  nof_samples_ (count_records 6 vlsd_replay_group vlsd_frames).1.2 = 7 /\
  ReadNumber_u32 (count_records 6 vlsd_replay_group vlsd_frames).2 = None.
Proof.
  split; [vm_compute; reflexivity|].
  destruct (count_records_counts 6 vlsd_replay_group vlsd_frames)
    as (Hrun & _ & _ & Hstop).
  - vm_compute. split; [discriminate | reflexivity].
  - split.
    + rewrite Hrun. reflexivity.
    + apply Hstop. vm_compute. lia.
Defined.

(** ** Replaying whole records *)

Lemma fread_full (n : Z) (file : File) :
  0 <= file_pos file -> 0 <= n ->
  file_pos file + n <= Z.of_nat (length (file_bytes file)) ->
  fread n file
  = (take (Z.to_nat n) (drop (Z.to_nat (file_pos file)) (file_bytes file)),
     mkFile (file_bytes file) (file_pos file + n)) /\
  length (take (Z.to_nat n) (drop (Z.to_nat (file_pos file)) (file_bytes file)))
  = Z.to_nat n.
Proof.
  intros Hpos Hn Hlen.
  assert (Hgot : length (take (Z.to_nat n)
                           (drop (Z.to_nat (file_pos file)) (file_bytes file)))
                 = Z.to_nat n) by (rewrite length_take, length_drop; lia).
  split; [|exact Hgot]. unfold fread. rewrite Hgot. do 2 f_equal. lia.
Qed.

Lemma read_into_full (n : Z) (got : list Z) :
  length got = Z.to_nat n -> read_into n got = got.
Proof.
  intros Hlen. unfold read_into. rewrite Hlen, Nat.sub_diag. apply app_nil_r.
Qed.

Section WholeRecords.
Context `{io : MdfBlockIo}.

Lemma ReadDataRecord_fixed_step (cg : Cg4Block) (file : File) :
  is_vlsd cg = false ->
  let size := u32 (nof_data_bytes_ cg + nof_invalid_bytes_ cg) in
  0 <= file_pos file ->
  file_pos file + size <= Z.of_nat (length (file_bytes file)) ->
  ReadDataRecord cg file
  = let '(cg', notes) :=
      notify_sample cg
        (take (Z.to_nat size) (drop (Z.to_nat (file_pos file)) (file_bytes file))) in
    Some (size, cg', mkFile (file_bytes file) (file_pos file + size), notes).
Proof.
  intros Hv size Hpos Hlen.
  assert (Hsize : 0 <= size) by (apply Z.mod_pos_bound; lia).
  destruct (fread_full size file Hpos Hsize Hlen) as [Hread Hgot].
  unfold ReadDataRecord. rewrite is_vlsd_flags, Hv. fold size.
  rewrite Hread, (read_into_full _ _ Hgot), Hgot, Z2Nat.id by lia.
  reflexivity.
Qed.

(** X10: on a group that is not VLSD, when the stream holds a whole record
    at its position, the call consumes exactly the record size and, with
    the cursor below the sample count, delivers those very bytes, unpadded,
    under the cursor's index and the group's record id; with the cursor at
    or past the count it consumes them and delivers nothing. *)
Theorem ReadDataRecord_whole_record (cg : Cg4Block) (file : File) :
  is_vlsd cg = false ->
  let size := u32 (nof_data_bytes_ cg + nof_invalid_bytes_ cg) in
  let record :=
    take (Z.to_nat size) (drop (Z.to_nat (file_pos file)) (file_bytes file)) in
  let file' := mkFile (file_bytes file) (file_pos file + size) in
  0 <= file_pos file ->
  file_pos file + size <= Z.of_nat (length (file_bytes file)) ->
  Z.of_nat (length record) = size /\
  (Sample cg < NofSamples cg ->
   ReadDataRecord cg file
   = Some (size, IncrementSample cg, file',
           [mkSampleRecord (Sample cg) (RecordId cg) record])) /\
  (NofSamples cg <= Sample cg ->
   ReadDataRecord cg file = Some (size, cg, file', [])).
Proof.
  intros Hv size record file' Hpos Hlen.
  assert (Hsize : 0 <= size) by (apply Z.mod_pos_bound; lia).
  destruct (fread_full size file Hpos Hsize Hlen) as [_ Hgot].
  split; [unfold record; rewrite Hgot; lia|].
  rewrite (ReadDataRecord_fixed_step cg file Hv Hpos Hlen).
  fold size. fold record. unfold notify_sample.
  split; intros Hcur.
  - destruct (Z.ltb_spec (Sample cg) (NofSamples cg)); [reflexivity | lia].
  - destruct (Z.ltb_spec (Sample cg) (NofSamples cg)); [lia | reflexivity].
Qed.

(** X11: a replay session over whole records.  On a group that is not
    VLSD, [n] calls in a row over a stream that holds [n] whole records,
    with at least [n] samples left to deliver, hand the observer the [n]
    consecutive chunks of the stream, in order, numbered from the cursor,
    and leave the cursor and the stream [n] records further. *)
Theorem replay_whole_records (n : nat) (cg : Cg4Block) (file : File) :
  is_vlsd cg = false ->
  let size := u32 (nof_data_bytes_ cg + nof_invalid_bytes_ cg) in
  0 <= file_pos file ->
  file_pos file + Z.of_nat n * size <= Z.of_nat (length (file_bytes file)) ->
  0 <= Sample cg ->
  Sample cg + Z.of_nat n <= NofSamples cg ->
  NofSamples cg < 2 ^ 64 ->
  replay n cg file
  = (set_sample (Sample cg + Z.of_nat n) cg,
     mkFile (file_bytes file) (file_pos file + Z.of_nat n * size),
     map (fun i : nat =>
            mkSampleRecord (Sample cg + Z.of_nat i) (RecordId cg)
              (take (Z.to_nat size)
                 (drop (Z.to_nat (file_pos file + Z.of_nat i * size)) (file_bytes file))))
         (seq 0 n)).
Proof.
  intros Hv size. revert cg file Hv size.
  induction n as [|n IH]; intros cg file Hv size Hpos Hlen Hcur Hleft Hmax.
  - cbn [replay seq map]. change (Z.of_nat 0) with 0.
    rewrite Z.mul_0_l, !Z.add_0_r. unfold Sample. by destruct cg, file.
  - assert (Hsize : 0 <= size) by (apply Z.mod_pos_bound; lia).
    cbn [replay].
    rewrite (ReadDataRecord_fixed_step cg file Hv Hpos) by (fold size; nia).
    fold size. unfold notify_sample.
    destruct (Z.ltb_spec (Sample cg) (NofSamples cg)) as [_|]; [|lia].
    assert (Hinc : IncrementSample cg = set_sample (Sample cg + 1) cg).
    { unfold IncrementSample, Sample, NofSamples, u64 in *.
      rewrite Z.mod_small by lia. reflexivity. }
    rewrite Hinc.
    rewrite (IH (set_sample (Sample cg + 1) cg)
                (mkFile (file_bytes file) (file_pos file + size)));
      cbn [file_pos file_bytes]; try done; try (cbn; lia); try (fold size; nia);
      try (unfold Sample, NofSamples in *; cbn; lia).
    change (u32 (nof_data_bytes_ (set_sample (Sample cg + 1) cg)
                 + nof_invalid_bytes_ (set_sample (Sample cg + 1) cg))) with size.
    change (Sample (set_sample (Sample cg + 1) cg)) with (Sample cg + 1).
    change (RecordId (set_sample (Sample cg + 1) cg)) with (RecordId cg).
    f_equal; [f_equal|].
    + replace (Sample cg + 1 + Z.of_nat n) with (Sample cg + Z.of_nat (S n)) by lia.
      by destruct cg.
    + f_equal. rewrite Nat2Z.inj_succ. ring.
    + cbn [seq map app]. rewrite Z.add_0_r, Z.mul_0_l, Z.add_0_r. f_equal.
      rewrite <- seq_shift, map_map. apply map_ext. intros i.
      rewrite Nat2Z.inj_succ.
      replace (file_pos file + size + Z.of_nat i * size)
        with (file_pos file + Z.succ (Z.of_nat i) * size) by ring.
      replace (Sample cg + 1 + Z.of_nat i) with (Sample cg + Z.succ (Z.of_nat i)) by ring.
      reflexivity.
Qed.

End WholeRecords.

Lemma ReadDataRecord_whole_record_witness :
  ReadDataRecord last_sample_group (mkFile [1; 2; 3; 4; 5; 6; 7; 8; 9] 1)
  = Some (8, set_sample 3 last_sample_group, mkFile [1; 2; 3; 4; 5; 6; 7; 8; 9] 9,
          [mkSampleRecord 2 1 [2; 3; 4; 5; 6; 7; 8; 9]]).
Proof.
  destruct (ReadDataRecord_whole_record last_sample_group
              (mkFile [1; 2; 3; 4; 5; 6; 7; 8; 9] 1)) as (_ & Hdeliver & _).
  - reflexivity.
  - vm_compute. discriminate.
  - vm_compute. discriminate.
  - rewrite Hdeliver by reflexivity. reflexivity.
Defined.

Lemma replay_whole_records_witness :
  replay 2 (replay_group 0 2 1 5 1) stream_file
  = (replay_group 0 2 1 5 3, mkFile [1; 2; 3; 4; 5; 6; 7] 6,
     [mkSampleRecord 1 1 [1; 2; 3]; mkSampleRecord 2 1 [4; 5; 6]]).
Proof.
  rewrite (replay_whole_records 2 (replay_group 0 2 1 5 1) stream_file).
  - reflexivity.
  - reflexivity.
  - vm_compute. discriminate.
  - vm_compute. discriminate.
  - vm_compute. discriminate.
  - vm_compute. discriminate.
  - reflexivity.
Defined.

(** ** Looking a block up *)

Lemma first_found_head {A B : Type} (search : A -> option B) (l : list (option A)) :
  first_found search l = head (omap search (omap id l)).
Proof.
  induction l as [|[a|] l IH]; cbn; [reflexivity | | exact IH].
  destruct (search a) as [p|]; [reflexivity | exact IH].
Qed.

(** X12: [Find] returns the first hit in a fixed order: the source
    information, then the group's own channels in list order, then the
    sample reductions in list order, then the search of the base class.
    Null entries of the two lists are passed over, and the channels nested
    in compositions are reached only through their owners' searches. *)
Theorem Find_first_hit {B : Type} `{BlockFind B} (cg : Cg4Block) (index : Z) :
  Find cg index =
    head (omap (fun si => Find_si si index) (option_list (si_block_ cg))
          ++ omap (fun cn => Find_cn cn index) (own_channels cg)
          ++ omap (fun sr => Find_sr sr index) (omap id (sr_list_ cg))
          ++ option_list (Find_base cg index)).
Proof.
  unfold Find, own_channels. rewrite !first_found_head.
  destruct (si_block_ cg) as [si|]; cbn.
  - destruct (Find_si si index) as [p|]; cbn; [reflexivity|].
    destruct (omap _ (omap id (cn_list_ cg))) as [|p l]; cbn; [|reflexivity].
    destruct (omap _ (omap id (sr_list_ cg))) as [|p l]; cbn; [|reflexivity].
    by destruct (Find_base cg index).
  - destruct (omap _ (omap id (cn_list_ cg))) as [|p l]; cbn; [|reflexivity].
    destruct (omap _ (omap id (sr_list_ cg))) as [|p l]; cbn; [|reflexivity].
    by destruct (Find_base cg index).
Qed.

(** ** Reading the block *)

Section Reading.
Context `{reader : MdfBlockReader}.

Lemma read_fixed_fields_frame (bytes bytes' : Z) (cg cg' : Cg4Block)
    (file file' : File) :
  read_fixed_fields bytes cg file = Some (bytes', cg', file') ->
  base cg' = base cg /\ acquisition_name_ cg' = acquisition_name_ cg /\
  cn_list_ cg' = cn_list_ cg /\ si_block_ cg' = si_block_ cg /\
  sr_list_ cg' = sr_list_ cg /\ md_comment_ cg' = md_comment_ cg /\
  sample_ cg' = sample_ cg /\ sample_buffer_ cg' = sample_buffer_ cg /\
  nof_samples_position_ cg' = nof_samples_position_ cg /\
  nof_data_position_ cg' = nof_data_position_ cg /\
  nof_invalid_position_ cg' = nof_invalid_position_ cg.
Proof.
  unfold read_fixed_fields.
  destruct (ReadNumber 8 file) as [[[n1 v1] f1]|]; [cbn|discriminate].
  destruct (ReadNumber 8 f1) as [[[n2 v2] f2]|]; [cbn|discriminate].
  destruct (ReadNumber 2 f2) as [[[n3 v3] f3]|]; [cbn|discriminate].
  destruct (ReadNumber 2 f3) as [[[n4 v4] f4]|]; [cbn|discriminate].
  destruct (ReadByte f4 4) as [[[n5 v5] f5]|]; [cbn|discriminate].
  destruct (ReadNumber 4 f5) as [[[n6 v6] f6]|]; [cbn|discriminate].
  destruct (ReadNumber 4 f6) as [[[n7 v7] f7]|]; [cbn|discriminate].
  intros [= _ <- _]. repeat split.
Qed.

(** X13: what [Read] leaves alone.  A read that does not raise takes in
    the header, the fixed fields, the name, the source information and the
    comment, and nothing else: the channel list and the list of sample
    reductions are as before (they are read by [ReadCnList] and
    [ReadSrList]), and so are the replay cursor, the sample buffer and the
    three patch positions.  The source information is replaced exactly when
    the link the header holds for it is positive, and then the group owns a
    source-information block. *)
Theorem Read_frame (cg cg' : Cg4Block) (file file' : File) (bytes : Z) :
  Read cg file = Some (bytes, cg', file') ->
  cn_list_ cg' = cn_list_ cg /\ sr_list_ cg' = sr_list_ cg /\
  sample_ cg' = sample_ cg /\ sample_buffer_ cg' = sample_buffer_ cg /\
  nof_samples_position_ cg' = nof_samples_position_ cg /\
  nof_data_position_ cg' = nof_data_position_ cg /\
  nof_invalid_position_ cg' = nof_invalid_position_ cg /\
  (Link (base cg') kIndexSi <= 0 -> si_block_ cg' = si_block_ cg) /\
  (0 < Link (base cg') kIndexSi -> is_Some (si_block_ cg')).
Proof.
  unfold Read.
  destruct (ReadHeader4 file (base cg)) as [[[n0 b] f0]|]; [cbn|discriminate].
  destruct (read_fixed_fields n0 (set_base b cg) f0) as [[[n1 cg1] f1]|] eqn:Hfields;
    [cbn|discriminate].
  apply read_fixed_fields_frame in Hfields.
  destruct Hfields as (Hb & _ & Hcn & Hsi & Hsr & _ & Hs & Hbuf & Hsp & Hdp & Hip).
  cbn in Hb, Hcn, Hsi, Hsr, Hs, Hbuf, Hsp, Hdp, Hip.
  destruct (ReadTx4 f1 (base cg1)) as [[name f2]|]; [cbn|discriminate].
  destruct (Z.ltb_spec 0 (Link (base cg1) kIndexSi)) as [Hlink|Hlink].
  - destruct (Read_si _) as [[si f3]|]; [cbn|discriminate].
    destruct (ReadMdComment f3 (base cg1) (md_comment_ cg1)) as [[md f4]|];
      [cbn|discriminate].
    intros [= _ <- _]. cbn. repeat split; try done; try lia; eauto.
  - cbn. destruct (ReadMdComment f2 (base cg1) (md_comment_ cg1)) as [[md f3]|];
      [cbn|discriminate].
    intros [= _ <- _]. cbn. repeat split; try done; lia.
Qed.

End Reading.

Lemma Read_frame_witness :
  let cg' :=
    set_owned (Some (mkSi4Block 200)) [] None
      (set_nof_invalid_bytes 1 (set_nof_data_bytes 2
         (set_path_separator 46 (set_flags 0 (set_nof_samples 3
            (set_record_id 7 linked_group)))))) in
  Read linked_group linked_file = Some (104, cg', mkFile (file_bytes linked_file) 200) /\
  cn_list_ cg' = cn_list_ linked_group /\
  is_Some (si_block_ cg').
Proof.
  intros cg'.
  assert (Hread : Read linked_group linked_file
                  = Some (104, cg', mkFile (file_bytes linked_file) 200))
    by (vm_compute; reflexivity).
  split; [exact Hread|].
  destruct (Read_frame linked_group cg' linked_file _ 104 Hread)
    as (Hcn & _ & _ & _ & _ & _ & _ & _ & Hsi).
  split; [exact Hcn|]. apply Hsi. vm_compute. reflexivity.
Defined.

(** ** The fixed fields on file *)

Lemma fwrite_read_back (bs : list Z) (file : File) :
  0 <= file_pos file ->
  read_field (fwrite bs file) (file_pos file) (length bs) = le_value bs.
Proof.
  intros Hpos. unfold read_field. f_equal.
  apply list_eq. intros i. rewrite list_lookup_fmap.
  destruct (decide (i < length bs)%nat) as [Hi|Hi].
  - rewrite lookup_seq_lt by lia. cbn [fmap option_fmap option_map Nat.add].
    rewrite byte_at_fwrite_inside by done.
    destruct (bs !! i) eqn:Hl; [reflexivity|].
    apply lookup_ge_None in Hl. lia.
  - rewrite lookup_seq_ge by lia. by rewrite lookup_ge_None_2 by lia.
Qed.

Lemma read_field_fwrite_before (bs : list Z) (file : File) (position : Z) (width : nat) :
  0 <= file_pos file ->
  position + Z.of_nat width <= file_pos file ->
  read_field (fwrite bs file) position width = read_field file position width.
Proof.
  intros Hpos Hbefore. apply read_field_outside. intros p Hp.
  apply byte_at_fwrite_outside; [exact Hpos | lia].
Qed.

Lemma write_fixed_fields_file (vlsd : bool) (bytes : Z) (cg : Cg4Block) (file : File) :
  let r := write_fixed_fields vlsd bytes cg file in
  r.1.1 = u64 (u64 (u64 (u64 (u64 (u64 (u64 (bytes + 8) + 8) + 2) + 2) + 4) + 4) + 4) /\
  r.2 = fwrite (le_bytes 4 (nof_invalid_bytes_ cg))
          (fwrite (le_bytes 4 (nof_data_bytes_ cg))
             (fwrite (replicate 4 0)
                (fwrite (le_bytes 2 (path_separator_ cg))
                   (fwrite (le_bytes 2 (flags_ cg))
                      (fwrite (le_bytes 8 (nof_samples_ cg))
                         (fwrite (le_bytes 8 (record_id_ cg)) file)))))).
Proof.
  unfold write_fixed_fields, WriteNumber, WriteBytes.
  destruct vlsd; split; reflexivity.
Qed.

Lemma u64_add (a b : Z) : u64 (u64 a + b) = u64 (a + b).
Proof. unfold u64. apply Zplus_mod_idemp_l. Qed.

Lemma u64_chain_32 (bytes : Z) :
  u64 (u64 (u64 (u64 (u64 (u64 (u64 (bytes + 8) + 8) + 2) + 2) + 4) + 4) + 4)
  = (bytes + 32) mod 2 ^ 64.
Proof.
  rewrite (u64_add (bytes + 8)), (u64_add (bytes + 8 + 8)),
    (u64_add (bytes + 8 + 8 + 2)), (u64_add (bytes + 8 + 8 + 2 + 2)),
    (u64_add (bytes + 8 + 8 + 2 + 2 + 4)), (u64_add (bytes + 8 + 8 + 2 + 2 + 4 + 4)).
  unfold u64.
  by replace (bytes + 8 + 8 + 2 + 2 + 4 + 4 + 4) with (bytes + 32) by lia.
Qed.

(** X14: the fixed fields as a first write lays them out.  Written at
    stream position [p], the 32 bytes from [p] on hold, little endian, the
    record id (8 bytes), the sample count (8), the flags (2), the path
    separator (2), four zero bytes, the data byte count (4) and the invalid
    byte count (4), each reduced to its width; the stream ends behind them,
    the count grows by 32 modulo 2^64, and no byte outside these 32 is
    changed. *)
Theorem write_fixed_fields_layout (vlsd : bool) (bytes : Z) (cg : Cg4Block)
    (file : File) :
  0 <= file_pos file ->
  let p := file_pos file in
  let r := write_fixed_fields vlsd bytes cg file in
  r.1.1 = (bytes + 32) mod 2 ^ 64 /\
  file_pos r.2 = p + 32 /\
  read_field r.2 p 8 = record_id_ cg mod 2 ^ 64 /\
  read_field r.2 (p + 8) 8 = nof_samples_ cg mod 2 ^ 64 /\
  read_field r.2 (p + 16) 2 = flags_ cg mod 2 ^ 16 /\
  read_field r.2 (p + 18) 2 = path_separator_ cg mod 2 ^ 16 /\
  read_field r.2 (p + 20) 4 = 0 /\
  read_field r.2 (p + 24) 4 = nof_data_bytes_ cg mod 2 ^ 32 /\
  read_field r.2 (p + 28) 4 = nof_invalid_bytes_ cg mod 2 ^ 32 /\
  (forall q : Z, ~ (p <= q < p + 32) -> byte_at r.2 q = byte_at file q).
Proof.
  intros Hpos p r.
  destruct (write_fixed_fields_file vlsd bytes cg file) as [Hbytes Hfile].
  fold r in Hbytes, Hfile. rewrite Hbytes, Hfile, u64_chain_32. clear Hbytes Hfile r.
  set (b1 := le_bytes 8 (record_id_ cg)). set (f1 := fwrite b1 file).
  set (b2 := le_bytes 8 (nof_samples_ cg)). set (f2 := fwrite b2 f1).
  set (b3 := le_bytes 2 (flags_ cg)). set (f3 := fwrite b3 f2).
  set (b4 := le_bytes 2 (path_separator_ cg)). set (f4 := fwrite b4 f3).
  set (b5 := replicate 4 0). set (f5 := fwrite b5 f4).
  set (b6 := le_bytes 4 (nof_data_bytes_ cg)). set (f6 := fwrite b6 f5).
  set (b7 := le_bytes 4 (nof_invalid_bytes_ cg)). set (f7 := fwrite b7 f6).
  assert (L1 : length b1 = 8%nat) by apply le_bytes_length.
  assert (L2 : length b2 = 8%nat) by apply le_bytes_length.
  assert (L3 : length b3 = 2%nat) by apply le_bytes_length.
  assert (L4 : length b4 = 2%nat) by apply le_bytes_length.
  assert (L5 : length b5 = 4%nat) by apply length_replicate.
  assert (L6 : length b6 = 4%nat) by apply le_bytes_length.
  assert (L7 : length b7 = 4%nat) by apply le_bytes_length.
  assert (P1 : file_pos f1 = p + 8)
    by (unfold f1, fwrite; cbn [file_pos]; fold p; lia).
  assert (P2 : file_pos f2 = p + 16)
    by (unfold f2, fwrite at 1; cbn [file_pos]; lia).
  assert (P3 : file_pos f3 = p + 18)
    by (unfold f3, fwrite at 1; cbn [file_pos]; lia).
  assert (P4 : file_pos f4 = p + 20)
    by (unfold f4, fwrite at 1; cbn [file_pos]; lia).
  assert (P5 : file_pos f5 = p + 24)
    by (unfold f5, fwrite at 1; cbn [file_pos]; lia).
  assert (P6 : file_pos f6 = p + 28)
    by (unfold f6, fwrite at 1; cbn [file_pos]; lia).
  assert (P7 : file_pos f7 = p + 32)
    by (unfold f7, fwrite at 1; cbn [file_pos]; lia).
  assert (R1 : read_field f1 p 8 = record_id_ cg mod 2 ^ 64).
  { rewrite <- L1. unfold f1, p. rewrite fwrite_read_back by done.
    apply (le_value_le_bytes 8). }
  assert (R2 : read_field f2 (p + 8) 8 = nof_samples_ cg mod 2 ^ 64).
  { rewrite <- L2, <- P1. unfold f2. rewrite fwrite_read_back by lia.
    apply (le_value_le_bytes 8). }
  assert (R3 : read_field f3 (p + 16) 2 = flags_ cg mod 2 ^ 16).
  { rewrite <- L3, <- P2. unfold f3. rewrite fwrite_read_back by lia.
    apply (le_value_le_bytes 2). }
  assert (R4 : read_field f4 (p + 18) 2 = path_separator_ cg mod 2 ^ 16).
  { rewrite <- L4, <- P3. unfold f4. rewrite fwrite_read_back by lia.
    apply (le_value_le_bytes 2). }
  assert (R5 : read_field f5 (p + 20) 4 = 0).
  { rewrite <- L5, <- P4. unfold f5. rewrite fwrite_read_back by lia.
    reflexivity. }
  assert (R6 : read_field f6 (p + 24) 4 = nof_data_bytes_ cg mod 2 ^ 32).
  { rewrite <- L6, <- P5. unfold f6. rewrite fwrite_read_back by lia.
    apply (le_value_le_bytes 4). }
  assert (R7 : read_field f7 (p + 28) 4 = nof_invalid_bytes_ cg mod 2 ^ 32).
  { rewrite <- L7, <- P6. unfold f7. rewrite fwrite_read_back by lia.
    apply (le_value_le_bytes 4). }
  split; [reflexivity|]. split; [exact P7|].
  repeat split.
  - rewrite <- R1. unfold f7. rewrite read_field_fwrite_before by lia.
    unfold f6. rewrite read_field_fwrite_before by lia.
    unfold f5. rewrite read_field_fwrite_before by lia.
    unfold f4. rewrite read_field_fwrite_before by lia.
    unfold f3. rewrite read_field_fwrite_before by lia.
    unfold f2. by rewrite read_field_fwrite_before by lia.
  - rewrite <- R2. unfold f7. rewrite read_field_fwrite_before by lia.
    unfold f6. rewrite read_field_fwrite_before by lia.
    unfold f5. rewrite read_field_fwrite_before by lia.
    unfold f4. rewrite read_field_fwrite_before by lia.
    unfold f3. by rewrite read_field_fwrite_before by lia.
  - rewrite <- R3. unfold f7. rewrite read_field_fwrite_before by lia.
    unfold f6. rewrite read_field_fwrite_before by lia.
    unfold f5. rewrite read_field_fwrite_before by lia.
    unfold f4. by rewrite read_field_fwrite_before by lia.
  - rewrite <- R4. unfold f7. rewrite read_field_fwrite_before by lia.
    unfold f6. rewrite read_field_fwrite_before by lia.
    unfold f5. by rewrite read_field_fwrite_before by lia.
  - rewrite <- R5. unfold f7. rewrite read_field_fwrite_before by lia.
    unfold f6. by rewrite read_field_fwrite_before by lia.
  - rewrite <- R6. unfold f7. by rewrite read_field_fwrite_before by lia.
  - exact R7.
  - intros q Hq.
    unfold f7. rewrite byte_at_fwrite_outside by lia.
    unfold f6. rewrite byte_at_fwrite_outside by lia.
    unfold f5. rewrite byte_at_fwrite_outside by lia.
    unfold f4. rewrite byte_at_fwrite_outside by lia.
    unfold f3. rewrite byte_at_fwrite_outside by lia.
    unfold f2. rewrite byte_at_fwrite_outside by lia.
    unfold f1. by rewrite byte_at_fwrite_outside by (fold p; lia).
Qed.

(** ** What a write leaves alone, and what it reports *)

Lemma same_members_refl (cg : Cg4Block) : same_members cg cg.
Proof. unfold same_members. repeat split. Qed.

Lemma same_members_trans (cg1 cg2 cg3 : Cg4Block) :
  same_members cg1 cg2 -> same_members cg2 cg3 -> same_members cg1 cg3.
Proof. unfold same_members. intros H12 H23. intuition congruence. Qed.

Lemma write_fixed_fields_members (vlsd : bool) (bytes : Z) (cg : Cg4Block)
    (file : File) :
  same_members cg (write_fixed_fields vlsd bytes cg file).1.2.
Proof.
  unfold same_members, write_fixed_fields, WriteNumber, WriteBytes.
  destruct vlsd; repeat split.
Qed.

Section WriteMembers.
Context `{io : MdfBlockIo}.

Lemma write_children_members (cg : Cg4Block) (file : File) :
  let cg' := (write_children cg file).1 in
  same_members cg cg' /\ block_type_ (base cg') = block_type_ (base cg).
Proof.
  unfold write_children, same_members.
  destruct (WriteLink4List_cn _ _ _) as [[links1 cn1] file1]. cbn.
  destruct (WriteTx4 _ _ _) as [links2 file2]. cbn.
  destruct (WriteBlock4_si _ _ _) as [[links3 si3] file3]. cbn.
  destruct (WriteLink4List_sr _ _ _) as [[links4 sr4] file4]. cbn.
  destruct (WriteMdComment _ _ _) as [[links5 md5] file5]. cbn.
  repeat split.
Qed.

Lemma resolve_data_links_members (vlsd : bool) (cg : Cg4Block) (file : File) :
  let cg' := (resolve_data_links vlsd cg file).1 in
  same_members cg cg' /\ base cg' = base cg.
Proof.
  unfold resolve_data_links, update_data_links, same_members.
  destruct vlsd; cbn [fst snd];
    (match goal with
     | |- context [GetChannel ?g ?n] => destruct (GetChannel g n)
     end); cbn; repeat split.
Qed.

(** X15: the members a write has no business with.  In both modes [Write]
    leaves the record id, the sample count, the flags, the path separator,
    the two byte counts, the name, the replay cursor and the sample buffer
    as they were, whatever the writers of the child blocks do.  A first
    write leaves the block type ##CG; an update keeps the identity, the
    block type and the three patch positions, and reports the block length
    the group has. *)
Theorem Write_keeps_members (cg : Cg4Block) (file : File) :
  let r := Write cg file in
  let cg' := r.1.2 in
  same_members cg cg' /\
  (FilePosition cg <= 0 -> block_type_ (base cg') = "##CG") /\
  (0 < FilePosition cg ->
   FilePosition cg' = FilePosition cg /\
   block_type_ (base cg') = block_type_ (base cg) /\
   r.1.1 = block_length_ (base cg) /\
   nof_samples_position_ cg' = nof_samples_position_ cg /\
   nof_data_position_ cg' = nof_data_position_ cg /\
   nof_invalid_position_ cg' = nof_invalid_position_ cg).
Proof.
  unfold Write.
  destruct (Z.ltb_spec 0 (FilePosition cg)) as [Hupdate|Hfirst].
  - unfold update_structure.
    pose proof (write_children_members cg file) as [Hsame Htype].
    pose proof (write_children_frame cg file)
      as (Hpos & Hlen & _ & _ & _ & _ & Hsp & Hdp & Hip).
    destruct (write_children cg file) as [cg1 file1].
    destruct (MdfBlock_Update file1 (base cg1)) as [bytes file2].
    cbn [fst snd] in *.
    split; [exact Hsame|]. split; [lia|]. intros _.
    unfold FilePosition. repeat split; assumption.
  - pose proof (write_children_members (init_block cg) file) as [Hsame Htype].
    destruct (write_children (init_block cg) file) as [cg1 file1].
    cbn [fst snd] in *.
    destruct (MdfBlock_Write file1 (base cg1)) as [[bytes position] file2].
    pose proof (write_fixed_fields_members (has_flag (flags_ cg) CgFlag_VlsdChannel)
                  bytes (set_file_position position cg1) file2) as Hfields.
    pose proof (write_fixed_fields_spec (has_flag (flags_ cg) CgFlag_VlsdChannel)
                  bytes (set_file_position position cg1) file2) as (Hbase & _).
    destruct (write_fixed_fields _ bytes (set_file_position position cg1) file2)
      as [[bytes' cg2] file3].
    cbn [fst snd] in *.
    destruct (UpdateBlockSize file3 (base cg2) bytes') as [block_length file4].
    pose proof (resolve_data_links_members (has_flag (flags_ cg) CgFlag_VlsdChannel)
                  (set_block_length block_length cg2) file4) as [Hlinks Hbase3].
    destruct (resolve_data_links _ (set_block_length block_length cg2) file4)
      as [cg3 file5].
    cbn [fst snd] in *.
    split.
    + apply (same_members_trans _ cg1); [exact Hsame|].
      apply (same_members_trans _ cg2); [exact Hfields|exact Hlinks].
    + split; [|lia]. intros _. rewrite Hbase3. cbn. rewrite Hbase. cbn.
      exact Htype.
Qed.

(** X16: what a first write reports.  The count is the count
    [MdfBlock::Write] reported for the header and the link table plus the
    32 bytes of the fixed fields, modulo 2^64.  When [MdfBlock::Write]
    reports the 24 bytes of the header and 8 bytes for each link of the
    table as the first write has sized it, the count is the block length
    the first write declared: 104, and 112 for a group with a remote
    master. *)
Theorem Write_first_reports_block_length (cg : Cg4Block) (file : File) :
  FilePosition cg <= 0 ->
  let children := write_children (init_block cg) file in
  let header := MdfBlock_Write children.2 (base children.1) in
  (Write cg file).1.1 = (header.1.1 + 32) mod 2 ^ 64 /\
  (header.1.1 = 24 + 8 * Z.of_nat (length (link_list_ (base (init_block cg)))) ->
   (Write cg file).1.1 = block_length_ (base (init_block cg)) /\
   (Write cg file).1.1
   = if has_flag (flags_ cg) CgFlag_RemoteMaster then 112 else 104).
Proof.
  intros Hfirst children header.
  assert (Hcount : (Write cg file).1.1 = (header.1.1 + 32) mod 2 ^ 64).
  { unfold Write, header, children.
    destruct (Z.ltb_spec 0 (FilePosition cg)) as [|_]; [lia|].
    destruct (write_children (init_block cg) file) as [cg1 file1].
    cbn [fst snd].
    destruct (MdfBlock_Write file1 (base cg1)) as [[bytes position] file2].
    cbn [fst snd].
    pose proof (write_fixed_fields_file (has_flag (flags_ cg) CgFlag_VlsdChannel)
                  bytes (set_file_position position cg1) file2) as [Hbytes _].
    destruct (write_fixed_fields _ bytes (set_file_position position cg1) file2)
      as [[bytes' cg2] file3].
    cbn [fst snd] in Hbytes.
    destruct (UpdateBlockSize file3 (base cg2) bytes') as [block_length file4].
    destruct (resolve_data_links _ (set_block_length block_length cg2) file4)
      as [cg3 file5].
    cbn [fst snd]. rewrite Hbytes. apply u64_chain_32. }
  split; [exact Hcount|].
  intros Hheader. rewrite Hcount, Hheader. unfold init_block. cbn.
  rewrite length_resize.
  destruct (has_flag (flags_ cg) CgFlag_RemoteMaster); split; reflexivity.
Qed.

End WriteMembers.

Lemma write_fixed_fields_layout_witness :
  read_field (write_fixed_fields false 72 (replay_group 0 2 1 3 0) id_block_file).2 72 8
  = 3.
Proof.
  destruct (write_fixed_fields_layout false 72 (replay_group 0 2 1 3 0) id_block_file)
    as (_ & _ & _ & Hsamples & _).
  - vm_compute. discriminate.
  - exact Hsamples.
Defined.

Lemma Write_first_reports_block_length_witness :
  (Write (new_group 8 []) id_block_file).1.1 = 112.
Proof.
  destruct (Write_first_reports_block_length (new_group 8 []) id_block_file)
    as [_ Hlength].
  - vm_compute. discriminate.
  - destruct Hlength as [_ Hlength]; [reflexivity | exact Hlength].
Defined.

(** ** An update of a group that recorded no position *)

Section UpdateUnrecorded.
Context `{io : MdfBlockIo}.

(** X17: an update patches a counter only at a position that a first
    write recorded.  On a group that has an identity but no recorded
    position (none of the three is positive), [Write] leaves the file
    exactly as the writers of the child blocks and [MdfBlock::Update] left
    it: the counters of the group are not written. *)
Theorem Write_update_unrecorded (cg : Cg4Block) (file : File) :
  0 < FilePosition cg ->
  nof_samples_position_ cg <= 0 ->
  nof_data_position_ cg <= 0 ->
  nof_invalid_position_ cg <= 0 ->
  (Write cg file).2 = (update_structure cg file).2.
Proof.
  intros Hupdate Hsp Hdp Hip.
  rewrite (Write_update cg file Hupdate). cbn [fst snd].
  destruct (update_structure_frame cg file) as (_ & _ & _ & _ & _ & Hsp' & Hdp' & Hip').
  set (st := update_structure cg file) in *.
  unfold update_counters, patch_field. rewrite Hsp', Hdp', Hip'.
  destruct (Z.ltb_spec 0 (nof_samples_position_ cg)); [lia|].
  destruct (Z.ltb_spec 0 (nof_data_position_ cg)); [lia|].
  destruct (Z.ltb_spec 0 (nof_invalid_position_ cg)); [lia|].
  reflexivity.
Qed.

End UpdateUnrecorded.

Lemma Write_update_unrecorded_witness :
  (Write (with_counters (9, 2, 1) (group_at 1000 0 [])) stream_file).2 = stream_file.
Proof.
  rewrite (Write_update_unrecorded (with_counters (9, 2, 1) (group_at 1000 0 []))
             stream_file).
  - reflexivity.
  - reflexivity.
  - vm_compute. discriminate.
  - vm_compute. discriminate.
  - vm_compute. discriminate.
Defined.

(** ** Frames of a VLSD group *)

Section VlsdFrames.
Context `{io : MdfBlockIo}.

(** X18: one frame of a VLSD group.  When the length prefix is read as
    [len], an empty frame ([len] is 0) consumes the prefix only and gives
    an empty record; a frame whose [len] bytes are all in the stream
    consumes the prefix and those bytes, and the record is those very
    bytes.  Either way the record goes to the observer under the rule of
    the replay cursor, and the count is the bytes of the prefix plus the
    bytes of the payload. *)
Theorem ReadDataRecord_vlsd_frame (cg : Cg4Block) (file file1 : File) (n len : Z) :
  is_vlsd cg = true ->
  ReadNumber_u32 file = Some (n, len, file1) ->
  0 <= file_pos file1 ->
  0 <= len ->
  file_pos file1 + len <= Z.of_nat (length (file_bytes file1)) ->
  let record :=
    take (Z.to_nat len) (drop (Z.to_nat (file_pos file1)) (file_bytes file1)) in
  Z.of_nat (length record) = len /\
  ReadDataRecord cg file
  = Some (u64 (n + len), (notify_sample cg record).1,
          mkFile (file_bytes file1) (file_pos file1 + len),
          (notify_sample cg record).2).
Proof.
  intros Hv Hread Hpos Hlen Hfits record.
  destruct (fread_full len file1 Hpos Hlen Hfits) as [Hfread Hgot].
  fold record in Hfread, Hgot.
  split; [rewrite Hgot; lia|].
  unfold ReadDataRecord.
  change (has_flag (flags_ cg) CgFlag_VlsdChannel) with (is_vlsd cg).
  rewrite Hv, Hread.
  destruct (Z.ltb_spec 0 len) as [Hpositive|Hempty].
  - rewrite Hfread. cbv beta iota zeta.
    rewrite (read_into_full _ _ Hgot), Hgot, Z2Nat.id, Z.add_0_l, u64_add by lia.
    by destruct (notify_sample cg record).
  - assert (len = 0) as -> by lia.
    cbv beta iota zeta.
    assert (Hnil : record = []) by (unfold record; by rewrite take_0).
    rewrite Hnil, Z.add_0_l, !Z.add_0_r.
    change (read_into 0 []) with (@nil Z).
    destruct (notify_sample cg []) as [cg' notes].
    by destruct file1.
Qed.

End VlsdFrames.

Lemma ReadDataRecord_vlsd_frame_witness :
  ReadDataRecord vlsd_replay_group vlsd_frames
  = Some (9, set_sample 1 vlsd_replay_group,
          mkFile (file_bytes vlsd_frames) 9,
          [mkSampleRecord 0 1 [1; 2; 3; 4; 5]]).
Proof.
  destruct (ReadDataRecord_vlsd_frame vlsd_replay_group vlsd_frames
              (mkFile (file_bytes vlsd_frames) 4) 4 5) as [_ Hframe].
  - reflexivity.
  - reflexivity.
  - vm_compute. discriminate.
  - vm_compute. discriminate.
  - vm_compute. discriminate.
  - exact Hframe.
Defined.
